(** * dlls/x11drv/window.c: X11 peer windows of the logical window tree

    A shallow embedding of the window-related functions of the X11 driver
    (classification of managed windows, coordinate translation, geometry
    synchronisation, window-manager hints, creation and destruction of the
    peer windows), and the properties of them that the specification states. *)

From Stdlib Require Import ZArith List Bool Lia.
Import ListNotations.
Local Open Scope Z_scope.

(** ** Machine integers

    [int], [LONG] and [INT] are 32-bit two's-complement integers; they are
    carried by [Z], and every arithmetic result is brought back into the
    signed range by [wrap]. *)
Module Int32.

Definition modulus : Z := 4294967296.
Definition half_modulus : Z := 2147483648.

Definition wrap (z : Z) : Z := (z + half_modulus) mod modulus - half_modulus.

Definition add (a b : Z) : Z := wrap (a + b).
Definition sub (a b : Z) : Z := wrap (a - b).
Definition neg (a : Z) : Z := wrap (- a).

Definition in_range (z : Z) : Prop := - half_modulus <= z < half_modulus.

End Int32.

(** A bit test [(v & m) != 0] of the C source. *)
Definition has_bits (v m : Z) : bool := negb (Z.land v m =? 0).

(** ** Constants of the headers

    The source includes [winuser.h], [win.h], [X11/X.h], [X11/Xutil.h] and
    [mwm.h] for the names below; the values are those of these headers. *)
Module WS.
Definition POPUP      : Z := 0x80000000.
Definition CHILD      : Z := 0x40000000.
Definition MINIMIZE   : Z := 0x20000000.
Definition VISIBLE    : Z := 0x10000000.
Definition MAXIMIZE   : Z := 0x01000000.
Definition CAPTION    : Z := 0x00C00000.
Definition BORDER     : Z := 0x00800000.
Definition DLGFRAME   : Z := 0x00400000.
Definition VSCROLL    : Z := 0x00200000.
Definition HSCROLL    : Z := 0x00100000.
Definition SYSMENU    : Z := 0x00080000.
Definition THICKFRAME : Z := 0x00040000.
Definition EX_DLGMODALFRAME : Z := 0x00000001.
Definition EX_TOOLWINDOW    : Z := 0x00000080.
Definition EX_MANAGED       : Z := 0x40000000.
Definition EX_TRAYWINDOW    : Z := 0x80000000.
Definition CS_VREDRAW  : Z := 0x0001.
Definition CS_HREDRAW  : Z := 0x0002.
Definition CS_SAVEBITS : Z := 0x0800.
(* window positions, show commands, SetWindowPos flags, WM_SIZE types *)
Definition HWND_TOP    : Z := 0.
Definition HWND_BOTTOM : Z := 1.
Definition SW_MAXIMIZE : Z := 3.
Definition SW_MINIMIZE : Z := 6.
Definition SWP_NOZORDER     : Z := 0x0004.
Definition SWP_NOACTIVATE   : Z := 0x0010.
Definition SWP_FRAMECHANGED : Z := 0x0020.
Definition SIZE_RESTORED : Z := 0.
End WS.

Module X11.
(* XWindowChanges value mask *)
Definition CWX : Z := 1.
Definition CWY : Z := 2.
Definition CWWidth : Z := 4.
Definition CWHeight : Z := 8.
Definition CWSibling : Z := 32.
Definition CWStackMode : Z := 64.
Definition Above : Z := 0.
Definition Below : Z := 1.
(* XSetWindowAttributes value mask *)
Definition CWBitGravity : Z := 16.
Definition CWWinGravity : Z := 32.
Definition CWBackingStore : Z := 64.
Definition CWOverrideRedirect : Z := 512.
Definition CWSaveUnder : Z := 1024.
Definition CWEventMask : Z := 2048.
Definition CWColormap : Z := 8192.
Definition CWCursor : Z := 16384.
(* event masks *)
Definition KeyPressMask : Z := 1.
Definition KeyReleaseMask : Z := 2.
Definition ButtonPressMask : Z := 4.
Definition ButtonReleaseMask : Z := 8.
Definition PointerMotionMask : Z := 64.
Definition KeymapStateMask : Z := 16384.
Definition ExposureMask : Z := 32768.
Definition StructureNotifyMask : Z := 131072.
Definition FocusChangeMask : Z := 2097152.
(* gravities, backing store *)
Definition ForgetGravity : Z := 0.
Definition NorthWestGravity : Z := 1.
Definition StaticGravity : Z := 10.
Definition NotUseful : Z := 0.
(* XSizeHints flags *)
Definition PPosition : Z := 4.
Definition PMinSize : Z := 16.
Definition PMaxSize : Z := 32.
Definition PWinGravity : Z := 512.
(* XWMHints flags and states *)
Definition InputHint : Z := 1.
Definition StateHint : Z := 2.
Definition IconPixmapHint : Z := 4.
Definition IconWindowHint : Z := 8.
Definition IconPositionHint : Z := 16.
Definition IconMaskHint : Z := 32.
Definition WindowGroupHint : Z := 64.
Definition NormalState : Z := 1.
Definition IconicState : Z := 3.
Definition XA_WINDOW : Z := 33.
End X11.

Module MWM.
Definition HINTS_FUNCTIONS : Z := 1.
Definition HINTS_DECORATIONS : Z := 2.
Definition FUNC_RESIZE : Z := 2.
Definition FUNC_MOVE : Z := 4.
Definition FUNC_MINIMIZE : Z := 8.
Definition FUNC_MAXIMIZE : Z := 16.
Definition FUNC_CLOSE : Z := 32.
Definition DECOR_BORDER : Z := 2.
Definition DECOR_RESIZEH : Z := 4.
Definition DECOR_TITLE : Z := 8.
Definition DECOR_MENU : Z := 16.
Definition DECOR_MINIMIZE : Z := 32.
Definition DECOR_MAXIMIZE : Z := 64.
End MWM.

(** ** Rectangles *)

Record RECT : Type := mkRECT { left : Z; top : Z; right : Z; bottom : Z }.

Definition rect_in_range (r : RECT) : Prop :=
  Int32.in_range (left r) /\ Int32.in_range (top r) /\
  Int32.in_range (right r) /\ Int32.in_range (bottom r).

(** Modelled from the spec: [IsRectEmpty] is a rectangle primitive of
    [winuser.h], not defined in this file; the specification calls a rectangle
    empty when it has zero or negative width or height. *)
Definition IsRectEmpty (r : RECT) : bool :=
  (right r <=? left r) || (bottom r <=? top r).

(** Modelled from the spec: [OffsetRect] of [winuser.h] moves a rectangle by
    [(dx, dy)]; the client rectangle is expressed relative to the origin of
    the whole rectangle with it. *)
Definition OffsetRect (r : RECT) (dx dy : Z) : RECT :=
  mkRECT (Int32.add (left r) dx) (Int32.add (top r) dy)
         (Int32.add (right r) dx) (Int32.add (bottom r) dy).

(** Modelled from the spec: [SetRect] of [winuser.h] stores the four edges. *)
Definition SetRect (l t r b : Z) : RECT := mkRECT l t r b.

(** [MAKELONG] of [windef.h] packs two 16-bit words into a [LONG], the
    first one low. *)
Definition MAKELONG (low high : Z) : Z :=
  Int32.wrap (Z.lor (low mod 65536) (Z.shiftl (high mod 65536) 16)).

Definition HAS_DLGFRAME (style exStyle : Z) : bool :=
  has_bits exStyle WS.EX_DLGMODALFRAME ||
  (has_bits style WS.DLGFRAME && negb (has_bits style WS.THICKFRAME)).

(** ** The logical window and its driver data *)

Definition HWND := Z.
Definition Window := Z.
Definition HANDLE := Z.

(** [struct x11drv_win_data] *)
Record x11drv_win_data : Type := mkData {
  whole_window  : Window;
  client_window : Window;
  icon_window   : Window;
  whole_rect    : RECT;
  client_rect   : RECT;
  hWMIconBitmap : HANDLE;
  hWMIconMask   : HANDLE
}.

(** The fields of [WND] that this file reads or writes.  [pDriverData] is
    [None] for the null pointer. *)
Record WND : Type := mkWND {
  hwndSelf    : HWND;
  parent      : HWND;
  owner       : HWND;
  dwStyle     : Z;
  dwExStyle   : Z;
  clsStyle    : Z;
  rectWindow  : RECT;
  rectClient  : RECT;
  pDriverData : option x11drv_win_data
}.

Definition set_dwExStyle (w : WND) (e : Z) : WND :=
  mkWND (hwndSelf w) (parent w) (owner w) (dwStyle w) e (clsStyle w)
        (rectWindow w) (rectClient w) (pDriverData w).

Definition set_dwStyle (w : WND) (st : Z) : WND :=
  mkWND (hwndSelf w) (parent w) (owner w) st (dwExStyle w) (clsStyle w)
        (rectWindow w) (rectClient w) (pDriverData w).

Definition set_rects (w : WND) (rw rc : RECT) : WND :=
  mkWND (hwndSelf w) (parent w) (owner w) (dwStyle w) (dwExStyle w) (clsStyle w)
        rw rc (pDriverData w).

Definition set_pDriverData (w : WND) (d : option x11drv_win_data) : WND :=
  mkWND (hwndSelf w) (parent w) (owner w) (dwStyle w) (dwExStyle w) (clsStyle w)
        (rectWindow w) (rectClient w) d.

Definition set_whole (d : x11drv_win_data) (x : Window) (r : RECT) : x11drv_win_data :=
  mkData x (client_window d) (icon_window d) r (client_rect d)
         (hWMIconBitmap d) (hWMIconMask d).

Definition set_whole_rect (d : x11drv_win_data) (r : RECT) : x11drv_win_data :=
  mkData (whole_window d) (client_window d) (icon_window d) r (client_rect d)
         (hWMIconBitmap d) (hWMIconMask d).

Definition set_client_window (d : x11drv_win_data) (x : Window) : x11drv_win_data :=
  mkData (whole_window d) x (icon_window d) (whole_rect d) (client_rect d)
         (hWMIconBitmap d) (hWMIconMask d).

Definition set_client_rect (d : x11drv_win_data) (r : RECT) : x11drv_win_data :=
  mkData (whole_window d) (client_window d) (icon_window d) (whole_rect d) r
         (hWMIconBitmap d) (hWMIconMask d).

Definition set_icon_window (d : x11drv_win_data) (x : Window) : x11drv_win_data :=
  mkData (whole_window d) (client_window d) x (whole_rect d) (client_rect d)
         (hWMIconBitmap d) (hWMIconMask d).

Definition set_icon_bitmaps (d : x11drv_win_data) (bmp mask : HANDLE) : x11drv_win_data :=
  mkData (whole_window d) (client_window d) (icon_window d) (whole_rect d)
         (client_rect d) bmp mask.

(** ** Xlib structures *)

Record XWindowChanges : Type := mkChanges {
  ch_x : Z; ch_y : Z; ch_width : Z; ch_height : Z;
  ch_sibling : Window; ch_stack_mode : Z
}.

(** An [XWindowChanges] on the stack is not initialised by the source; only
    the fields named by the mask are read by the server.  The embedding starts
    from zeros. *)
Definition no_changes : XWindowChanges := mkChanges 0 0 0 0 0 0.

Record XSetWindowAttributes : Type := mkAttr {
  override_redirect : bool;
  colormap          : Z;
  save_under        : bool;
  cursor            : Z;
  event_mask        : Z;
  bit_gravity       : Z;
  win_gravity       : Z;
  backing_store     : Z
}.

Record XSizeHints : Type := mkSizeHints {
  sh_flags : Z; sh_x : Z; sh_y : Z;
  min_width : Z; min_height : Z; max_width : Z; max_height : Z;
  sh_win_gravity : Z
}.

Record XWMHints : Type := mkWMHints {
  wm_flags : Z; wm_input : bool; initial_state : Z;
  icon_pixmap : Z; wm_icon_window : Window; icon_mask : Z;
  window_group : Window
}.

Record MwmHints : Type := mkMwm {
  mwm_flags : Z; mwm_functions : Z; mwm_decorations : Z
}.

(** The window properties kept on the logical window. *)
Inductive PropAtom : Type :=
  whole_window_atom | client_window_atom | icon_window_atom.

(** The fields of [CREATESTRUCTA] that the driver reads or writes. *)
Record CREATESTRUCTA : Type := mkCS {
  cs_x : Z; cs_y : Z; cs_cx : Z; cs_cy : Z; cs_style : Z
}.

(** The window messages that [X11DRV_CreateWindow] and [create_desktop]
    send, with the arguments they pass. *)
Inductive Message : Type :=
| WM_NCCREATE (cs : CREATESTRUCTA)
| WM_NCCALCSIZE (rect : RECT)   (* wParam is FALSE *)
| WM_CREATE (cs : CREATESTRUCTA)
| WM_SIZE (wparam lparam : Z)
| WM_MOVE (lparam : Z).

(** The names that [create_desktop] interns as X atoms; [XA_MWM_HINTS] is
    the macro [_XA_MWM_HINTS] of [mwm.h]. *)
Inductive AtomName : Type :=
| WM_PROTOCOLS
| WM_DELETE_WINDOW
| DndProtocol
| DndSelection
| WM_CHANGE_STATE
| XA_MWM_HINTS
| KWM_DOCKWINDOW
| KDE_NET_WM_SYSTEM_TRAY_WINDOW_FOR.

(** ** Calls into Xlib, USER and GDI

    The calls that the functions of this file make on the display
    connection, on the window and graphics objects, and into the hooks and
    window procedures of the application are recorded, in program order.
    Functions that only look something up ([WIN_GetPtr], [GetPropA],
    [GetWindow], [GetIconInfo], ...) are read from the environment and
    leave no record; nor do the requests that another module of the driver
    makes on its own behalf ([X11DRV_GetCursor] creating the cursor). *)
Inductive Call : Type :=
| XCreateWindow (parent_win : Window) (x y width height : Z)
                (mask : Z) (attr : XSetWindowAttributes)
| XDestroyWindow (w : Window)
| XSaveContext (w : Window) (hwnd : HWND)
| XDeleteContext (w : Window)
| XConfigureWindow (w : Window) (mask : Z) (changes : XWindowChanges)
| XReconfigureWMWindow (w : Window) (mask : Z) (changes : XWindowChanges)
| XChangeWindowAttributes (w : Window) (mask : Z) (attr : XSetWindowAttributes)
| XMapWindow (w : Window)
| XUnmapWindow (w : Window)
| XSync
| XFreeCursor (c : Z)
| XSetWMProtocols (w : Window) (protocols : list Z)
  (* XSetClassHint with res_name "wine" and res_class "Wine" *)
| XSetClassHint (w : Window)
| XSetTransientForHint (w : Window) (owner_win : Window)
| XSetWMNormalHints (w : Window) (hints : XSizeHints)
| XSetWMHints (w : Window) (hints : XWMHints)
| XChangeProperty (w : Window) (property type : Z) (value : list Z)
  (* XChangeProperty with the MwmHints structure as value *)
| XChangeMwmHints (w : Window) (property : Z) (hints : MwmHints)
| SetPropA (hwnd : HWND) (atom : PropAtom) (value : HANDLE)
| RemovePropA (hwnd : HWND) (atom : PropAtom)
| DeleteObject (h : HANDLE)
| X11DRV_CreateBitmap (h : HANDLE)
  (* the mask bitmap selected into a memory DC and inverted by InvertRect *)
| InvertMaskBits (h : HANDLE)
  (* HeapFree( GetProcessHeap(), 0, data ) *)
| HeapFree_data
  (* create_desktop *)
| XUniqueContext
| XInternAtom (name : AtomName)
| GlobalAddAtomA (atom : PropAtom)
  (* SetPropA( hwnd, "__wine_x11_visual_id", XVisualIDFromVisual(visual) ) *)
| SetPropA_visual_id (hwnd : HWND) (value : HANDLE)
| X11DRV_create_desktop_thread
  (* HOOK_CallHooksA or HOOK_CallHooksW with WH_CBT, HCBT_CREATEWND and a
     CBT_CREATEWNDA made of cs and hwndInsertAfter *)
| HOOK_CallHooks (unicode : bool) (hwnd : HWND) (cs : CREATESTRUCTA)
                 (hwndInsertAfter : HWND)
  (* WINPOS_GetMinMaxInfo, which sends WM_GETMINMAXINFO *)
| WINPOS_GetMinMaxInfo (hwnd : HWND)
  (* SendMessageA or SendMessageW *)
| SendMessage (unicode : bool) (hwnd : HWND) (msg : Message)
| WIN_LinkWindow (hwnd parent_hwnd hwndInsertAfter : HWND)
| WIN_UnlinkWindow (hwnd : HWND)
| WIN_SetStyle (hwnd : HWND) (style : Z)
| WINPOS_MinMaximize (hwnd : HWND) (cmd : Z)
| SetWindowPos (hwnd hwndInsertAfter : HWND) (x y cx cy : Z) (flags : Z).

(** ** The state the driver runs in *)

(** [st_win] is the [WND] the functions receive a pointer to; [st_hIcon] is
    the icon of its class, [GetClassLongA( hwnd, GCL_HICON )]; [st_replies]
    are the window identifiers that the coming [XCreateWindow] requests
    return, [0] (or none left) for a request that fails. *)
Record State : Type := mkState {
  st_win     : WND;
  st_hIcon   : HANDLE;
  st_replies : list Window
}.

(** A computation changes the state, makes calls, and yields a value; [None]
    is a run that does not complete (a null [pDriverData] dereferenced, a
    sibling chain that does not end). *)
Definition X (A : Type) : Type := State -> option (A * State * list Call).

Definition ret {A} (a : A) : X A := fun s => Some (a, s, []).

Definition bind {A B} (m : X A) (f : A -> X B) : X B :=
  fun s =>
    match m s with
    | None => None
    | Some (a, s1, t1) =>
        match f a s1 with
        | None => None
        | Some (b, s2, t2) => Some (b, s2, t1 ++ t2)
        end
    end.

Declare Scope x_scope.
Delimit Scope x_scope with X.
Notation "x <- m ;; k" := (bind m (fun x => k))
  (at level 61, m at next level, right associativity) : x_scope.
Notation "m ;;; k" := (bind m (fun _ => k))
  (at level 61, right associativity) : x_scope.
Local Open Scope x_scope.

Definition crash {A} : X A := fun _ => None.
Definition call (c : Call) : X unit := fun s => Some (tt, s, [c]).
Definition when (b : bool) (m : X unit) : X unit := if b then m else ret tt.

Definition get_win : X WND := fun s => Some (st_win s, s, []).
Definition put_win (w : WND) : X unit :=
  fun s => Some (tt, mkState w (st_hIcon s) (st_replies s), []).
Definition get_hIcon : X HANDLE := fun s => Some (st_hIcon s, s, []).

(** [data = win->pDriverData], to be dereferenced. *)
Definition get_data : X x11drv_win_data :=
  fun s => match pDriverData (st_win s) with
           | Some d => Some (d, s, [])
           | None => None
           end.
Definition put_data (d : x11drv_win_data) : X unit :=
  fun s => Some (tt, mkState (set_pDriverData (st_win s) (Some d))
                             (st_hIcon s) (st_replies s), []).

(** The reply to an [XCreateWindow] request. *)
Definition next_reply : X Window :=
  fun s => match st_replies s with
           | [] => Some (0, s, [])
           | r :: rest => Some (r, mkState (st_win s) (st_hIcon s) rest, [])
           end.

Infix ".|" := Z.lor (at level 40, left associativity).
Infix ".&" := Z.land (at level 40, left associativity).

(** ** The environment of the driver

    Globals of the driver and the functions of USER, GDI and the other driver
    modules that this file calls but does not define. *)

Inductive WndPtr : Type :=
| NullPtr
| WND_OTHER_PROCESS
| Ptr (w : WND).

Record Env : Type := mkEnv {
  managed_mode        : bool;
  root_window         : Window;
  DefaultRootWindow   : Window;
  GetDesktopWindow    : HWND;
  (* atoms interned by create_desktop: the replies to its XInternAtom
     requests *)
  wmDeleteWindow      : Z;
  wmTakeFocus         : Z;
  kwmDockWindow       : Z;
  kde_net_wm_system_tray_window_for : Z;
  mwmHints            : Z;
  X11DRV_PALETTE_PaletteXColormap : Z;
  (* X11DRV_GetCursor( display, GlobalLock16(GetCursor()) ): the cursor that
     the mouse module creates; what that module asks of the X server to
     create it is not among the recorded calls *)
  X11DRV_GetCursor    : Z;
  SM_CXICON           : Z;
  SM_CYICON           : Z;
  (* the non-client metrics calculator: rect, style, menu, exStyle *)
  AdjustWindowRectEx  : RECT -> Z -> bool -> Z -> RECT;
  (* GetIconInfo: the mask and colour bitmaps of an icon *)
  GetIconInfo         : HANDLE -> HANDLE * HANDLE;
  X11DRV_BITMAP_Pixmap : HANDLE -> Z;
  (* the other windows: WIN_GetPtr, GetPropA, GetWindowLongW( GWL_STYLE ),
     and the logical sibling chain, first sibling first *)
  WIN_GetPtr          : HWND -> WndPtr;
  GetPropA            : HWND -> PropAtom -> HANDLE;
  GetWindowLongW_style : HWND -> Z;
  siblings            : list HWND
}.

(** The points at which [X11DRV_CreateWindow] looks the window up again
    after application code has run. *)
Inductive CreateStage : Type :=
| after_WM_GETMINMAXINFO
| after_WM_NCCREATE
| after_WM_NCCALCSIZE
| after_WM_CREATE.

(** What USER and the application answer to [X11DRV_CreateWindow].  The hook
    and the window procedures are code of the application: an answer is what
    they return, and they are taken to leave the fields of the window and
    the driver data as they are, except that the window may be gone when the
    driver looks it up again ([window_gone]: [WIN_GetPtr] or [WIN_FindWndPtr]
    returns null). *)
Record User : Type := mkUser {
  XVisualIDFromVisual    : Z;
  HOOK_IsHooked_CBT      : bool;
  HOOK_CallHooks_reply   : Z;
  (* WINPOS_GetMinMaxInfo: maxSize and minTrack, as (x, y) *)
  GetMinMaxInfo_maxSize  : Z * Z;
  GetMinMaxInfo_minTrack : Z * Z;
  WM_NCCREATE_reply      : Z;
  (* the rectangle that the handler of WM_NCCALCSIZE leaves in place of the
     one it was given *)
  WM_NCCALCSIZE_reply    : RECT -> RECT;
  WM_CREATE_reply        : Z;
  (* wndPtr->flags & WIN_NEED_SIZE *)
  WIN_NEED_SIZE          : bool;
  (* the rectangle that WINPOS_MinMaximize stores in newPos *)
  MinMaximize_newPos     : RECT;
  GetActiveWindow        : HWND;
  window_gone            : CreateStage -> bool
}.

(** Modelled from the spec: [GetWindow( hwnd, GW_HWNDPREV )] belongs to USER;
    it steps backward in the logical sibling chain, and yields [0] for the
    first sibling. *)
Fixpoint GetWindow_prev (chain : list HWND) (hwnd : HWND) : HWND :=
  match chain with
  | [] => 0
  | x :: rest =>
      match rest with
      | [] => 0
      | y :: _ => if y =? hwnd then x else GetWindow_prev rest hwnd
      end
  end.

(** [get_window_changes]: fill the window changes structure. *)
Definition get_window_changes (changes : XWindowChanges) (old new : RECT)
  : Z * XWindowChanges :=
  let mask := 0 in
  let '(mask, changes) :=
    if negb (Int32.sub (right old) (left old) =? Int32.sub (right new) (left new))
    then
      let w := Int32.sub (right new) (left new) in
      let w := if w =? 0 then 1 else w in
      (mask .| X11.CWWidth,
       mkChanges (ch_x changes) (ch_y changes) w (ch_height changes)
                 (ch_sibling changes) (ch_stack_mode changes))
    else (mask, changes) in
  let '(mask, changes) :=
    if negb (Int32.sub (bottom old) (top old) =? Int32.sub (bottom new) (top new))
    then
      let h := Int32.sub (bottom new) (top new) in
      let h := if h =? 0 then 1 else h in
      (mask .| X11.CWHeight,
       mkChanges (ch_x changes) (ch_y changes) (ch_width changes) h
                 (ch_sibling changes) (ch_stack_mode changes))
    else (mask, changes) in
  let '(mask, changes) :=
    if negb (left old =? left new)
    then (mask .| X11.CWX,
          mkChanges (left new) (ch_y changes) (ch_width changes) (ch_height changes)
                    (ch_sibling changes) (ch_stack_mode changes))
    else (mask, changes) in
  let '(mask, changes) :=
    if negb (top old =? top new)
    then (mask .| X11.CWY,
          mkChanges (ch_x changes) (top new) (ch_width changes) (ch_height changes)
                    (ch_sibling changes) (ch_stack_mode changes))
    else (mask, changes) in
  (mask, changes).

Section Driver.

Variable env : Env.

(** [is_window_managed]: check if a given window should be managed. *)
Definition is_window_managed (win : WND) : bool :=
  if negb (managed_mode env) then false
  (* tray window is always managed *)
  else if has_bits (dwExStyle win) WS.EX_TRAYWINDOW then true
  (* child windows are not managed *)
  else if has_bits (dwStyle win) WS.CHILD then false
  (* tool windows are not managed *)
  else if has_bits (dwExStyle win) WS.EX_TOOLWINDOW then false
  (* windows with caption or thick frame are managed *)
  else if (dwStyle win .& WS.CAPTION) =? WS.CAPTION then true
  else if has_bits (dwStyle win) WS.THICKFRAME then true
  (* default: not managed *)
  else false.

(** [is_window_top_level]: check if a given window is a top level X11 window. *)
Definition is_window_top_level (win : WND) : bool :=
  (root_window env =? DefaultRootWindow env) && (parent win =? GetDesktopWindow env).

(** [is_client_window_mapped]: check if the X client window should be mapped. *)
Definition is_client_window_mapped : X bool :=
  win <- get_win ;;
  data <- get_data ;;
  ret (negb (has_bits (dwStyle win) WS.MINIMIZE) && negb (IsRectEmpty (client_rect data))).

Definition input_event_mask : Z :=
  X11.ExposureMask .| X11.KeyPressMask .| X11.KeyReleaseMask .|
  X11.PointerMotionMask .| X11.ButtonPressMask .| X11.ButtonReleaseMask.

(** [get_window_attributes]: fill the window attributes structure for an X
    window.  [WIN_SetExStyle] stores the extended style in the [WND]. *)
Definition get_window_attributes (attr : XSetWindowAttributes)
  : X (Z * XSetWindowAttributes) :=
  win <- get_win ;;
  let is_top_level := is_window_top_level win in
  let managed := is_top_level && is_window_managed win in
  put_win (if managed then set_dwExStyle win (dwExStyle win .| WS.EX_MANAGED)
           else set_dwExStyle win (dwExStyle win .& Z.lnot WS.EX_MANAGED)) ;;;
  win <- get_win ;;
  let top := is_window_top_level win in
  ret (X11.CWOverrideRedirect .| X11.CWSaveUnder .| X11.CWEventMask .|
       X11.CWColormap .| X11.CWCursor,
       mkAttr (negb managed)
              (X11DRV_PALETTE_PaletteXColormap env)
              (has_bits (clsStyle win) WS.CS_SAVEBITS)
              (if top then X11DRV_GetCursor env else 0)
              (if top
               then input_event_mask .| (X11.StructureNotifyMask .|
                      X11.FocusChangeMask .| X11.KeymapStateMask)
               else input_event_mask)
              (bit_gravity attr) (win_gravity attr) (backing_store attr)).

Definition no_attributes : XSetWindowAttributes :=
  mkAttr false 0 false 0 0 0 0 0.

(** [sync_window_style]: change the X window attributes when the window style
    has changed. *)
Definition sync_window_style : X unit :=
  ma <- get_window_attributes no_attributes ;;
  data <- get_data ;;
  call (XChangeWindowAttributes (whole_window data) (fst ma) (snd ma)) ;;;
  when (negb (cursor (snd ma) =? 0)) (call (XFreeCursor (cursor (snd ma)))).

(** [create_icon_window] *)
Definition create_icon_window : X Window :=
  win <- get_win ;;
  data <- get_data ;;
  let attr := mkAttr false (X11DRV_PALETTE_PaletteXColormap env) false 0
                     input_event_mask X11.NorthWestGravity 0 X11.NotUseful in
  let mask := X11.CWEventMask .| X11.CWBitGravity .| X11.CWBackingStore .|
              X11.CWColormap in
  call (XCreateWindow (root_window env) 0 0 (SM_CXICON env) (SM_CYICON env)
                      mask attr) ;;;
  w <- next_reply ;;
  put_data (set_icon_window data w) ;;;
  call (XSaveContext w (hwndSelf win)) ;;;
  call (SetPropA (hwndSelf win) icon_window_atom w) ;;;
  ret w.

(** [destroy_icon_window] *)
Definition destroy_icon_window : X unit :=
  win <- get_win ;;
  data <- get_data ;;
  if icon_window data =? 0 then ret tt
  else
    call (XDeleteContext (icon_window data)) ;;;
    call (XDestroyWindow (icon_window data)) ;;;
    put_data (set_icon_window data 0) ;;;
    call (RemovePropA (hwndSelf win) icon_window_atom).

Definition icon_hint_bits : Z :=
  X11.IconPixmapHint .| X11.IconMaskHint .| X11.IconWindowHint.

(** [set_icon_hints]: set the icon wm hints. *)
Definition set_icon_hints (hints : XWMHints) : X XWMHints :=
  wndPtr <- get_win ;;
  data <- get_data ;;
  hIcon <- get_hIcon ;;
  when (negb (hWMIconBitmap data =? 0)) (call (DeleteObject (hWMIconBitmap data))) ;;;
  when (negb (hWMIconMask data =? 0)) (call (DeleteObject (hWMIconMask data))) ;;;
  put_data (set_icon_bitmaps data 0 0) ;;;
  if negb (has_bits (dwExStyle wndPtr) WS.EX_MANAGED) then
    destroy_icon_window ;;;
    ret (mkWMHints (wm_flags hints .& Z.lnot icon_hint_bits)
                   (wm_input hints) (initial_state hints) (icon_pixmap hints)
                   (wm_icon_window hints) (icon_mask hints) (window_group hints))
  else if hIcon =? 0 then
    data <- get_data ;;
    (if icon_window data =? 0 then (_ <- create_icon_window ;; ret tt)
     else ret tt) ;;;
    data <- get_data ;;
    ret (mkWMHints
           ((wm_flags hints .& Z.lnot (X11.IconPixmapHint .| X11.IconMaskHint))
              .| X11.IconWindowHint)
           (wm_input hints) (initial_state hints) (icon_pixmap hints)
           (icon_window data) (icon_mask hints) (window_group hints))
  else
    let hbmMask := fst (GetIconInfo env hIcon) in
    let hbmColor := snd (GetIconInfo env hIcon) in
    call (X11DRV_CreateBitmap hbmMask) ;;;
    call (X11DRV_CreateBitmap hbmColor) ;;;
    call (InvertMaskBits hbmMask) ;;;
    data <- get_data ;;
    put_data (set_icon_bitmaps data hbmColor hbmMask) ;;;
    destroy_icon_window ;;;
    ret (mkWMHints
           ((wm_flags hints .& Z.lnot X11.IconWindowHint)
              .| X11.IconPixmapHint .| X11.IconMaskHint)
           (wm_input hints) (initial_state hints)
           (X11DRV_BITMAP_Pixmap env hbmColor)
           (wm_icon_window hints)
           (X11DRV_BITMAP_Pixmap env hbmMask) (window_group hints)).

(** The allocators of Xlib ([XAllocSizeHints], [XAllocWMHints],
    [XAllocClassHint]) and [HeapAlloc] return zero-filled memory; the heap is
    taken to be unbounded, so the structures below are what they return. *)
Definition XAllocSizeHints : XSizeHints := mkSizeHints 0 0 0 0 0 0 0 0.
Definition XAllocWMHints : XWMHints := mkWMHints 0 false 0 0 0 0 0.

(** [set_size_hints]: set the window size hints. *)
Definition set_size_hints : X unit :=
  win <- get_win ;;
  data <- get_data ;;
  let size_hints := XAllocSizeHints in
  let size_hints :=
    mkSizeHints (X11.PWinGravity .| X11.PPosition)
                (left (whole_rect data)) (top (whole_rect data))
                (min_width size_hints) (min_height size_hints)
                (max_width size_hints) (max_height size_hints)
                X11.StaticGravity in
  let size_hints :=
    if HAS_DLGFRAME (dwStyle win) (dwExStyle win) then
      let max_w := Int32.sub (right (whole_rect data)) (left (whole_rect data)) in
      let max_h := Int32.sub (bottom (whole_rect data)) (top (whole_rect data)) in
      mkSizeHints (sh_flags size_hints .| (X11.PMinSize .| X11.PMaxSize))
                  (sh_x size_hints) (sh_y size_hints)
                  max_w max_h max_w max_h (sh_win_gravity size_hints)
    else size_hints in
  call (XSetWMNormalHints (whole_window data) size_hints).

(** A computation that needs a value which may be missing. *)
Definition lift {A} (o : option A) : X A :=
  fun s => match o with Some a => Some (a, s, []) | None => None end.

(** [X11DRV_get_client_window]: return the X window associated with the
    client area of a window. *)
Definition X11DRV_get_client_window (hwnd : HWND) : option Window :=
  match WIN_GetPtr env hwnd with
  | WND_OTHER_PROCESS => Some (GetPropA env hwnd client_window_atom)
  | Ptr win =>
      match pDriverData win with
      | Some data => Some (client_window data)
      | None => None
      end
  | NullPtr => Some 0
  end.

(** [X11DRV_get_whole_window]: return the X window associated with the full
    area of a window. *)
Definition X11DRV_get_whole_window (hwnd : HWND) : option Window :=
  match WIN_GetPtr env hwnd with
  | WND_OTHER_PROCESS => Some (GetPropA env hwnd whole_window_atom)
  | Ptr win =>
      match pDriverData win with
      | Some data => Some (whole_window data)
      | None => None
      end
  | NullPtr => Some 0
  end.

Definition or_if (b : bool) (v bits : Z) : Z := if b then v .| bits else v.

Definition mwm_functions_of (style : Z) : Z :=
  let f := 0 in
  let f := or_if ((style .& WS.CAPTION) =? WS.CAPTION) f MWM.FUNC_MOVE in
  let f := or_if (has_bits style WS.THICKFRAME) f (MWM.FUNC_MOVE .| MWM.FUNC_RESIZE) in
  let f := or_if (has_bits style WS.MINIMIZE) f MWM.FUNC_MINIMIZE in
  let f := or_if (has_bits style WS.MAXIMIZE) f MWM.FUNC_MAXIMIZE in
  let f := or_if (has_bits style WS.SYSMENU) f MWM.FUNC_CLOSE in
  f.

Definition mwm_decorations_of (style exStyle : Z) : Z :=
  let d := 0 in
  let d := or_if ((style .& WS.CAPTION) =? WS.CAPTION) d MWM.DECOR_TITLE in
  let d :=
    if has_bits exStyle WS.EX_DLGMODALFRAME then d .| MWM.DECOR_BORDER
    else if has_bits style WS.THICKFRAME
         then d .| (MWM.DECOR_BORDER .| MWM.DECOR_RESIZEH)
    else if (style .& (WS.DLGFRAME .| WS.BORDER)) =? WS.DLGFRAME
         then d .| MWM.DECOR_BORDER
    else if has_bits style WS.BORDER then d .| MWM.DECOR_BORDER
    else if negb (has_bits style (WS.CHILD .| WS.POPUP)) then d .| MWM.DECOR_BORDER
    else d in
  let d := or_if (has_bits style WS.SYSMENU) d MWM.DECOR_MENU in
  let d := or_if (has_bits style WS.MINIMIZE) d MWM.DECOR_MINIMIZE in
  let d := or_if (has_bits style WS.MAXIMIZE) d MWM.DECOR_MAXIMIZE in
  d.

(** [set_wm_hints]: set the window manager hints for a newly-created window. *)
Definition set_wm_hints : X unit :=
  win <- get_win ;;
  data <- get_data ;;
  (* wm protocols *)
  call (XSetWMProtocols (whole_window data)
          (wmDeleteWindow env ::
           if negb (wmTakeFocus env =? 0) then [wmTakeFocus env] else [])) ;;;
  (* class hints *)
  call (XSetClassHint (whole_window data)) ;;;
  (* transient for hint *)
  group_leader <-
    (if negb (owner win =? 0) then
       owner_win <- lift (X11DRV_get_whole_window (owner win)) ;;
       call (XSetTransientForHint (whole_window data) owner_win) ;;;
       ret owner_win
     else ret (whole_window data)) ;;
  (* size hints *)
  set_size_hints ;;;
  (* systray properties (KDE only for now) *)
  when (has_bits (dwExStyle win) WS.EX_TRAYWINDOW)
    (when (negb (kwmDockWindow env =? 0))
       (call (XChangeProperty (whole_window data) (kwmDockWindow env)
                (kwmDockWindow env) [1])) ;;;
     when (negb (kde_net_wm_system_tray_window_for env =? 0))
       (call (XChangeProperty (whole_window data)
                (kde_net_wm_system_tray_window_for env) X11.XA_WINDOW
                [whole_window data]))) ;;;
  when (negb (mwmHints env =? 0))
    (call (XChangeMwmHints (whole_window data) (mwmHints env)
             (mkMwm (MWM.HINTS_FUNCTIONS .| MWM.HINTS_DECORATIONS)
                    (mwm_functions_of (dwStyle win))
                    (mwm_decorations_of (dwStyle win) (dwExStyle win))))) ;;;
  (* wm hints *)
  let wm_hints := XAllocWMHints in
  let wm_hints :=
    mkWMHints (X11.InputHint .| X11.StateHint .| X11.WindowGroupHint)
              (wmTakeFocus env =? 0) (initial_state wm_hints)
              (icon_pixmap wm_hints) (wm_icon_window wm_hints)
              (icon_mask wm_hints) (window_group wm_hints) in
  wm_hints <- set_icon_hints wm_hints ;;
  let wm_hints :=
    mkWMHints (wm_flags wm_hints) (wm_input wm_hints)
              (if has_bits (dwStyle win) WS.MINIMIZE
               then X11.IconicState else X11.NormalState)
              (icon_pixmap wm_hints) (wm_icon_window wm_hints)
              (icon_mask wm_hints) group_leader in
  call (XSetWMHints (whole_window data) wm_hints).

(** [X11DRV_window_to_X_rect]: convert a rect from client to X window
    coordinates. *)
Definition X11DRV_window_to_X_rect (win : WND) (rect : RECT) : RECT :=
  if negb (has_bits (dwExStyle win) WS.EX_MANAGED) then rect
  else if IsRectEmpty rect then rect
  else
    let rc := AdjustWindowRectEx env (mkRECT 0 0 0 0)
                (dwStyle win .& Z.lnot (WS.HSCROLL .| WS.VSCROLL))
                false (dwExStyle win) in
    let l := Int32.sub (left rect) (left rc) in
    let r := Int32.sub (right rect) (right rc) in
    let t := Int32.sub (top rect) (top rc) in
    let b := Int32.sub (bottom rect) (bottom rc) in
    let b := if b <=? t then Int32.add t 1 else b in
    let r := if r <=? l then Int32.add l 1 else r in
    mkRECT l t r b.

(** [X11DRV_X_to_window_rect]: opposite of [X11DRV_window_to_X_rect]. *)
Definition X11DRV_X_to_window_rect (win : WND) (rect : RECT) : RECT :=
  if negb (has_bits (dwExStyle win) WS.EX_MANAGED) then rect
  else if IsRectEmpty rect then rect
  else
    let rect := AdjustWindowRectEx env rect
                  (dwStyle win .& Z.lnot (WS.HSCROLL .| WS.VSCROLL))
                  false (dwExStyle win) in
    let b := if bottom rect <=? top rect then Int32.add (top rect) 1
             else bottom rect in
    let r := if right rect <=? left rect then Int32.add (left rect) 1
             else right rect in
    mkRECT (left rect) (top rect) r b.

(** The loop of [X11DRV_sync_whole_window_position] that finds the window
    this one must be after:
    [while (prev && !(GetWindowLongW( prev, GWL_STYLE ) & WS_VISIBLE))
         prev = GetWindow( prev, GW_HWNDPREV );]
    [fuel] bounds the number of iterations. *)
Fixpoint skip_invisible (fuel : nat) (prev : HWND) : option HWND :=
  if prev =? 0 then Some prev
  else if has_bits (GetWindowLongW_style env prev) WS.VISIBLE then Some prev
  else match fuel with
       | O => None
       | S fuel' => skip_invisible fuel' (GetWindow_prev (siblings env) prev)
       end.

(** [X11DRV_sync_whole_window_position]: synchronize the X whole window
    position with the Windows one. *)
Definition X11DRV_sync_whole_window_position (zorder : Z) : X Z :=
  win <- get_win ;;
  data <- get_data ;;
  let whole_rect' := X11DRV_window_to_X_rect win (rectWindow win) in
  let mc := get_window_changes no_changes (whole_rect data) whole_rect' in
  mc <-
    (if negb (zorder =? 0) then
       (* find window that this one must be after *)
       prev <- lift (skip_invisible (length (siblings env))
                       (GetWindow_prev (siblings env) (hwndSelf win))) ;;
       if prev =? 0 then (* top child *)
         ret (fst mc .| X11.CWStackMode,
              mkChanges (ch_x (snd mc)) (ch_y (snd mc)) (ch_width (snd mc))
                        (ch_height (snd mc)) (ch_sibling (snd mc)) X11.Above)
       else
         sibling <- lift (X11DRV_get_whole_window prev) ;;
         ret (fst mc .| (X11.CWStackMode .| X11.CWSibling),
              mkChanges (ch_x (snd mc)) (ch_y (snd mc)) (ch_width (snd mc))
                        (ch_height (snd mc)) sibling X11.Below)
     else ret mc) ;;
  let mask := fst mc in
  let changes := snd mc in
  put_data (set_whole_rect data whole_rect') ;;;
  (if negb (mask =? 0) then
     call XSync ;;;  (* flush graphics operations before moving the window *)
     if is_window_top_level win then
       when (has_bits mask (X11.CWWidth .| X11.CWHeight)) set_size_hints ;;;
       call (XReconfigureWMWindow (whole_window data) mask changes)
     else call (XConfigureWindow (whole_window data) mask changes)
   else ret tt) ;;;
  ret mask.

(** [X11DRV_sync_client_window_position]: synchronize the X client window
    position with the Windows one. *)
Definition X11DRV_sync_client_window_position : X Z :=
  win <- get_win ;;
  data <- get_data ;;
  let client_rect' :=
    OffsetRect (rectClient win) (Int32.neg (left (whole_rect data)))
               (Int32.neg (top (whole_rect data))) in
  let mc := get_window_changes no_changes (client_rect data) client_rect' in
  let mask := fst mc in
  let changes := snd mc in
  (if negb (mask =? 0) then
     was_mapped <- is_client_window_mapped ;;
     put_data (set_client_rect data client_rect') ;;;
     call XSync ;;;  (* flush graphics operations before moving the window *)
     now_mapped <- is_client_window_mapped ;;
     when (was_mapped && negb now_mapped) (call (XUnmapWindow (client_window data))) ;;;
     call (XConfigureWindow (client_window data) mask changes) ;;;
     now_mapped <- is_client_window_mapped ;;
     when (negb was_mapped && now_mapped) (call (XMapWindow (client_window data)))
   else ret tt) ;;;
  ret mask.

(** [X11DRV_register_window]: associate an X window to a HWND. *)
Definition X11DRV_register_window (hwnd : HWND) : X unit :=
  data <- get_data ;;
  call (XSaveContext (whole_window data) hwnd) ;;;
  call (XSaveContext (client_window data) hwnd).

(** [create_whole_window]: create the whole X window for a given window. *)
Definition create_whole_window : X Window :=
  win <- get_win ;;
  data <- get_data ;;
  let is_top_level := is_window_top_level win in
  let rect := X11DRV_window_to_X_rect win (rectWindow win) in
  let cx := Int32.sub (right rect) (left rect) in
  let cx := if cx =? 0 then 1 else cx in
  let cy := Int32.sub (bottom rect) (top rect) in
  let cy := if cy =? 0 then 1 else cy in
  parent_win <- lift (X11DRV_get_client_window (parent win)) ;;
  ma <- get_window_attributes no_attributes ;;
  (* set the attributes that don't change over the lifetime of the window *)
  let attr := mkAttr (override_redirect (snd ma)) (colormap (snd ma))
                     (save_under (snd ma)) (cursor (snd ma)) (event_mask (snd ma))
                     X11.ForgetGravity X11.NorthWestGravity X11.NotUseful in
  let mask := fst ma .| (X11.CWBitGravity .| X11.CWWinGravity .| X11.CWBackingStore) in
  call (XCreateWindow parent_win (left rect) (top rect) cx cy mask attr) ;;;
  w <- next_reply ;;
  put_data (set_whole data w rect) ;;;
  when (negb (cursor attr =? 0)) (call (XFreeCursor (cursor attr))) ;;;
  if w =? 0 then ret 0
  else
    (* non-maximized child must be at bottom of Z order *)
    when ((dwStyle win .& (WS.CHILD .| WS.MAXIMIZE)) =? WS.CHILD)
      (call (XConfigureWindow w X11.CWStackMode
               (mkChanges 0 0 0 0 0 X11.Below))) ;;;
    when is_top_level set_wm_hints ;;;
    data <- get_data ;;
    ret (whole_window data).

(** [create_client_window]: create the client window for a given window. *)
Definition create_client_window : X Window :=
  win <- get_win ;;
  data <- get_data ;;
  let rect := OffsetRect (whole_rect data) (Int32.neg (left (whole_rect data)))
                         (Int32.neg (top (whole_rect data))) in
  put_data (set_client_rect data rect) ;;;
  let attr := mkAttr false 0 false 0 input_event_mask
                (if has_bits (clsStyle win) (WS.CS_VREDRAW .| WS.CS_HREDRAW)
                 then X11.ForgetGravity else X11.NorthWestGravity)
                0 X11.NotUseful in
  call (XCreateWindow (whole_window data) 0 0
          (Z.max (Int32.sub (right rect) (left rect)) 1)
          (Z.max (Int32.sub (bottom rect) (top rect)) 1)
          (X11.CWEventMask .| X11.CWBitGravity .| X11.CWBackingStore) attr) ;;;
  w <- next_reply ;;
  data <- get_data ;;
  put_data (set_client_window data w) ;;;
  mapped <- is_client_window_mapped ;;
  when (negb (w =? 0) && mapped) (call (XMapWindow w)) ;;;
  ret w.

(** [X11DRV_DestroyWindow]: DestroyWindow (X11DRV.@).  [wndPtr] is the window
    of the state. *)
Definition X11DRV_DestroyWindow : X bool :=
  wndPtr <- get_win ;;
  match pDriverData wndPtr with
  | None => ret true
  | Some data =>
      when (negb (whole_window data =? 0))
        (call XSync ;;;  (* flush any reference to this drawable in GDI queue *)
         call (XDeleteContext (whole_window data)) ;;;
         call (XDeleteContext (client_window data)) ;;;
         call (XDestroyWindow (whole_window data)) ;;;  (* this destroys client too *)
         destroy_icon_window) ;;;
      when (negb (hWMIconBitmap data =? 0)) (call (DeleteObject (hWMIconBitmap data))) ;;;
      when (negb (hWMIconMask data =? 0)) (call (DeleteObject (hWMIconMask data))) ;;;
      call HeapFree_data ;;;
      wndPtr <- get_win ;;
      put_win (set_pDriverData wndPtr None) ;;;
      ret true
  end.

(** [create_desktop].  The atoms that the requests return are the fields of
    the environment that the other functions read. *)
Definition create_desktop (user : User) (cs : CREATESTRUCTA) : X unit :=
  wndPtr <- get_win ;;
  data <- get_data ;;
  call XUniqueContext ;;;
  call (XInternAtom WM_PROTOCOLS) ;;;
  call (XInternAtom WM_DELETE_WINDOW) ;;;
  (* wmTakeFocus = 0;  not yet *)
  call (XInternAtom DndProtocol) ;;;
  call (XInternAtom DndSelection) ;;;
  call (XInternAtom WM_CHANGE_STATE) ;;;
  call (XInternAtom XA_MWM_HINTS) ;;;
  call (XInternAtom KWM_DOCKWINDOW) ;;;
  call (XInternAtom KDE_NET_WM_SYSTEM_TRAY_WINDOW_FOR) ;;;
  call (GlobalAddAtomA whole_window_atom) ;;;
  call (GlobalAddAtomA client_window_atom) ;;;
  call (GlobalAddAtomA icon_window_atom) ;;;
  put_data (set_client_window
              (set_client_rect
                 (set_whole data (root_window env) (rectWindow wndPtr))
                 (rectWindow wndPtr))
              (root_window env)) ;;;
  call (SetPropA (hwndSelf wndPtr) whole_window_atom (root_window env)) ;;;
  call (SetPropA (hwndSelf wndPtr) client_window_atom (root_window env)) ;;;
  call (SetPropA_visual_id (hwndSelf wndPtr) (XVisualIDFromVisual user)) ;;;
  call (SendMessage true (hwndSelf wndPtr) (WM_NCCREATE cs)) ;;;
  when (negb (root_window env =? DefaultRootWindow env))
    (call X11DRV_create_desktop_thread).

(** The [failed:] exit of [X11DRV_CreateWindow] (window.c:1052-1055). *)
Definition CreateWindow_failed (cs : CREATESTRUCTA) : X (bool * CREATESTRUCTA) :=
  _ <- X11DRV_DestroyWindow ;; ret (false, cs).

(** [X11DRV_CreateWindow], window.c:936-955: send the WM_GETMINMAXINFO
    message and fix the size if needed.  The result is [false] when the
    function returns [FALSE] here, and the structure behind [cs]. *)
Definition CreateWindow_fix_size (user : User) (cs : CREATESTRUCTA)
  : X (bool * CREATESTRUCTA) :=
  wndPtr <- get_win ;;
  let hwnd := hwndSelf wndPtr in
  if has_bits (cs_style cs) WS.THICKFRAME
     || negb (has_bits (cs_style cs) (WS.POPUP .| WS.CHILD))
  then
    call (WINPOS_GetMinMaxInfo hwnd) ;;;
    let maxSize := GetMinMaxInfo_maxSize user in
    let minTrack := GetMinMaxInfo_minTrack user in
    let cx := cs_cx cs in
    let cy := cs_cy cs in
    let cx := if fst maxSize <? cx then fst maxSize else cx in
    let cy := if snd maxSize <? cy then snd maxSize else cy in
    let cx := if cx <? fst minTrack then fst minTrack else cx in
    let cy := if cy <? snd minTrack then snd minTrack else cy in
    let cx := if cx <? 0 then 0 else cx in
    let cy := if cy <? 0 then 0 else cy in
    let cs := mkCS (cs_x cs) (cs_y cs) cx cy (cs_style cs) in
    if window_gone user after_WM_GETMINMAXINFO then ret (false, cs)
    else
      let rect := SetRect (cs_x cs) (cs_y cs)
                          (Int32.add (cs_x cs) (cs_cx cs))
                          (Int32.add (cs_y cs) (cs_cy cs)) in
      wndPtr <- get_win ;;
      put_win (set_rects wndPtr rect rect) ;;;
      _ <- X11DRV_sync_whole_window_position 0 ;;
      ret (true, cs)
  else ret (true, cs).

(** [X11DRV_CreateWindow], window.c:957-1049: the messages that announce
    the window, from WM_NCCREATE on.  The result is the [BOOL] returned.
    [WIN_SetRectangles] and [WIN_SetStyle] store the rectangles and the style
    in the [WND]. *)
Definition CreateWindow_messages (user : User) (cs : CREATESTRUCTA) (unicode : bool)
  : X bool :=
  wndPtr <- get_win ;;
  let hwnd := hwndSelf wndPtr in
  (* send WM_NCCREATE *)
  call (SendMessage unicode hwnd (WM_NCCREATE cs)) ;;;
  if WM_NCCREATE_reply user =? 0 then ret false
  else if window_gone user after_WM_NCCREATE then ret false
  else
    sync_window_style ;;;
    (* send WM_NCCALCSIZE *)
    wndPtr <- get_win ;;
    let rect := rectWindow wndPtr in
    call (SendMessage true hwnd (WM_NCCALCSIZE rect)) ;;;
    let rect := WM_NCCALCSIZE_reply user rect in
    if window_gone user after_WM_NCCALCSIZE then ret false
    else
      wndPtr <- get_win ;;
      let rect := if (right rect <? left rect) || (bottom rect <? top rect)
                  then rectWindow wndPtr else rect in
      put_win (set_rects wndPtr (rectWindow wndPtr) rect) ;;;
      _ <- X11DRV_sync_client_window_position ;;
      X11DRV_register_window hwnd ;;;
      wndPtr <- get_win ;;
      call (WIN_LinkWindow hwnd (parent wndPtr)
              (if (dwStyle wndPtr .& (WS.CHILD .| WS.MAXIMIZE)) =? WS.CHILD
               then WS.HWND_BOTTOM else WS.HWND_TOP)) ;;;
      call (SendMessage unicode hwnd (WM_CREATE cs)) ;;;
      if WM_CREATE_reply user =? -1 then
        call (WIN_UnlinkWindow hwnd) ;;;
        ret false
      else if window_gone user after_WM_CREATE then ret false
      else
        (* Send the size messages *)
        wndPtr <- get_win ;;
        when (negb (WIN_NEED_SIZE user))
          ((* send it anyway *)
           call (SendMessage true hwnd
                   (WM_SIZE WS.SIZE_RESTORED
                      (MAKELONG
                         (Int32.sub (right (rectClient wndPtr))
                                    (left (rectClient wndPtr)))
                         (Int32.sub (bottom (rectClient wndPtr))
                                    (top (rectClient wndPtr)))))) ;;;
           call (SendMessage true hwnd
                   (WM_MOVE (MAKELONG (left (rectClient wndPtr))
                                      (top (rectClient wndPtr)))))) ;;;
        (* Show the window, maximizing or minimizing if needed *)
        when (has_bits (dwStyle wndPtr) (WS.MINIMIZE .| WS.MAXIMIZE))
          (let swFlag := if has_bits (dwStyle wndPtr) WS.MINIMIZE
                         then WS.SW_MINIMIZE else WS.SW_MAXIMIZE in
           let style := dwStyle wndPtr .& Z.lnot (WS.MAXIMIZE .| WS.MINIMIZE) in
           call (WIN_SetStyle hwnd style) ;;;
           put_win (set_dwStyle wndPtr style) ;;;
           call (WINPOS_MinMaximize hwnd swFlag) ;;;
           let newPos := MinMaximize_newPos user in
           wndPtr <- get_win ;;
           let swFlag :=
             if has_bits (dwStyle wndPtr) WS.CHILD
                || negb (GetActiveWindow user =? 0)
             then WS.SWP_NOACTIVATE .| WS.SWP_NOZORDER .| WS.SWP_FRAMECHANGED
             else WS.SWP_NOZORDER .| WS.SWP_FRAMECHANGED in
           call (SetWindowPos hwnd 0 (left newPos) (top newPos)
                   (right newPos) (bottom newPos) swFlag)) ;;;
        ret true.

(** [X11DRV_CreateWindow]: CreateWindow (X11DRV.@).  [hwnd] is the window of
    the state; [HeapAlloc] succeeds.  The result is the [BOOL] returned and
    the structure behind [cs] as the function leaves it.  The negotiation of
    the size and the messages are [CreateWindow_fix_size] and
    [CreateWindow_messages]. *)
Definition X11DRV_CreateWindow (user : User) (cs : CREATESTRUCTA) (unicode : bool)
  : X (bool * CREATESTRUCTA) :=
  let cs := if 65535 <? cs_cx cs
            then mkCS (cs_x cs) (cs_y cs) 65535 (cs_cy cs) (cs_style cs) else cs in
  let cs := if 65535 <? cs_cy cs
            then mkCS (cs_x cs) (cs_y cs) (cs_cx cs) 65535 (cs_style cs) else cs in
  (* the rectangles of the fresh data are not initialised by the source;
     they are written before they are read *)
  let data := mkData 0 0 0 (mkRECT 0 0 0 0) (mkRECT 0 0 0 0) 0 0 in
  put_data data ;;;
  (* initialize the dimensions before sending WM_GETMINMAXINFO *)
  let rect := SetRect (cs_x cs) (cs_y cs)
                      (Int32.add (cs_x cs) (cs_cx cs))
                      (Int32.add (cs_y cs) (cs_cy cs)) in
  wndPtr <- get_win ;;
  put_win (set_rects wndPtr rect rect) ;;;
  if parent wndPtr =? 0 then
    create_desktop user cs ;;;
    ret (true, cs)
  else
    whole <- create_whole_window ;;
    if whole =? 0 then CreateWindow_failed cs
    else
      client <- create_client_window ;;
      if client =? 0 then CreateWindow_failed cs
      else
        call XSync ;;;
        data <- get_data ;;
        wndPtr <- get_win ;;
        let hwnd := hwndSelf wndPtr in
        call (SetPropA hwnd whole_window_atom (whole_window data)) ;;;
        call (SetPropA hwnd client_window_atom (client_window data)) ;;;
        (* Call the WH_CBT hook *)
        let hwndLinkAfter :=
          if (cs_style cs .& (WS.CHILD .| WS.MAXIMIZE)) =? WS.CHILD
          then WS.HWND_BOTTOM else WS.HWND_TOP in
        lret <-
          (if HOOK_IsHooked_CBT user then
             call (HOOK_CallHooks unicode hwnd cs hwndLinkAfter) ;;;
             ret (HOOK_CallHooks_reply user)
           else ret 0) ;;
        if negb (lret =? 0) then CreateWindow_failed cs
        else
          sized <- CreateWindow_fix_size user cs ;;
          if negb (fst sized) then ret (false, snd sized)
          else
            ok <- CreateWindow_messages user (snd sized) unicode ;;
            ret (ok, snd sized).

End Driver.

(** * Definitions used by the statements *)

(** ** State forms *)

(** The state [s] with the driver data [d], as [put_data] leaves it. *)
Definition with_data (s : State) (d : x11drv_win_data) : State :=
  mkState (set_pDriverData (st_win s) (Some d)) (st_hIcon s) (st_replies s).

(** The state [s] with the window [w], as [put_win] leaves it. *)
Definition with_win (s : State) (w : WND) : State :=
  mkState w (st_hIcon s) (st_replies s).

(** A state that differs from [s] in the driver data and in the replies
    that are left. *)
Definition with_data_replies (s : State) (d : x11drv_win_data)
           (replies : list Window) : State :=
  mkState (set_pDriverData (st_win s) (Some d)) (st_hIcon s) replies.

(** The state after the reply to an [XCreateWindow] request was taken. *)
Definition pop_reply (s : State) : State :=
  mkState (st_win s) (st_hIcon s) (tl (st_replies s)).

(** The calls [t], followed by the run [r]. *)
Definition after {A} (t : list Call) (r : option (A * State * list Call))
  : option (A * State * list Call) :=
  match r with
  | None => None
  | Some (a, s, t') => Some (a, s, t ++ t')
  end.

(** ** Geometry *)

(** The rectangle [r] with each edge moved by the same edge of [m]. *)
Definition rect_add (r m : RECT) : RECT :=
  mkRECT (Int32.add (left r) (left m)) (Int32.add (top r) (top m))
         (Int32.add (right r) (right m)) (Int32.add (bottom r) (bottom m)).

(** What the driver relies on from the metrics calculator: it moves each edge
    of the rectangle by a margin that depends on the styles only. *)
Definition adjusts_by_margins (env : Env) : Prop :=
  forall r style menu exStyle,
    AdjustWindowRectEx env r style menu exStyle =
    rect_add r (AdjustWindowRectEx env (mkRECT 0 0 0 0) style menu exStyle).

(** The rectangle of [X11DRV_window_to_X_rect] after the margins are taken
    off, before the degenerate span is tested. *)
Definition margins_removed (env : Env) (win : WND) (rect : RECT) : RECT :=
  let rc := AdjustWindowRectEx env (mkRECT 0 0 0 0)
              (dwStyle win .& Z.lnot (WS.HSCROLL .| WS.VSCROLL))
              false (dwExStyle win) in
  mkRECT (Int32.sub (left rect) (left rc)) (Int32.sub (top rect) (top rc))
         (Int32.sub (right rect) (right rc)) (Int32.sub (bottom rect) (bottom rc)).

(** The client rectangle relative to the origin of the whole rectangle, as
    [X11DRV_sync_client_window_position] computes it. *)
Definition client_rect_relative (win : WND) (data : x11drv_win_data) : RECT :=
  OffsetRect (rectClient win) (Int32.neg (left (whole_rect data)))
             (Int32.neg (top (whole_rect data))).

(** ** Stacking order *)

(** The nearest visible window in a list of predecessors, nearest first;
    [0] when there is none. *)
Fixpoint nearest_visible (style : HWND -> Z) (before : list HWND) : HWND :=
  match before with
  | [] => 0
  | p :: far => if has_bits (style p) WS.VISIBLE then p
                else nearest_visible style far
  end.

(** The window does not have [WS_VISIBLE]. *)
Definition invisible (env : Env) (hwnd : HWND) : Prop :=
  has_bits (GetWindowLongW_style env hwnd) WS.VISIBLE = false.

(** The request that reconfigures the whole window. *)
Definition configure_whole (env : Env) (win : WND) (data : x11drv_win_data)
           (mask : Z) (changes : XWindowChanges) : Call :=
  if is_window_top_level env win
  then XReconfigureWMWindow (whole_window data) mask changes
  else XConfigureWindow (whole_window data) mask changes.

(** ** Creation *)

(** The extended style that [get_window_attributes] stores in the window. *)
Definition synced_exStyle (env : Env) (win : WND) : Z :=
  if is_window_top_level env win && is_window_managed env win
  then dwExStyle win .| WS.EX_MANAGED
  else dwExStyle win .& Z.lnot WS.EX_MANAGED.

(** The X windows and rectangles of two driver data agree. *)
Definition same_peers (d d' : x11drv_win_data) : Prop :=
  whole_window d' = whole_window d /\ client_window d' = client_window d /\
  whole_rect d' = whole_rect d /\ client_rect d' = client_rect d.

(** The driver data that [X11DRV_CreateWindow] starts from. *)
Definition fresh_data : x11drv_win_data :=
  mkData 0 0 0 (mkRECT 0 0 0 0) (mkRECT 0 0 0 0) 0 0.

(** The creation parameters with each dimension limited to 65535. *)
Definition limit_size (cs : CREATESTRUCTA) : CREATESTRUCTA :=
  mkCS (cs_x cs) (cs_y cs) (Z.min (cs_cx cs) 65535) (Z.min (cs_cy cs) 65535)
       (cs_style cs).

(** The rectangle that the creation parameters describe. *)
Definition creation_rect (cs : CREATESTRUCTA) : RECT :=
  SetRect (cs_x cs) (cs_y cs) (Int32.add (cs_x cs) (cs_cx cs))
          (Int32.add (cs_y cs) (cs_cy cs)).

(** The state in which the X windows are created: fresh driver data, and
    the rectangles of the window set from the creation parameters. *)
Definition creation_started (cs : CREATESTRUCTA) (s : State) : State :=
  mkState (set_rects (set_pDriverData (st_win s) (Some fresh_data))
                     (creation_rect cs) (creation_rect cs))
          (st_hIcon s) (st_replies s).

(** The state of [create_whole_window] when the X window [w] was created
    and its hints are about to be set. *)
Definition whole_window_created (env : Env) (s : State) (d : x11drv_win_data)
  : State :=
  mkState
    (set_pDriverData
       (set_dwExStyle (st_win s) (synced_exStyle env (st_win s)))
       (Some (set_whole d (hd 0 (st_replies s))
                (X11DRV_window_to_X_rect env (st_win s) (rectWindow (st_win s))))))
    (st_hIcon s) (tl (st_replies s)).

(** The driver data once [create_client_window] has the reply to its
    request. *)
Definition client_window_created (s : State) (d : x11drv_win_data)
  : x11drv_win_data :=
  set_client_window
    (set_client_rect d
       (OffsetRect (whole_rect d) (Int32.neg (left (whole_rect d)))
                   (Int32.neg (top (whole_rect d)))))
    (hd 0 (st_replies s)).

(** The [failed:] exit of [X11DRV_CreateWindow] taken in state [s]. *)
Definition failed_exit (cs : CREATESTRUCTA) (s : State)
  : option (bool * CREATESTRUCTA * State * list Call) :=
  match X11DRV_DestroyWindow s with
  | Some (_, s', calls) => Some ((false, cs), s', calls)
  | None => None
  end.

(** The size hints that a run sets, in order, each with the window it sets
    them on. *)
Fixpoint size_hints_of (calls : list Call) : list (Window * XSizeHints) :=
  match calls with
  | [] => []
  | XSetWMNormalHints w h :: rest => (w, h) :: size_hints_of rest
  | _ :: rest => size_hints_of rest
  end.

(** The size of [CREATESTRUCTA] is not negotiated by WM_GETMINMAXINFO: the
    style has no thick frame and is a popup or a child. *)
Definition size_not_negotiated (style : Z) : bool :=
  negb (has_bits style WS.THICKFRAME
        || negb (has_bits style (WS.POPUP .| WS.CHILD))).

(** What the later stages of [X11DRV_CreateWindow] keep of a window: its
    handle and parent, and the X windows, icon window and icon bitmaps of
    its driver data. *)
Definition same_window (s s' : State) : Prop :=
  hwndSelf (st_win s') = hwndSelf (st_win s) /\
  parent (st_win s') = parent (st_win s) /\
  exists d d',
    pDriverData (st_win s) = Some d /\ pDriverData (st_win s') = Some d' /\
    whole_window d' = whole_window d /\ client_window d' = client_window d /\
    icon_window d' = icon_window d /\
    hWMIconBitmap d' = hWMIconBitmap d /\ hWMIconMask d' = hWMIconMask d.

(** The course of [X11DRV_CreateWindow] once the two X windows are recorded,
    taken in state [s]: the WH_CBT hook, which can send it to the [failed:]
    exit, then the negotiation of the size, then the messages. *)
Definition creation_announced (env : Env) (user : User) (cs : CREATESTRUCTA)
           (unicode : bool) (s : State)
  : option (bool * CREATESTRUCTA * State * list Call) :=
  let hook :=
    if HOOK_IsHooked_CBT user
    then [HOOK_CallHooks unicode (hwndSelf (st_win s)) cs
            (if (cs_style cs .& (WS.CHILD .| WS.MAXIMIZE)) =? WS.CHILD
             then WS.HWND_BOTTOM else WS.HWND_TOP)]
    else [] in
  if HOOK_IsHooked_CBT user && negb (HOOK_CallHooks_reply user =? 0)
  then after hook (failed_exit cs s)
  else
    after hook
      match CreateWindow_fix_size env user cs s with
      | None => None
      | Some ((false, cs1), s1, t1) => Some ((false, cs1), s1, t1)
      | Some ((true, cs1), s1, t1) =>
          after t1
            match CreateWindow_messages env user cs1 unicode s1 with
            | None => None
            | Some (ok, s2, t2) => Some ((ok, cs1), s2, t2)
            end
      end.

(** ** Order of calls *)

(** The position of the first call that satisfies [p]. *)
Fixpoint first_call (p : Call -> bool) (calls : list Call) : option nat :=
  match calls with
  | [] => None
  | c :: rest => if p c then Some O
                 else option_map S (first_call p rest)
  end.

(** Both kinds of call occur, and the first [p] comes before the first [q]. *)
Definition comes_before (p q : Call -> bool) (calls : list Call) : bool :=
  match first_call p calls, first_call q calls with
  | Some i, Some j => Nat.ltb i j
  | _, _ => false
  end.

(** The call destroys the X window [w]; the call deletes the object [h]. *)
Definition destroys (w : Window) (c : Call) : bool :=
  match c with XDestroyWindow w' => w' =? w | _ => false end.

Definition deletes (h : HANDLE) (c : Call) : bool :=
  match c with DeleteObject h' => h' =? h | _ => false end.

(** ** Example environment and windows *)

(** An environment with management switched on: the root window is the
    default root, the desktop is window 1, and the frame adds 4 units at the
    left, right and bottom and 23 at the top. *)
Definition managed_env : Env :=
  mkEnv true 1 1 1 11 0 12 13 14 7 9 32 32
        (fun r _ _ _ =>
           mkRECT (Int32.add (left r) (-4)) (Int32.add (top r) (-23))
                  (Int32.add (right r) 4) (Int32.add (bottom r) 4))
        (fun h => (h + 1, h + 2)) (fun h => h + 1000)
        (fun h => if h =? 1
                  then Ptr (mkWND 1 0 0 WS.VISIBLE 0 0 (mkRECT 0 0 800 600)
                              (mkRECT 0 0 800 600)
                              (Some (mkData 1 1 0 (mkRECT 0 0 800 600)
                                       (mkRECT 0 0 800 600) 0 0)))
                  else if h =? 201
                  then Ptr (mkWND 201 1 0 WS.VISIBLE 0 0 (mkRECT 0 0 10 10)
                              (mkRECT 0 0 10 10)
                              (Some (mkData 501 502 0 (mkRECT 0 0 10 10)
                                       (mkRECT 0 0 10 10) 0 0)))
                  else NullPtr)
        (fun _ _ => 0)
        (fun h => if h =? 202 then 0 else WS.VISIBLE)
        [201; 202; 203].

(** A child window and a tool window that carry the tray-window flag. *)
Definition tray_child : WND :=
  mkWND 2 1 0 (WS.CHILD .| WS.CAPTION .| WS.THICKFRAME) WS.EX_TRAYWINDOW 0
        (mkRECT 0 0 10 10) (mkRECT 0 0 10 10) None.

Definition tray_tool : WND :=
  mkWND 2 1 0 WS.CAPTION (WS.EX_TOOLWINDOW .| WS.EX_TRAYWINDOW) 0
        (mkRECT 0 0 10 10) (mkRECT 0 0 10 10) None.

(** A window with a caption that is flagged as managed. *)
Definition managed_caption_window : WND :=
  mkWND 203 1 0 WS.CAPTION WS.EX_MANAGED 0
        (mkRECT 10 10 210 110) (mkRECT 10 10 210 110) None.

(** A window whose client rectangle collapses from (0,0,100,100) to
    (0,0,100,0), and one whose client rectangle grows back. *)
Definition collapsing_window : State :=
  mkState (mkWND 203 1 0 WS.VISIBLE 0 0 (mkRECT 0 0 100 100) (mkRECT 0 0 100 0)
             (Some (mkData 601 602 0 (mkRECT 0 0 100 100) (mkRECT 0 0 100 100) 0 0)))
          0 [].

Definition expanding_window : State :=
  mkState (mkWND 203 1 0 WS.VISIBLE 0 0 (mkRECT 0 0 100 100) (mkRECT 0 0 100 100)
             (Some (mkData 601 602 0 (mkRECT 0 0 100 100) (mkRECT 0 0 100 0) 0 0)))
          0 [].

(** Window 203 of [managed_env], the last of the siblings 201 (visible),
    202 (not visible) and 203, being moved to (0,0,50,50). *)
Definition third_sibling_data : x11drv_win_data :=
  mkData 601 602 0 (mkRECT 0 0 10 10) (mkRECT 0 0 10 10) 0 0.

Definition third_sibling : State :=
  mkState (mkWND 203 1 0 WS.VISIBLE 0 0 (mkRECT 0 0 50 50) (mkRECT 0 0 50 50)
             (Some third_sibling_data))
          0 [].

(** A managed window without a class icon that owns the icon window 650,
    and the same window once its class has the icon 77. *)
Definition iconless_data : x11drv_win_data :=
  mkData 601 602 650 (mkRECT 14 33 206 106) (mkRECT 0 0 192 73) 0 0.

Definition window_given_icon : State :=
  mkState (mkWND 203 1 0 WS.CAPTION WS.EX_MANAGED 0
             (mkRECT 10 10 210 110) (mkRECT 14 33 206 106) (Some iconless_data))
          77 [].

(** A window with an icon window (650) and icon bitmaps (71, 72). *)
Definition window_with_icons : State :=
  mkState (mkWND 203 1 0 WS.CAPTION WS.EX_MANAGED 0
             (mkRECT 10 10 210 110) (mkRECT 14 33 206 106)
             (Some (mkData 601 602 650 (mkRECT 14 33 206 106)
                      (mkRECT 0 0 192 73) 71 72)))
          0 [].

(** A top-level popup window with a dialog frame, about to be created; the
    X server answers the two requests with the windows 601 and 602. *)
Definition dialog_window : State :=
  mkState (mkWND 203 1 0 (WS.POPUP .| WS.DLGFRAME) 0 0
             (mkRECT 0 0 0 0) (mkRECT 0 0 0 0) None)
          0 [601; 602].

(** The same window when the request for the whole window fails, and when
    the request for the client window fails. *)
Definition dialog_window_no_whole : State :=
  mkState (st_win dialog_window) 0 [0].

Definition dialog_window_no_client : State :=
  mkState (st_win dialog_window) 0 [601; 0].

(** A child window of window 201 whose window rectangle changes from
    (0,0,10,10) to (0,0,0,-3). *)
Definition shrinking_child : State :=
  mkState (mkWND 203 201 0 (WS.CHILD .| WS.VISIBLE) 0 0
             (mkRECT 0 0 0 (-3)) (mkRECT 0 0 0 (-3))
             (Some (mkData 601 602 0 (mkRECT 0 0 10 10) (mkRECT 0 0 10 10) 0 0)))
          0 [].

(** Answers of USER and of an application that lets the creation go on: no
    hook, a maximal size of 1024x768 and a minimal tracking size of 100x30,
    handlers that accept the window and leave the client rectangle as
    proposed. *)
Definition plain_user : User :=
  mkUser 33 false 0 (1024, 768) (100, 30) 1 (fun r => r) 0 false
         (mkRECT 0 0 0 0) 0 (fun _ => false).


(** * Further functions of the driver *)

(** ** Input focus *)

(** The calls of [X11DRV_SetFocus]. *)
Inductive FocusCall : Type :=
| TSXUninstallColormap (colormap : Z)
| XGetWindowAttributes (w : Window)
| XSetInputFocus (w : Window) (time : Z)
| XInstallColormap (colormap : Z).

(** What [X11DRV_SetFocus] reads besides the environment of the driver:
    whether the palette is private
    ([X11DRV_PALETTE_PaletteFlags & X11DRV_PALETTE_PRIVATE]), the top-level
    ancestor of a window ([GetAncestor( hwnd, GA_ROOT )]), the extended style
    of a window ([GetWindowLongW( hwnd, GWL_EXSTYLE )]), the reply of the X
    server to the request [XGetWindowAttributes] (whether it succeeds with
    [map_state == IsViewable]; the request itself is recorded as a call),
    and the time stamp [GetMessageTime() + X11DRV_server_startticks]. *)
Record FocusEnv : Type := mkFocusEnv {
  palette_private       : bool;
  GetAncestor_root      : HWND -> HWND;
  GetWindowLongW_exstyle : HWND -> Z;
  is_viewable           : Window -> bool;
  focus_time            : Z
}.

(** [X11DRV_SetFocus]: set the X focus.  [None] is a run that does not
    complete (the ancestor has a null [pDriverData]). *)
Definition X11DRV_SetFocus (env : Env) (fenv : FocusEnv) (hwnd : HWND)
  : option (list FocusCall) :=
  (* Only mess with the X focus if there's no desktop window
     and if the window is not managed by the WM. *)
  if negb (root_window env =? DefaultRootWindow env) then Some []
  else if hwnd =? 0 then
    (* If setting the focus to 0, uninstall the colormap *)
    Some (if palette_private fenv
          then [TSXUninstallColormap (X11DRV_PALETTE_PaletteXColormap env)]
          else [])
  else
    let hwnd := GetAncestor_root fenv hwnd in
    if has_bits (GetWindowLongW_exstyle fenv hwnd) WS.EX_MANAGED then Some []
    else
      match X11DRV_get_whole_window env hwnd with
      | None => None
      | Some win =>
          if win =? 0 then Some []
          else
            (* Set X focus and install colormap *)
            Some (XGetWindowAttributes win ::
                  (if is_viewable fenv win then
                     XSetInputFocus win (focus_time fenv) ::
                     (if palette_private fenv
                      then [XInstallColormap (X11DRV_PALETTE_PaletteXColormap env)]
                      else [])
                   else
                     (* If window is not viewable, don't change anything *)
                     []))
      end.

(** ** The iconic state *)

(** The calls of [X11DRV_set_iconic_state]: calls recorded as before, the
    WM hints set together with the icon position, and the request to iconify
    a window. *)
Inductive IconicCall : Type :=
| Plain (c : Call)
| XSetWMHints_at (w : Window) (hints : XWMHints) (icon_x icon_y : Z)
| XIconifyWindow (w : Window).

(** The value of [is_client_window_mapped( win )]. *)
Definition client_window_mapped (win : WND) : option bool :=
  match is_client_window_mapped (mkState win 0 []) with
  | Some (b, _, _) => Some b
  | None => None
  end.

(** [X11DRV_set_iconic_state]: set the X11 iconic state according to the
    window style.  [iconic] is [IsIconic( win->hwndSelf )]; [got] is the
    reply to [XGetWMHints] on the whole window, with the icon position it
    holds, [None] when the window has no hints yet. *)
Definition X11DRV_set_iconic_state (win : WND) (iconic : bool)
           (got : option (XWMHints * Z * Z)) : option (list IconicCall) :=
  match pDriverData win, client_window_mapped win with
  | Some data, Some mapped =>
      let wm_hints := match got with
                      | Some (h, _, _) => h
                      | None => XAllocWMHints
                      end in
      let wm_hints :=
        mkWMHints (wm_flags wm_hints .| (X11.StateHint .| X11.IconPositionHint))
                  (wm_input wm_hints)
                  (if iconic then X11.IconicState else X11.NormalState)
                  (icon_pixmap wm_hints) (wm_icon_window wm_hints)
                  (icon_mask wm_hints) (window_group wm_hints) in
      Some
        ((if iconic then [Plain (XUnmapWindow (client_window data))]
          else if mapped then [Plain (XMapWindow (client_window data))]
          else []) ++
         [XSetWMHints_at (whole_window data) wm_hints
            (left (rectWindow win)) (top (rectWindow win))] ++
         (if has_bits (dwStyle win) WS.VISIBLE then
            if iconic then [XIconifyWindow (whole_window data)]
            else if negb (IsRectEmpty (rectWindow win))
                 then [Plain (XMapWindow (whole_window data))]
                 else []
          else []))
  | _, _ => None
  end.

(** * Properties *)

(** ** Machine integers *)

Module Int32Facts.
Import Int32.

Lemma wrap_range z : in_range (wrap z).
Proof.
  unfold in_range, wrap, modulus, half_modulus.
  pose proof (Z.mod_pos_bound (z + 2147483648) 4294967296 ltac:(lia)). lia.
Qed.

Lemma add_sub_cancel a m : in_range a -> add (sub a m) m = a.
Proof.
  unfold in_range, add, sub, wrap, modulus, half_modulus. intros H.
  Z.div_mod_to_equations. lia.
Qed.

Lemma sub_inj_l a b c :
  in_range a -> in_range b -> sub a c = sub b c -> a = b.
Proof.
  unfold in_range, sub, wrap, modulus, half_modulus. intros Ha Hb.
  Z.div_mod_to_equations. lia.
Qed.

End Int32Facts.

(** ** Bit tests *)

Lemma land_lor_same a b : (a .| b) .& b = b.
Proof.
  apply Z.bits_inj'. intros n _.
  rewrite Z.land_spec, Z.lor_spec.
  destruct (Z.testbit a n), (Z.testbit b n); reflexivity.
Qed.

Lemma has_bits_lor_same a b : b <> 0 -> has_bits (a .| b) b = true.
Proof.
  intros Hb. unfold has_bits. rewrite land_lor_same.
  destruct (Z.eqb_spec b 0); [contradiction | reflexivity].
Qed.

Lemma has_bits_lor_other a b m : b .& m = 0 -> has_bits (a .| b) m = has_bits a m.
Proof.
  intros H. unfold has_bits.
  rewrite Z.land_lor_distr_l, H, Z.lor_0_r. reflexivity.
Qed.

Lemma has_bits_land_other a b m : b .& m = m -> has_bits (a .& b) m = has_bits a m.
Proof.
  intros H. unfold has_bits. rewrite <- Z.land_assoc, H. reflexivity.
Qed.

(** ** The decoration policy classifier *)

(** C1, as stated, fails: a child window, or a tool window, that carries
    [WS_EX_TRAYWINDOW] is managed when management is on, since the tray test
    comes first. *)
Lemma child_or_tool_tray_window_is_managed :
  has_bits (dwStyle tray_child) WS.CHILD = true /\
  is_window_managed managed_env tray_child = true /\
  has_bits (dwExStyle tray_tool) WS.EX_TOOLWINDOW = true /\
  is_window_managed managed_env tray_tool = true.
Proof. repeat split; reflexivity. Qed.

(** C1 (amended): a window whose style has [WS_CHILD] or whose extended style
    has [WS_EX_TOOLWINDOW] is managed exactly when management is on and it
    carries the tray-window flag; without that flag it is never managed,
    whatever its other style bits are. *)
Theorem is_window_managed_child_or_tool (env : Env) (win : WND) :
  has_bits (dwStyle win) WS.CHILD = true \/
  has_bits (dwExStyle win) WS.EX_TOOLWINDOW = true ->
  is_window_managed env win =
    managed_mode env && has_bits (dwExStyle win) WS.EX_TRAYWINDOW.
Proof.
  intros H. unfold is_window_managed.
  destruct (managed_mode env); cbn [negb andb]; [| reflexivity].
  destruct (has_bits (dwExStyle win) WS.EX_TRAYWINDOW); [reflexivity |].
  destruct (has_bits (dwStyle win) WS.CHILD); [reflexivity |].
  destruct H as [H | H]; [discriminate |].
  rewrite H. reflexivity.
Qed.

Lemma is_window_managed_child_or_tool_witness :
  is_window_managed managed_env
    (mkWND 2 1 0 (WS.CHILD .| WS.CAPTION .| WS.THICKFRAME) 0 0
           (mkRECT 0 0 10 10) (mkRECT 0 0 10 10) None) = false.
Proof.
  exact (is_window_managed_child_or_tool managed_env
           (mkWND 2 1 0 (WS.CHILD .| WS.CAPTION .| WS.THICKFRAME) 0 0
                  (mkRECT 0 0 10 10) (mkRECT 0 0 10 10) None)
           (or_introl eq_refl)).
Defined.

(** ** The coordinate translator *)

(** C2: for a window flagged as managed and a non-empty rectangle [R],
    translating to X coordinates and back gives [R] again, when the
    translation to X coordinates did not have to widen a degenerate span
    (the way back then never has to). *)
Theorem X_to_window_rect_window_to_X_rect (env : Env) (win : WND) (R : RECT) :
  adjusts_by_margins env ->
  rect_in_range R ->
  has_bits (dwExStyle win) WS.EX_MANAGED = true ->
  IsRectEmpty R = false ->
  IsRectEmpty (margins_removed env win R) = false ->
  X11DRV_window_to_X_rect env win R = margins_removed env win R /\
  X11DRV_X_to_window_rect env win (X11DRV_window_to_X_rect env win R) = R.
Proof.
  intros Hadj (Hl & Ht & Hr & Hb) Hm HR HX.
  assert (E : X11DRV_window_to_X_rect env win R = margins_removed env win R).
  { unfold X11DRV_window_to_X_rect. rewrite Hm, HR. cbn [negb].
    unfold IsRectEmpty, margins_removed in *. cbn [left top right bottom] in HX.
    apply orb_false_iff in HX. destruct HX as [HX1 HX2].
    rewrite HX1, HX2. reflexivity. }
  split; [exact E |].
  rewrite E. unfold X11DRV_X_to_window_rect. rewrite Hm, HX. cbn [negb].
  rewrite Hadj. unfold margins_removed, rect_add. cbn [left top right bottom].
  rewrite !Int32Facts.add_sub_cancel by assumption.
  unfold IsRectEmpty in HR. apply orb_false_iff in HR. destruct HR as [HR1 HR2].
  rewrite HR1, HR2. destruct R; reflexivity.
Qed.

Lemma X_to_window_rect_window_to_X_rect_witness :
  X11DRV_window_to_X_rect managed_env managed_caption_window (mkRECT 10 10 210 110)
    = mkRECT 14 33 206 106 /\
  X11DRV_X_to_window_rect managed_env managed_caption_window
    (X11DRV_window_to_X_rect managed_env managed_caption_window (mkRECT 10 10 210 110))
    = mkRECT 10 10 210 110.
Proof.
  apply (X_to_window_rect_window_to_X_rect managed_env managed_caption_window
           (mkRECT 10 10 210 110)).
  - intros r style menu exStyle. reflexivity.
  - unfold rect_in_range, Int32.in_range, Int32.half_modulus. simpl. lia.
  - reflexivity.
  - reflexivity.
  - reflexivity.
Defined.

(** ** The geometry change set *)

(** A zero width or height is replaced by 1: no size that is pushed is 0. *)
Lemma get_window_changes_size_not_zero (changes : XWindowChanges) (old new : RECT) :
  let mc := get_window_changes changes old new in
  (has_bits (fst mc) X11.CWWidth = true -> ch_width (snd mc) <> 0) /\
  (has_bits (fst mc) X11.CWHeight = true -> ch_height (snd mc) <> 0).
Proof.
  unfold get_window_changes.
  destruct (Int32.sub (right old) (left old) =? Int32.sub (right new) (left new));
  destruct (Int32.sub (bottom old) (top old) =? Int32.sub (bottom new) (top new));
  destruct (left old =? left new); destruct (top old =? top new);
  cbn [negb fst snd ch_width ch_height]; split; intros H; try discriminate H;
  match goal with
  | |- (if ?c then _ else _) <> 0 => destruct (Z.eqb_spec (Int32.sub (right new) (left new)) 0);
                                     destruct (Z.eqb_spec (Int32.sub (bottom new) (top new)) 0); lia
  end.
Qed.

(** C3 fails on the code at a rectangle of width 0 and negative height: the
    width is replaced by 1, the height [-3] is pushed as it is, and
    [X11DRV_sync_whole_window_position] configures the X window with it.
    Only a size of exactly 0 is replaced; [create_client_window] uses
    [max( ..., 1 )] for the same purpose. *)
Theorem get_window_changes_negative_height :
  get_window_changes no_changes (mkRECT 0 0 10 10) (mkRECT 0 0 0 (-3)) =
    (X11.CWWidth .| X11.CWHeight, mkChanges 0 0 1 (-3) 0 0) /\
  X11DRV_sync_whole_window_position managed_env 0 shrinking_child =
    Some (X11.CWWidth .| X11.CWHeight,
          with_data shrinking_child
            (mkData 601 602 0 (mkRECT 0 0 0 (-3)) (mkRECT 0 0 10 10) 0 0),
          [XSync;
           XConfigureWindow 601 (X11.CWWidth .| X11.CWHeight)
             (mkChanges 0 0 1 (-3) 0 0)]).
Proof. split; reflexivity. Qed.

(** ** Running computations *)

Lemma after_nil {A} (r : option (A * State * list Call)) : after [] r = r.
Proof. destruct r as [[[a s] t] |]; reflexivity. Qed.

Lemma bind_Some {A B} (m : X A) (f : A -> X B) s a s1 t1 :
  m s = Some (a, s1, t1) -> bind m f s = after t1 (f a s1).
Proof. intros H. unfold bind. rewrite H. reflexivity. Qed.

Lemma bind_ret {A B} (a : A) (f : A -> X B) s : bind (ret a) f s = f a s.
Proof. rewrite (bind_Some _ _ _ a s []) by reflexivity. apply after_nil. Qed.

Lemma bind_get_win {B} (f : WND -> X B) s : bind get_win f s = f (st_win s) s.
Proof. rewrite (bind_Some _ _ _ (st_win s) s []) by reflexivity. apply after_nil. Qed.

Lemma bind_get_hIcon {B} (f : HANDLE -> X B) s : bind get_hIcon f s = f (st_hIcon s) s.
Proof. rewrite (bind_Some _ _ _ (st_hIcon s) s []) by reflexivity. apply after_nil. Qed.

Lemma bind_get_data {B} (f : x11drv_win_data -> X B) s d :
  pDriverData (st_win s) = Some d -> bind get_data f s = f d s.
Proof.
  intros H. rewrite (bind_Some _ _ _ d s []).
  - apply after_nil.
  - unfold get_data. rewrite H. reflexivity.
Qed.

Lemma bind_put_data {B} d (f : unit -> X B) s :
  bind (put_data d) f s = f tt (with_data s d).
Proof. rewrite (bind_Some _ _ _ tt (with_data s d) []) by reflexivity. apply after_nil. Qed.

Lemma bind_put_win {B} w (f : unit -> X B) s :
  bind (put_win w) f s = f tt (with_win s w).
Proof. rewrite (bind_Some _ _ _ tt (with_win s w) []) by reflexivity. apply after_nil. Qed.

Lemma bind_call {B} c (f : unit -> X B) s : bind (call c) f s = after [c] (f tt s).
Proof. apply bind_Some. reflexivity. Qed.

Lemma bind_when_call {B} (b : bool) c (f : unit -> X B) s :
  bind (when b (call c)) f s = after (if b then [c] else []) (f tt s).
Proof. apply bind_Some. destruct b; reflexivity. Qed.

Lemma bind_lift {A B} (o : option A) (f : A -> X B) s a :
  o = Some a -> bind (lift o) f s = f a s.
Proof. intros ->. rewrite (bind_Some _ _ _ a s []) by reflexivity. apply after_nil. Qed.

Lemma bind_assoc {A B C} (m : X A) (f : A -> X B) (g : B -> X C) s :
  bind (bind m f) g s = bind m (fun a => bind (f a) g) s.
Proof.
  unfold bind. destruct (m s) as [[[a s1] t1] |]; [| reflexivity].
  destruct (f a s1) as [[[b s2] t2] |]; [| reflexivity].
  destruct (g b s2) as [[[c s3] t3] |]; [| reflexivity].
  rewrite app_assoc. reflexivity.
Qed.

Lemma with_data_data s d : pDriverData (st_win (with_data s d)) = Some d.
Proof. reflexivity. Qed.

Lemma with_data_same s d : pDriverData (st_win s) = Some d -> with_data s d = s.
Proof. destruct s as [[] ? ?]. cbn. intros ->. reflexivity. Qed.

Ltac xstep :=
  first
    [ rewrite bind_assoc
    | rewrite after_nil
    | rewrite bind_get_win
    | rewrite bind_get_hIcon
    | rewrite bind_put_data
    | rewrite bind_put_win
    | rewrite bind_ret
    | rewrite bind_when_call
    | rewrite bind_call
    | erewrite bind_get_data by (first [eassumption | reflexivity])
    | erewrite bind_lift by eassumption ].

Ltac xrun := repeat xstep.

(** Run a called function by its run lemma. *)
Ltac xcall L :=
  erewrite bind_Some by (eapply L; first [eassumption | reflexivity]).

(** ** Client-window synchronisation *)

Lemma is_client_window_mapped_run s d :
  pDriverData (st_win s) = Some d ->
  is_client_window_mapped s =
    Some (negb (has_bits (dwStyle (st_win s)) WS.MINIMIZE)
          && negb (IsRectEmpty (client_rect d)), s, []).
Proof.
  intros H. unfold is_client_window_mapped. xrun. reflexivity.
Qed.

(** Two rectangles in range that give an empty change set are equal. *)
Lemma get_window_changes_zero (changes : XWindowChanges) (old new : RECT) :
  rect_in_range old -> rect_in_range new ->
  fst (get_window_changes changes old new) = 0 -> old = new.
Proof.
  intros (Hl & Ht & Hr & Hb) (Hl' & Ht' & Hr' & Hb').
  unfold get_window_changes.
  destruct (Z.eqb_spec (Int32.sub (right old) (left old))
                       (Int32.sub (right new) (left new))) as [Ew | Ew];
  destruct (Z.eqb_spec (Int32.sub (bottom old) (top old))
                       (Int32.sub (bottom new) (top new))) as [Eh | Eh];
  destruct (Z.eqb_spec (left old) (left new)) as [El | El];
  destruct (Z.eqb_spec (top old) (top new)) as [Et | Et];
  cbn [negb fst]; intros H; try discriminate H.
  rewrite El in Ew. rewrite Et in Eh.
  apply Int32Facts.sub_inj_l in Ew; [| assumption | assumption].
  apply Int32Facts.sub_inj_l in Eh; [| assumption | assumption].
  destruct old, new; cbn in *; congruence.
Qed.

Lemma OffsetRect_in_range r dx dy : rect_in_range (OffsetRect r dx dy).
Proof. repeat split; apply Int32Facts.wrap_range. Qed.

(** C7: for a window that is not minimized, when the client rectangle goes
    from non-empty to empty the client window is unmapped and then
    reconfigured; when it goes from empty to non-empty it is reconfigured and
    then mapped. *)
Theorem sync_client_window_position_map_order
        (s : State) (data : x11drv_win_data) :
  pDriverData (st_win s) = Some data ->
  rect_in_range (client_rect data) ->
  has_bits (dwStyle (st_win s)) WS.MINIMIZE = false ->
  let new_rect := client_rect_relative (st_win s) data in
  let mc := get_window_changes no_changes (client_rect data) new_rect in
  (IsRectEmpty (client_rect data) = false -> IsRectEmpty new_rect = true ->
   X11DRV_sync_client_window_position s =
     Some (fst mc, with_data s (set_client_rect data new_rect),
           [XSync;
            XUnmapWindow (client_window data);
            XConfigureWindow (client_window data) (fst mc) (snd mc)])) /\
  (IsRectEmpty (client_rect data) = true -> IsRectEmpty new_rect = false ->
   X11DRV_sync_client_window_position s =
     Some (fst mc, with_data s (set_client_rect data new_rect),
           [XSync;
            XConfigureWindow (client_window data) (fst mc) (snd mc);
            XMapWindow (client_window data)])).
Proof.
  intros Hd Hrange Hmin new_rect mc.
  assert (Hne : forall b, IsRectEmpty (client_rect data) = b ->
                          IsRectEmpty new_rect = negb b -> (fst mc =? 0) = false).
  { intros b H1 H2. apply Z.eqb_neq. intros E.
    apply get_window_changes_zero in E;
      [| assumption | apply OffsetRect_in_range].
    fold new_rect in E. rewrite E, H2 in H1. destruct b; discriminate H1. }
  split; intros H1 H2.
  - unfold X11DRV_sync_client_window_position. xrun.
    fold (client_rect_relative (st_win s) data). fold new_rect. fold mc.
    rewrite (Hne false H1 H2). cbn [negb]. xrun.
    xcall is_client_window_mapped_run. xrun.
    xcall is_client_window_mapped_run. xrun.
    xcall is_client_window_mapped_run. xrun.
    cbn [with_data st_win set_pDriverData dwStyle client_rect set_client_rect].
    rewrite Hmin, H1, H2. reflexivity.
  - unfold X11DRV_sync_client_window_position. xrun.
    fold (client_rect_relative (st_win s) data). fold new_rect. fold mc.
    rewrite (Hne true H1 H2). cbn [negb]. xrun.
    xcall is_client_window_mapped_run. xrun.
    xcall is_client_window_mapped_run. xrun.
    xcall is_client_window_mapped_run. xrun.
    cbn [with_data st_win set_pDriverData dwStyle client_rect set_client_rect].
    rewrite Hmin, H1, H2. reflexivity.
Qed.

Lemma sync_client_window_position_map_order_witness :
  X11DRV_sync_client_window_position collapsing_window =
    Some (X11.CWHeight,
          with_data collapsing_window
            (mkData 601 602 0 (mkRECT 0 0 100 100) (mkRECT 0 0 100 0) 0 0),
          [XSync; XUnmapWindow 602;
           XConfigureWindow 602 X11.CWHeight (mkChanges 0 0 0 1 0 0)]) /\
  X11DRV_sync_client_window_position expanding_window =
    Some (X11.CWHeight,
          with_data expanding_window
            (mkData 601 602 0 (mkRECT 0 0 100 100) (mkRECT 0 0 100 100) 0 0),
          [XSync; XConfigureWindow 602 X11.CWHeight (mkChanges 0 0 0 100 0 0);
           XMapWindow 602]).
Proof.
  split.
  - apply (sync_client_window_position_map_order collapsing_window
             (mkData 601 602 0 (mkRECT 0 0 100 100) (mkRECT 0 0 100 100) 0 0)).
    + reflexivity.
    + unfold rect_in_range, Int32.in_range, Int32.half_modulus. simpl. lia.
    + reflexivity.
    + reflexivity.
    + reflexivity.
  - apply (sync_client_window_position_map_order expanding_window
             (mkData 601 602 0 (mkRECT 0 0 100 100) (mkRECT 0 0 100 0) 0 0)).
    + reflexivity.
    + unfold rect_in_range, Int32.in_range, Int32.half_modulus. simpl. lia.
    + reflexivity.
    + reflexivity.
    + reflexivity.
Defined.

(** ** Stacking order *)

Lemma GetWindow_prev_absent (l : list HWND) (h : HWND) :
  ~ In h (tl l) -> GetWindow_prev l h = 0.
Proof.
  induction l as [| x rest IH]; [reflexivity |].
  cbn [tl]. intros Hn. cbn [GetWindow_prev].
  destruct rest as [| y r]; [reflexivity |].
  destruct (Z.eqb_spec y h) as [-> | Hy].
  - exfalso. apply Hn. left. reflexivity.
  - apply IH. cbn [tl]. intros Hin. apply Hn. right. exact Hin.
Qed.

Lemma GetWindow_prev_at (far : list HWND) (p h : HWND) (rest : list HWND) :
  ~ In h (far ++ [p]) -> GetWindow_prev (far ++ p :: h :: rest) h = p.
Proof.
  induction far as [| a far IH]; intros Hn.
  - cbn. rewrite Z.eqb_refl. reflexivity.
  - cbn [app GetWindow_prev].
    assert (Hn' : ~ In h (far ++ [p])).
    { intros Hin. apply Hn. right. exact Hin. }
    destruct far as [| b far'].
    + cbn [app]. cbn [app] in Hn'.
      destruct (Z.eqb_spec p h) as [-> | _].
      * exfalso. apply Hn'. left. reflexivity.
      * apply (IH Hn').
    + cbn [app].
      destruct (Z.eqb_spec b h) as [-> | _].
      * exfalso. apply Hn'. left. reflexivity.
      * apply (IH Hn').
Qed.

(** In a chain without repetition, the window before [h] is the nearest of
    its predecessors. *)
Lemma GetWindow_prev_chain (before : list HWND) (h : HWND) (rest : list HWND) :
  NoDup (rev before ++ h :: rest) ->
  GetWindow_prev (rev before ++ h :: rest) h = hd 0 before.
Proof.
  intros Hnd. destruct before as [| p far].
  - cbn [rev app hd]. apply GetWindow_prev_absent. cbn [tl].
    cbn [rev app] in Hnd. inversion Hnd; assumption.
  - cbn [rev hd]. rewrite <- app_assoc. cbn [app].
    apply GetWindow_prev_at.
    cbn [rev] in Hnd. apply NoDup_remove_2 in Hnd.
    intros Hin. apply Hnd. apply in_or_app. left. exact Hin.
Qed.

Lemma skip_invisible_chain (env : Env) (before : list HWND) :
  forall (h : HWND) (rest : list HWND) (fuel : nat),
    siblings env = rev before ++ h :: rest ->
    NoDup (siblings env) -> ~ In 0 (siblings env) ->
    (length before <= fuel)%nat ->
    skip_invisible env fuel (hd 0 before) =
      Some (nearest_visible (GetWindowLongW_style env) before).
Proof.
  induction before as [| p far IH]; intros h rest fuel Hs Hnd H0 Hfuel.
  - destruct fuel; reflexivity.
  - cbn [hd nearest_visible].
    assert (Hp : (p =? 0) = false).
    { apply Z.eqb_neq. intros ->. apply H0. rewrite Hs.
      apply in_or_app. left. apply in_rev. rewrite rev_involutive. left. reflexivity. }
    assert (Hs' : siblings env = rev far ++ p :: h :: rest).
    { rewrite Hs. cbn [rev]. rewrite <- app_assoc. reflexivity. }
    destruct fuel as [| fuel']; [cbn [length] in Hfuel; lia |].
    cbn [skip_invisible]. rewrite Hp.
    destruct (has_bits (GetWindowLongW_style env p) WS.VISIBLE); [reflexivity |].
    rewrite Hs' at 1. rewrite GetWindow_prev_chain by (rewrite <- Hs'; exact Hnd).
    apply (IH p (h :: rest) fuel' Hs' Hnd H0). cbn [length] in Hfuel. lia.
Qed.

Lemma nearest_visible_none (env : Env) (before : list HWND) :
  Forall (invisible env) before ->
  nearest_visible (GetWindowLongW_style env) before = 0.
Proof.
  induction 1 as [| p far Hp _ IH]; [reflexivity |].
  cbn [nearest_visible]. unfold invisible in Hp. rewrite Hp. exact IH.
Qed.

Lemma nearest_visible_found (env : Env) (between : list HWND) (p : HWND) far :
  Forall (invisible env) between ->
  has_bits (GetWindowLongW_style env p) WS.VISIBLE = true ->
  nearest_visible (GetWindowLongW_style env) (between ++ p :: far) = p.
Proof.
  induction 1 as [| q l Hq _ IH]; intros Hp; cbn [app nearest_visible].
  - rewrite Hp. reflexivity.
  - unfold invisible in Hq. rewrite Hq. apply IH. exact Hp.
Qed.

Lemma has_bits_nonzero m b : has_bits m b = true -> (m =? 0) = false.
Proof.
  unfold has_bits. intros H. apply Z.eqb_neq. intros ->.
  rewrite Z.land_0_l in H. discriminate H.
Qed.

Lemma get_window_changes_mask_sibling changes old new :
  has_bits (fst (get_window_changes changes old new)) X11.CWSibling = false.
Proof.
  unfold get_window_changes.
  destruct (Int32.sub (right old) (left old) =? Int32.sub (right new) (left new));
  destruct (Int32.sub (bottom old) (top old) =? Int32.sub (bottom new) (top new));
  destruct (left old =? left new); destruct (top old =? top new); reflexivity.
Qed.

(** [set_size_hints] makes one call, with these hints. *)
Lemma set_size_hints_run (s : State) (d : x11drv_win_data) :
  pDriverData (st_win s) = Some d ->
  exists h,
    set_size_hints s = Some (tt, s, [XSetWMNormalHints (whole_window d) h]) /\
    sh_win_gravity h = X11.StaticGravity /\
    sh_x h = left (whole_rect d) /\ sh_y h = top (whole_rect d) /\
    (HAS_DLGFRAME (dwStyle (st_win s)) (dwExStyle (st_win s)) = true ->
     sh_flags h = X11.PWinGravity .| X11.PPosition .| (X11.PMinSize .| X11.PMaxSize) /\
     min_width h = Int32.sub (right (whole_rect d)) (left (whole_rect d)) /\
     max_width h = Int32.sub (right (whole_rect d)) (left (whole_rect d)) /\
     min_height h = Int32.sub (bottom (whole_rect d)) (top (whole_rect d)) /\
     max_height h = Int32.sub (bottom (whole_rect d)) (top (whole_rect d))) /\
    (HAS_DLGFRAME (dwStyle (st_win s)) (dwExStyle (st_win s)) = false ->
     sh_flags h = X11.PWinGravity .| X11.PPosition).
Proof.
  intros Hd. unfold set_size_hints. xrun.
  destruct (HAS_DLGFRAME (dwStyle (st_win s)) (dwExStyle (st_win s)));
    eexists; (split; [reflexivity |]); cbn;
    repeat split; intros; try reflexivity; discriminate.
Qed.

Lemma when_set_size_hints_run (b : bool) (s : State) (d : x11drv_win_data) :
  pDriverData (st_win s) = Some d ->
  exists t, when b set_size_hints s = Some (tt, s, t).
Proof.
  intros Hd. destruct b; cbn [when].
  - destruct (set_size_hints_run s d Hd) as (h & E & _). eexists. exact E.
  - eexists. reflexivity.
Qed.

(** The run of [X11DRV_sync_whole_window_position] with a z-order request,
    in terms of the nearest visible predecessor. *)
Lemma zorder_request_run
      (env : Env) (s : State) (data : x11drv_win_data)
      (before rest : list HWND) (zorder : Z) (sib : Window) :
  pDriverData (st_win s) = Some data ->
  zorder <> 0 ->
  siblings env = rev before ++ hwndSelf (st_win s) :: rest ->
  NoDup (siblings env) -> ~ In 0 (siblings env) ->
  let p := nearest_visible (GetWindowLongW_style env) before in
  let rect' := X11DRV_window_to_X_rect env (st_win s) (rectWindow (st_win s)) in
  let mc := get_window_changes no_changes (whole_rect data) rect' in
  let mask := if p =? 0 then fst mc .| X11.CWStackMode
              else fst mc .| (X11.CWStackMode .| X11.CWSibling) in
  let changes :=
    mkChanges (ch_x (snd mc)) (ch_y (snd mc)) (ch_width (snd mc)) (ch_height (snd mc))
              (if p =? 0 then ch_sibling (snd mc) else sib)
              (if p =? 0 then X11.Above else X11.Below) in
  (p <> 0 -> X11DRV_get_whole_window env p = Some sib) ->
  exists calls,
    X11DRV_sync_whole_window_position env zorder s =
      Some (mask, with_data s (set_whole_rect data rect'),
            calls ++ [configure_whole env (st_win s) data mask changes]).
Proof.
  intros Hd Hz Hs Hnd H0 p rect' mc mask changes Hsib.
  assert (Hskip : skip_invisible env (length (siblings env))
                    (GetWindow_prev (siblings env) (hwndSelf (st_win s))) = Some p).
  { rewrite Hs at 2. rewrite GetWindow_prev_chain by (rewrite <- Hs; exact Hnd).
    apply (skip_invisible_chain env before (hwndSelf (st_win s)) rest); try assumption.
    rewrite Hs, length_app, length_rev. lia. }
  assert (Hmask : (mask =? 0) = false).
  { apply (has_bits_nonzero _ X11.CWStackMode). unfold mask.
    destruct (p =? 0).
    - apply has_bits_lor_same. discriminate.
    - rewrite (Z.lor_comm X11.CWStackMode), Z.lor_assoc.
      apply has_bits_lor_same. discriminate. }
  unfold X11DRV_sync_whole_window_position. xrun.
  fold rect'. fold mc.
  apply Z.eqb_neq in Hz. rewrite Hz. cbn [negb]. xrun.
  assert (E : forall (B : Type) (k : Z * XWindowChanges -> X B) st,
             bind (if p =? 0
                   then ret (fst mc .| X11.CWStackMode,
                             mkChanges (ch_x (snd mc)) (ch_y (snd mc)) (ch_width (snd mc))
                               (ch_height (snd mc)) (ch_sibling (snd mc)) X11.Above)
                   else
                     sibling <- lift (X11DRV_get_whole_window env p) ;;
                     ret (fst mc .| (X11.CWStackMode .| X11.CWSibling),
                          mkChanges (ch_x (snd mc)) (ch_y (snd mc)) (ch_width (snd mc))
                            (ch_height (snd mc)) sibling X11.Below)) k st
             = k (mask, changes) st).
  { intros B k st. unfold mask, changes.
    destruct (Z.eqb_spec p 0) as [E0 | E0].
    - xrun. reflexivity.
    - xrun. erewrite bind_lift by (apply Hsib; exact E0). xrun. reflexivity. }
  rewrite E. cbn [fst snd]. xrun. rewrite Hmask. cbn [negb]. xrun.
  unfold configure_whole.
  destruct (is_window_top_level env (st_win s)).
  - xrun.
    destruct (when_set_size_hints_run (has_bits mask (X11.CWWidth .| X11.CWHeight))
                (with_data s (set_whole_rect data rect')) _ (with_data_data _ _))
      as (t & Et).
    rewrite (bind_Some _ _ _ _ _ _ Et). xrun.
    exists ([XSync] ++ t). cbn [after]. rewrite <- app_assoc. reflexivity.
  - xrun. exists [XSync]. reflexivity.
Qed.

(** C4: when a z-order placement is asked for, the invisible siblings before
    the window are skipped.  With no visible predecessor the request is
    [Above] with no sibling; otherwise it is [Below] the whole window of the
    nearest visible predecessor.  [before] lists the predecessors of the
    window, the nearest first. *)
Theorem sync_whole_window_position_zorder
        (env : Env) (s : State) (data : x11drv_win_data)
        (before rest : list HWND) (zorder : Z) :
  pDriverData (st_win s) = Some data ->
  zorder <> 0 ->
  siblings env = rev before ++ hwndSelf (st_win s) :: rest ->
  NoDup (siblings env) -> ~ In 0 (siblings env) ->
  let rect' := X11DRV_window_to_X_rect env (st_win s) (rectWindow (st_win s)) in
  let mc := get_window_changes no_changes (whole_rect data) rect' in
  (Forall (invisible env) before ->
   has_bits (fst mc .| X11.CWStackMode) X11.CWSibling = false /\
   exists calls,
     X11DRV_sync_whole_window_position env zorder s =
       Some (fst mc .| X11.CWStackMode,
             with_data s (set_whole_rect data rect'),
             calls ++
             [configure_whole env (st_win s) data (fst mc .| X11.CWStackMode)
                (mkChanges (ch_x (snd mc)) (ch_y (snd mc)) (ch_width (snd mc))
                           (ch_height (snd mc)) (ch_sibling (snd mc)) X11.Above)])) /\
  (forall between p far sib,
     before = between ++ p :: far ->
     Forall (invisible env) between ->
     has_bits (GetWindowLongW_style env p) WS.VISIBLE = true ->
     X11DRV_get_whole_window env p = Some sib ->
     exists calls,
       X11DRV_sync_whole_window_position env zorder s =
         Some (fst mc .| (X11.CWStackMode .| X11.CWSibling),
               with_data s (set_whole_rect data rect'),
               calls ++
               [configure_whole env (st_win s) data
                  (fst mc .| (X11.CWStackMode .| X11.CWSibling))
                  (mkChanges (ch_x (snd mc)) (ch_y (snd mc)) (ch_width (snd mc))
                             (ch_height (snd mc)) sib X11.Below)])).
Proof.
  intros Hd Hz Hs Hnd H0 rect' mc. split.
  - intros Hinv. split.
    + rewrite has_bits_lor_other by reflexivity.
      apply get_window_changes_mask_sibling.
    + pose proof (zorder_request_run env s data before rest
                    zorder 0 Hd Hz Hs Hnd H0) as R.
      cbv zeta in R. rewrite (nearest_visible_none env before Hinv) in R.
      cbn [Z.eqb] in R. apply R. intros F. contradiction F. reflexivity.
  - intros between p far sib Hb Hinv Hvis Hsib.
    pose proof (zorder_request_run env s data before rest
                  zorder sib Hd Hz Hs Hnd H0) as R.
    cbv zeta in R. rewrite Hb in R.
    rewrite (nearest_visible_found env between p far Hinv Hvis) in R.
    assert (Hp : (p =? 0) = false).
    { apply Z.eqb_neq. intros ->. apply H0. rewrite Hs, Hb.
      apply in_or_app. left. apply in_rev. rewrite rev_involutive.
      apply in_or_app. right. left. reflexivity. }
    rewrite Hp in R. apply R. intros _. exact Hsib.
Qed.

Lemma sync_whole_window_position_zorder_witness :
  exists calls,
    X11DRV_sync_whole_window_position managed_env 1 third_sibling =
      Some (X11.CWWidth .| X11.CWHeight .| (X11.CWStackMode .| X11.CWSibling),
            with_data third_sibling
              (set_whole_rect third_sibling_data (mkRECT 0 0 50 50)),
            calls ++
            [XReconfigureWMWindow 601
               (X11.CWWidth .| X11.CWHeight .| (X11.CWStackMode .| X11.CWSibling))
               (mkChanges 0 0 50 50 501 X11.Below)]).
Proof.
  refine (proj2 (sync_whole_window_position_zorder managed_env third_sibling
                   third_sibling_data [202; 201] [] 1 eq_refl _ eq_refl _ _)
            [202] 201 [] 501 eq_refl _ eq_refl eq_refl).
  - discriminate.
  - repeat constructor; cbn; intuition discriminate.
  - cbn. intuition discriminate.
  - repeat constructor.
Defined.

(** ** The icon representation *)

Lemma lor_land_same a b : (a .& b) .| b = b.
Proof.
  apply Z.bits_inj'. intros n _.
  rewrite Z.lor_spec, Z.land_spec.
  destruct (Z.testbit a n), (Z.testbit b n); reflexivity.
Qed.

Lemma next_reply_run s :
  next_reply s = Some (hd 0 (st_replies s), pop_reply s, []).
Proof. destruct s as [w i [| r rest]]; reflexivity. Qed.

Lemma set_icon_window_same d : icon_window d = 0 -> set_icon_window d 0 = d.
Proof. destruct d. cbn. intros ->. reflexivity. Qed.

Lemma destroy_icon_window_run (s : State) (d : x11drv_win_data) :
  pDriverData (st_win s) = Some d ->
  destroy_icon_window s =
    Some (tt, with_data s (set_icon_window d 0),
          if icon_window d =? 0 then []
          else [XDeleteContext (icon_window d); XDestroyWindow (icon_window d);
                RemovePropA (hwndSelf (st_win s)) icon_window_atom]).
Proof.
  intros Hd. unfold destroy_icon_window. xrun.
  destruct (Z.eqb_spec (icon_window d) 0) as [E | E].
  - rewrite (set_icon_window_same d E), (with_data_same s d Hd). reflexivity.
  - xrun. unfold call. reflexivity.
Qed.

Lemma create_icon_window_run (env : Env) (s : State) (d : x11drv_win_data) :
  pDriverData (st_win s) = Some d ->
  create_icon_window env s =
    Some (hd 0 (st_replies s),
          with_data (pop_reply s) (set_icon_window d (hd 0 (st_replies s))),
          [XCreateWindow (root_window env) 0 0 (SM_CXICON env) (SM_CYICON env)
             (X11.CWEventMask .| X11.CWBitGravity .| X11.CWBackingStore .|
              X11.CWColormap)
             (mkAttr false (X11DRV_PALETTE_PaletteXColormap env) false 0
                input_event_mask X11.NorthWestGravity 0 X11.NotUseful);
           XSaveContext (hd 0 (st_replies s)) (hwndSelf (st_win s));
           SetPropA (hwndSelf (st_win s)) icon_window_atom (hd 0 (st_replies s))]).
Proof.
  intros Hd. unfold create_icon_window. xrun.
  rewrite (bind_Some _ _ _ _ _ _ (next_reply_run s)). xrun.
  reflexivity.
Qed.

Lemma icon_bits_cleared f :
  (f .& Z.lnot icon_hint_bits) .& icon_hint_bits = 0.
Proof.
  rewrite <- Z.land_assoc.
  change (Z.lnot icon_hint_bits .& icon_hint_bits) with 0. apply Z.land_0_r.
Qed.

Lemma icon_bits_window f :
  ((f .& Z.lnot (X11.IconPixmapHint .| X11.IconMaskHint)) .| X11.IconWindowHint)
    .& icon_hint_bits = X11.IconWindowHint.
Proof.
  rewrite Z.land_lor_distr_l, <- Z.land_assoc.
  change (Z.lnot (X11.IconPixmapHint .| X11.IconMaskHint) .& icon_hint_bits)
    with X11.IconWindowHint.
  change (X11.IconWindowHint .& icon_hint_bits) with X11.IconWindowHint.
  apply lor_land_same.
Qed.

Lemma icon_bits_pixmap f :
  ((f .& Z.lnot X11.IconWindowHint) .| X11.IconPixmapHint .| X11.IconMaskHint)
    .& icon_hint_bits = X11.IconPixmapHint .| X11.IconMaskHint.
Proof.
  rewrite <- Z.lor_assoc, Z.land_lor_distr_l, <- Z.land_assoc.
  change (Z.lnot X11.IconWindowHint .& icon_hint_bits)
    with (X11.IconPixmapHint .| X11.IconMaskHint).
  change ((X11.IconPixmapHint .| X11.IconMaskHint) .& icon_hint_bits)
    with (X11.IconPixmapHint .| X11.IconMaskHint).
  apply lor_land_same.
Qed.

Lemma other_bits_cleared f :
  (f .& Z.lnot icon_hint_bits) .& Z.lnot icon_hint_bits = f .& Z.lnot icon_hint_bits.
Proof. rewrite <- Z.land_assoc, Z.land_diag. reflexivity. Qed.

Lemma other_bits_window f :
  ((f .& Z.lnot (X11.IconPixmapHint .| X11.IconMaskHint)) .| X11.IconWindowHint)
    .& Z.lnot icon_hint_bits = f .& Z.lnot icon_hint_bits.
Proof.
  rewrite Z.land_lor_distr_l, <- Z.land_assoc.
  change (Z.lnot (X11.IconPixmapHint .| X11.IconMaskHint) .& Z.lnot icon_hint_bits)
    with (Z.lnot icon_hint_bits).
  change (X11.IconWindowHint .& Z.lnot icon_hint_bits) with 0.
  apply Z.lor_0_r.
Qed.

Lemma other_bits_pixmap f :
  ((f .& Z.lnot X11.IconWindowHint) .| X11.IconPixmapHint .| X11.IconMaskHint)
    .& Z.lnot icon_hint_bits = f .& Z.lnot icon_hint_bits.
Proof.
  rewrite <- Z.lor_assoc, Z.land_lor_distr_l, <- Z.land_assoc.
  change (Z.lnot X11.IconWindowHint .& Z.lnot icon_hint_bits)
    with (Z.lnot icon_hint_bits).
  change ((X11.IconPixmapHint .| X11.IconMaskHint) .& Z.lnot icon_hint_bits) with 0.
  apply Z.lor_0_r.
Qed.

Ltac icon_simpl :=
  cbn [wm_flags wm_icon_window icon_pixmap icon_mask icon_window hWMIconBitmap
       hWMIconMask set_icon_window set_icon_bitmaps with_data pop_reply st_win
       st_replies st_hIcon set_pDriverData pDriverData hd tl app negb] in *.

Ltac icon_goal :=
  solve
    [ reflexivity | discriminate | contradiction | congruence
    | apply other_bits_cleared | apply other_bits_window | apply other_bits_pixmap
    | apply icon_bits_cleared | apply icon_bits_window | apply icon_bits_pixmap
    | cbn [In]; intuition discriminate
    | cbn [In]; repeat (first [left; reflexivity | right])
    | do 2 eexists; cbn [In]; repeat (first [left; reflexivity | right]) ].

(** C5: after [set_icon_hints], the three icon flags of the hints hold
    exactly one representation, and the other flags are as before.
    - window not managed: none of the three flags, the icon window destroyed;
    - managed, no class icon: [IconWindowHint] alone, the icon window kept if
      there is one and created otherwise;
    - managed, class icon: [IconPixmapHint] and [IconMaskHint] alone, the icon
      window destroyed and the bitmaps of the icon owned by the window. *)
Theorem set_icon_hints_representation
        (env : Env) (s : State) (d : x11drv_win_data) (hints : XWMHints) :
  pDriverData (st_win s) = Some d ->
  exists hints' s' d' calls,
    set_icon_hints env hints s = Some (hints', s', calls) /\
    pDriverData (st_win s') = Some d' /\
    wm_flags hints' .& Z.lnot icon_hint_bits = wm_flags hints .& Z.lnot icon_hint_bits /\
    (has_bits (dwExStyle (st_win s)) WS.EX_MANAGED = false ->
     wm_flags hints' .& icon_hint_bits = 0 /\
     icon_window d' = 0 /\
     (icon_window d <> 0 -> In (XDestroyWindow (icon_window d)) calls)) /\
    (has_bits (dwExStyle (st_win s)) WS.EX_MANAGED = true -> st_hIcon s = 0 ->
     wm_flags hints' .& icon_hint_bits = X11.IconWindowHint /\
     wm_icon_window hints' = icon_window d' /\
     (forall w, ~ In (XDestroyWindow w) calls) /\
     (icon_window d <> 0 ->
      icon_window d' = icon_window d /\ st_replies s' = st_replies s) /\
     (icon_window d = 0 ->
      icon_window d' = hd 0 (st_replies s) /\
      st_replies s' = tl (st_replies s) /\
      exists mask attr,
        In (XCreateWindow (root_window env) 0 0 (SM_CXICON env) (SM_CYICON env)
              mask attr) calls)) /\
    (has_bits (dwExStyle (st_win s)) WS.EX_MANAGED = true -> st_hIcon s <> 0 ->
     wm_flags hints' .& icon_hint_bits = X11.IconPixmapHint .| X11.IconMaskHint /\
     icon_window d' = 0 /\
     (icon_window d <> 0 -> In (XDestroyWindow (icon_window d)) calls) /\
     hWMIconBitmap d' = snd (GetIconInfo env (st_hIcon s)) /\
     hWMIconMask d' = fst (GetIconInfo env (st_hIcon s)) /\
     icon_pixmap hints' = X11DRV_BITMAP_Pixmap env (hWMIconBitmap d') /\
     icon_mask hints' = X11DRV_BITMAP_Pixmap env (hWMIconMask d')).
Proof.
  intros Hd. unfold set_icon_hints. xrun.
  destruct (has_bits (dwExStyle (st_win s)) WS.EX_MANAGED) eqn:Hm; cbn [negb];
    [destruct (Z.eqb_spec (st_hIcon s) 0) as [Hi | Hi];
     [xrun; cbn [set_icon_bitmaps icon_window];
      destruct (Z.eqb_spec (icon_window d) 0) as [Hw | Hw];
      [xrun; xcall create_icon_window_run; xrun | xrun]
     | xrun; xcall destroy_icon_window_run; xrun]
    | xrun; xcall destroy_icon_window_run; xrun];
    do 4 eexists; (split; [reflexivity |]); (split; [reflexivity |]);
    icon_simpl;
    destruct (hWMIconBitmap d =? 0); destruct (hWMIconMask d =? 0);
    try (destruct (Z.eqb_spec (icon_window d) 0) as [Hw | Hw]);
    icon_simpl;
    repeat match goal with
           | |- _ /\ _ => split
           | |- forall _, _ => intro
           end;
    icon_goal.
Qed.

Lemma set_icon_hints_representation_witness :
  exists hints' s' calls,
    set_icon_hints managed_env XAllocWMHints window_given_icon =
      Some (hints', s', calls) /\
    wm_flags hints' .& icon_hint_bits = X11.IconPixmapHint .| X11.IconMaskHint /\
    In (XDestroyWindow 650) calls.
Proof.
  destruct (set_icon_hints_representation managed_env window_given_icon
              iconless_data XAllocWMHints eq_refl)
    as (hints' & s' & d' & calls & E & _ & _ & _ & _ & Hp).
  destruct (Hp eq_refl ltac:(discriminate)) as (F & _ & D & _).
  exists hints', s', calls.
  split; [exact E |]. split; [exact F |].
  apply D. discriminate.
Defined.

(** ** Creation of the whole window *)

Ltac in_calls :=
  cbn [after app In];
  repeat first [ left; reflexivity | right | apply in_or_app; right ].

Ltac in_calls_with H :=
  cbn [after app In];
  repeat first [ exact H | apply in_or_app; left; exact H
               | right | apply in_or_app; right ].

(** [set_icon_hints] completes, and leaves the X windows, the rectangles and
    the logical window as they are. *)
Lemma set_icon_hints_run (env : Env) (s : State) (d : x11drv_win_data)
      (hints : XWMHints) :
  pDriverData (st_win s) = Some d ->
  exists hints' d' replies' calls,
    set_icon_hints env hints s =
      Some (hints', with_data_replies s d' replies', calls) /\
    same_peers d d'.
Proof.
  intros Hd. unfold set_icon_hints. xrun.
  destruct (has_bits (dwExStyle (st_win s)) WS.EX_MANAGED); cbn [negb];
    [destruct (st_hIcon s =? 0);
     [xrun; cbn [set_icon_bitmaps icon_window];
      destruct (icon_window d =? 0);
      [xrun; xcall create_icon_window_run; xrun | xrun]
     | xrun; xcall destroy_icon_window_run; xrun]
    | xrun; xcall destroy_icon_window_run; xrun];
    do 4 eexists; (split; [reflexivity | repeat split]).
Qed.

Lemma get_window_attributes_run (env : Env) (attr : XSetWindowAttributes) (s : State) :
  exists m a,
    get_window_attributes env attr s =
      Some ((m, a),
            with_win s (set_dwExStyle (st_win s) (synced_exStyle env (st_win s))),
            []).
Proof.
  unfold get_window_attributes, synced_exStyle. xrun.
  destruct (is_window_top_level env (st_win s) && is_window_managed env (st_win s));
    do 2 eexists; reflexivity.
Qed.

(** [set_wm_hints] completes when the owner, if any, can be looked up; among
    its calls is the one that [set_size_hints] makes in the same state. *)
Lemma set_wm_hints_run (env : Env) (s : State) (d : x11drv_win_data) :
  pDriverData (st_win s) = Some d ->
  (owner (st_win s) <> 0 ->
   exists ow, X11DRV_get_whole_window env (owner (st_win s)) = Some ow) ->
  exists h d' replies' calls,
    set_wm_hints env s = Some (tt, with_data_replies s d' replies', calls) /\
    same_peers d d' /\
    set_size_hints s = Some (tt, s, [XSetWMNormalHints (whole_window d) h]) /\
    In (XSetWMNormalHints (whole_window d) h) calls.
Proof.
  intros Hd Hown.
  destruct (set_size_hints_run s d Hd) as (h & Esh & _).
  assert (Eicon : forall hints, exists hints' d' replies' calls,
             set_icon_hints env hints s =
               Some (hints', with_data_replies s d' replies', calls) /\
             same_peers d d').
  { intros hints. apply set_icon_hints_run. exact Hd. }
  unfold set_wm_hints. xrun.
  match goal with
  | |- context [set_icon_hints env ?hints] =>
      destruct (Eicon hints) as (hints' & d' & replies' & ci & Ei & Hsame)
  end.
  exists h, d', replies'.
  destruct (Z.eqb_spec (owner (st_win s)) 0) as [Ho | Ho]; cbn [negb].
  - xrun. rewrite (bind_Some _ _ _ _ _ _ Esh).
    destruct (has_bits (dwExStyle (st_win s)) WS.EX_TRAYWINDOW); cbn [when];
      xrun; rewrite (bind_Some _ _ _ _ _ _ Ei); xrun;
      unfold call; cbn [after]; eexists;
      (split; [reflexivity |]); (split; [exact Hsame |]);
      (split; [exact Esh |]); in_calls.
  - destruct (Hown Ho) as (ow & Eow).
    xrun. rewrite (bind_Some _ _ _ _ _ _ Esh).
    destruct (has_bits (dwExStyle (st_win s)) WS.EX_TRAYWINDOW); cbn [when];
      xrun; rewrite (bind_Some _ _ _ _ _ _ Ei); xrun;
      unfold call; cbn [after]; eexists;
      (split; [reflexivity |]); (split; [exact Hsame |]);
      (split; [exact Esh |]); in_calls.
Qed.

(** [create_whole_window] completes when the parent and the owner can be
    looked up.  It returns the reply to its [XCreateWindow] request; for a
    top-level window that was created, the size hints are set in the state
    [whole_window_created]. *)
Lemma create_whole_window_run (env : Env) (s : State) (d : x11drv_win_data)
      (pw : Window) :
  pDriverData (st_win s) = Some d ->
  X11DRV_get_client_window env (parent (st_win s)) = Some pw ->
  (owner (st_win s) <> 0 ->
   exists ow, X11DRV_get_whole_window env (owner (st_win s)) = Some ow) ->
  let w := hd 0 (st_replies s) in
  let s1 := whole_window_created env s d in
  exists d' replies' calls,
    create_whole_window env s =
      Some (w, with_data_replies s1 d' replies', calls) /\
    whole_window d' = w /\
    whole_rect d' =
      X11DRV_window_to_X_rect env (st_win s) (rectWindow (st_win s)) /\
    (is_window_top_level env (st_win s) = true -> w <> 0 ->
     exists h,
       set_size_hints s1 = Some (tt, s1, [XSetWMNormalHints w h]) /\
       In (XSetWMNormalHints w h) calls).
Proof.
  intros Hd Hpw Hown w s1.
  destruct (get_window_attributes_run env no_attributes s) as (m & a & Ea).
  unfold create_whole_window. xrun.
  rewrite (bind_Some _ _ _ _ _ _ Ea). xrun.
  rewrite (bind_Some _ _ _ _ _ _ (next_reply_run _)). xrun.
  cbn [with_win st_replies pop_reply st_win st_hIcon with_data tl].
  fold w.
  change (mkState
            (set_pDriverData
               (set_dwExStyle (st_win s) (synced_exStyle env (st_win s)))
               (Some (set_whole d w
                        (X11DRV_window_to_X_rect env (st_win s)
                           (rectWindow (st_win s))))))
            (st_hIcon s) (tl (st_replies s))) with s1.
  destruct (Z.eqb_spec w 0) as [Hw | Hw].
  - xrun. exists (set_whole d w
                    (X11DRV_window_to_X_rect env (st_win s) (rectWindow (st_win s)))),
      (tl (st_replies s)).
    eexists. split; [unfold ret; cbn [after];
                     refine (f_equal (fun x => Some (x, s1, _)) (eq_sym Hw)) |].
    split; [reflexivity |]. split; [reflexivity |].
    intros _ F. contradiction.
  - xrun. destruct (is_window_top_level env (st_win s)) eqn:Htop; cbn [when].
    + destruct (set_wm_hints_run env s1 _ eq_refl Hown)
        as (h & d' & replies' & calls & Ew & (Hww & _ & Hwr & _) & Esh & Hin).
      rewrite (bind_Some _ _ _ _ _ _ Ew). xrun.
      exists d', replies'. eexists.
      split; [cbn [with_data_replies st_win set_pDriverData pDriverData
                   whole_window] in *; rewrite Hww; reflexivity |].
      split; [exact Hww |]. split; [exact Hwr |].
      intros _ _. exists h. split; [exact Esh |].
      cbn [whole_window set_whole] in Hin. in_calls_with Hin.
    + xrun. exists (set_whole d w
                      (X11DRV_window_to_X_rect env (st_win s) (rectWindow (st_win s)))),
        (tl (st_replies s)).
      eexists. split; [reflexivity |].
      split; [reflexivity |]. split; [reflexivity |].
      intros F. discriminate F.
Qed.

(** ** Teardown *)

(** The calls of [X11DRV_DestroyWindow] for a window that has driver data. *)
Lemma DestroyWindow_run (s : State) (d : x11drv_win_data) :
  pDriverData (st_win s) = Some d ->
  X11DRV_DestroyWindow s =
    Some (true, with_win s (set_pDriverData (st_win s) None),
          (if whole_window d =? 0 then []
           else [XSync; XDeleteContext (whole_window d);
                 XDeleteContext (client_window d);
                 XDestroyWindow (whole_window d)] ++
                (if icon_window d =? 0 then []
                 else [XDeleteContext (icon_window d);
                       XDestroyWindow (icon_window d);
                       RemovePropA (hwndSelf (st_win s)) icon_window_atom])) ++
          (if hWMIconBitmap d =? 0 then [] else [DeleteObject (hWMIconBitmap d)]) ++
          (if hWMIconMask d =? 0 then [] else [DeleteObject (hWMIconMask d)]) ++
          [HeapFree_data]).
Proof.
  intros Hd. unfold X11DRV_DestroyWindow. xrun. rewrite Hd.
  destruct (whole_window d =? 0); cbn [negb when].
  - xrun. destruct (hWMIconBitmap d =? 0); destruct (hWMIconMask d =? 0);
      reflexivity.
  - xrun. xcall destroy_icon_window_run. xrun.
    destruct (icon_window d =? 0);
      destruct (hWMIconBitmap d =? 0); destruct (hWMIconMask d =? 0);
      reflexivity.
Qed.

(** [X11DRV_DestroyWindow] always completes, returns [TRUE] and leaves the
    window without driver data. *)
Lemma DestroyWindow_total (s : State) :
  exists s' calls,
    X11DRV_DestroyWindow s = Some (true, s', calls) /\
    pDriverData (st_win s') = None /\
    rectWindow (st_win s') = rectWindow (st_win s).
Proof.
  destruct (pDriverData (st_win s)) as [d |] eqn:Hd.
  - do 2 eexists. split; [apply (DestroyWindow_run s d Hd) |].
    split; reflexivity.
  - exists s, []. unfold X11DRV_DestroyWindow. xrun. rewrite Hd.
    split; [reflexivity |]. split; reflexivity.
Qed.

(** C8, as stated, fails: the whole window is destroyed before the icon
    window, and before the icon bitmaps are deleted. *)
Lemma DestroyWindow_destroys_whole_window_first :
  exists calls,
    X11DRV_DestroyWindow window_with_icons =
      Some (true,
            with_win window_with_icons
              (set_pDriverData (st_win window_with_icons) None),
            calls) /\
    calls =
      [XSync; XDeleteContext 601; XDeleteContext 602; XDestroyWindow 601;
       XDeleteContext 650; XDestroyWindow 650;
       RemovePropA 203 icon_window_atom;
       DeleteObject 71; DeleteObject 72; HeapFree_data] /\
    comes_before (destroys 650) (destroys 601) calls = false /\
    comes_before (deletes 71) (destroys 601) calls = false /\
    comes_before (deletes 72) (destroys 601) calls = false.
Proof.
  eexists. split; [reflexivity |]. repeat split.
Qed.

(** C8 (amended): for a window with a whole X window, [X11DRV_DestroyWindow]
    deletes the two context entries, destroys the whole window (no request
    is made for the client window), then destroys the icon window if there
    is one, then deletes the icon bitmap and mask if there are any, frees the
    driver data and clears the pointer to it. *)
Theorem DestroyWindow_order (s : State) (d : x11drv_win_data) :
  pDriverData (st_win s) = Some d ->
  whole_window d <> 0 ->
  X11DRV_DestroyWindow s =
    Some (true, with_win s (set_pDriverData (st_win s) None),
          [XSync; XDeleteContext (whole_window d);
           XDeleteContext (client_window d);
           XDestroyWindow (whole_window d)] ++
          (if icon_window d =? 0 then []
           else [XDeleteContext (icon_window d);
                 XDestroyWindow (icon_window d);
                 RemovePropA (hwndSelf (st_win s)) icon_window_atom]) ++
          (if hWMIconBitmap d =? 0 then [] else [DeleteObject (hWMIconBitmap d)]) ++
          (if hWMIconMask d =? 0 then [] else [DeleteObject (hWMIconMask d)]) ++
          [HeapFree_data]) /\
  pDriverData (st_win (with_win s (set_pDriverData (st_win s) None))) = None.
Proof.
  intros Hd Hw. split; [| reflexivity].
  rewrite (DestroyWindow_run s d Hd).
  apply Z.eqb_neq in Hw. rewrite Hw.
  rewrite <- !app_assoc. reflexivity.
Qed.

Lemma DestroyWindow_order_witness :
  X11DRV_DestroyWindow window_with_icons =
    Some (true,
          with_win window_with_icons
            (set_pDriverData (st_win window_with_icons) None),
          [XSync; XDeleteContext 601; XDeleteContext 602; XDestroyWindow 601;
           XDeleteContext 650; XDestroyWindow 650;
           RemovePropA 203 icon_window_atom;
           DeleteObject 71; DeleteObject 72; HeapFree_data]).
Proof.
  refine (proj1 (DestroyWindow_order window_with_icons
                   (mkData 601 602 650 (mkRECT 14 33 206 106)
                      (mkRECT 0 0 192 73) 71 72) eq_refl _)).
  discriminate.
Defined.

(** ** Creation *)

(** [create_client_window] completes; it returns the reply to its
    [XCreateWindow] request and keeps the rectangles of the logical window. *)
Lemma create_client_window_run (s : State) (d : x11drv_win_data) :
  pDriverData (st_win s) = Some d ->
  exists calls,
    create_client_window s =
      Some (hd 0 (st_replies s),
            with_data (pop_reply s) (client_window_created s d), calls).
Proof.
  intros Hd. unfold create_client_window, client_window_created. xrun.
  rewrite (bind_Some _ _ _ _ _ _ (next_reply_run _)). xrun.
  xcall is_client_window_mapped_run. xrun.
  eexists. reflexivity.
Qed.


Lemma limit_size_code (cs : CREATESTRUCTA) :
  (let cs1 := if 65535 <? cs_cx cs
              then mkCS (cs_x cs) (cs_y cs) 65535 (cs_cy cs) (cs_style cs)
              else cs in
   if 65535 <? cs_cy cs1
   then mkCS (cs_x cs1) (cs_y cs1) (cs_cx cs1) 65535 (cs_style cs1)
   else cs1) = limit_size cs.
Proof.
  unfold limit_size. destruct cs as [x y cx cy st]. cbn [cs_x cs_y cs_cx cs_cy cs_style].
  destruct (Z.ltb_spec 65535 cx); cbn [cs_x cs_y cs_cx cs_cy cs_style];
    destruct (Z.ltb_spec 65535 cy); f_equal; lia.
Qed.

(** ** Runs of the synchronisation functions *)

(** The run of [X11DRV_sync_whole_window_position] without a z-order
    request. *)
Lemma sync_whole_run (env : Env) (s : State) (d : x11drv_win_data) :
  pDriverData (st_win s) = Some d ->
  let rect' := X11DRV_window_to_X_rect env (st_win s) (rectWindow (st_win s)) in
  let mc := get_window_changes no_changes (whole_rect d) rect' in
  let s' := with_data s (set_whole_rect d rect') in
  exists h,
    set_size_hints s' = Some (tt, s', [XSetWMNormalHints (whole_window d) h]) /\
    X11DRV_sync_whole_window_position env 0 s =
      Some (fst mc, s',
            if fst mc =? 0 then []
            else XSync ::
                 (if is_window_top_level env (st_win s)
                  then (if has_bits (fst mc) (X11.CWWidth .| X11.CWHeight)
                        then [XSetWMNormalHints (whole_window d) h] else []) ++
                       [XReconfigureWMWindow (whole_window d) (fst mc) (snd mc)]
                  else [XConfigureWindow (whole_window d) (fst mc) (snd mc)])).
Proof.
  intros Hd rect' mc s'.
  destruct (set_size_hints_run s' _ (with_data_data _ _)) as (h & Eh & _).
  exists h. split; [exact Eh |].
  unfold X11DRV_sync_whole_window_position. xrun.
  fold rect'. fold mc. cbn [Z.eqb negb]. xrun. fold s'.
  destruct (fst mc =? 0); cbn [negb].
  - xrun. reflexivity.
  - xrun. destruct (is_window_top_level env (st_win s)).
    + xrun. destruct (has_bits (fst mc) (X11.CWWidth .| X11.CWHeight)); cbn [when].
      * rewrite (bind_Some _ _ _ _ _ _ Eh). xrun. reflexivity.
      * xrun. reflexivity.
    + xrun. reflexivity.
Qed.

(** The run of [X11DRV_sync_client_window_position]. *)
Lemma sync_client_run (s : State) (d : x11drv_win_data) :
  pDriverData (st_win s) = Some d ->
  let new_rect := client_rect_relative (st_win s) d in
  let mc := get_window_changes no_changes (client_rect d) new_rect in
  let eligible (r : RECT) :=
    negb (has_bits (dwStyle (st_win s)) WS.MINIMIZE) && negb (IsRectEmpty r) in
  X11DRV_sync_client_window_position s =
    Some (fst mc,
          (if fst mc =? 0 then s else with_data s (set_client_rect d new_rect)),
          if fst mc =? 0 then []
          else XSync ::
               (if eligible (client_rect d) && negb (eligible new_rect)
                then [XUnmapWindow (client_window d)] else []) ++
               XConfigureWindow (client_window d) (fst mc) (snd mc) ::
               (if negb (eligible (client_rect d)) && eligible new_rect
                then [XMapWindow (client_window d)] else [])).
Proof.
  intros Hd new_rect mc eligible.
  unfold X11DRV_sync_client_window_position. xrun.
  fold (client_rect_relative (st_win s) d). fold new_rect. fold mc.
  destruct (fst mc =? 0); cbn [negb].
  - xrun. reflexivity.
  - xrun. xcall is_client_window_mapped_run. xrun.
    xcall is_client_window_mapped_run. xrun.
    xcall is_client_window_mapped_run. xrun.
    cbn [with_data st_win set_pDriverData dwStyle client_rect set_client_rect].
    fold (eligible (client_rect d)). fold (eligible new_rect).
    destruct (eligible (client_rect d)); destruct (eligible new_rect); reflexivity.
Qed.

Lemma failed_exit_run (cs : CREATESTRUCTA) (s : State) :
  CreateWindow_failed cs s = failed_exit cs s.
Proof.
  unfold CreateWindow_failed, failed_exit, bind.
  destruct (X11DRV_DestroyWindow s) as [[[b s'] t] |]; [| reflexivity].
  cbn. rewrite app_nil_r. reflexivity.
Qed.

Lemma failed_exit_total (cs : CREATESTRUCTA) (s : State) :
  exists s' t,
    X11DRV_DestroyWindow s = Some (true, s', t) /\
    failed_exit cs s = Some ((false, cs), s', t) /\
    pDriverData (st_win s') = None /\
    rectWindow (st_win s') = rectWindow (st_win s).
Proof.
  destruct (DestroyWindow_total s) as (s' & t & E & Hn & Hr).
  exists s', t. unfold failed_exit. rewrite E. repeat split; assumption.
Qed.

Lemma size_hints_of_app (a b : list Call) :
  size_hints_of (a ++ b) = size_hints_of a ++ size_hints_of b.
Proof.
  induction a as [| c a IH]; [reflexivity |].
  destruct c; cbn [app size_hints_of]; rewrite IH; reflexivity.
Qed.

(** The run of [sync_window_style]. *)
Lemma sync_window_style_run (env : Env) (s : State) (d : x11drv_win_data) :
  pDriverData (st_win s) = Some d ->
  exists mask a,
    sync_window_style env s =
      Some (tt,
            with_win s (set_dwExStyle (st_win s) (synced_exStyle env (st_win s))),
            XChangeWindowAttributes (whole_window d) mask a ::
            (if cursor a =? 0 then [] else [XFreeCursor (cursor a)])).
Proof.
  intros Hd.
  destruct (get_window_attributes_run env no_attributes s) as (m & a & Ea).
  unfold sync_window_style. rewrite (bind_Some _ _ _ _ _ _ Ea). xrun.
  cbn [fst snd]. exists m, a.
  destruct (cursor a =? 0); reflexivity.
Qed.

Lemma register_window_run (hwnd : HWND) (s : State) (d : x11drv_win_data) :
  pDriverData (st_win s) = Some d ->
  X11DRV_register_window hwnd s =
    Some (tt, s, [XSaveContext (whole_window d) hwnd;
                  XSaveContext (client_window d) hwnd]).
Proof.
  intros Hd. unfold X11DRV_register_window. xrun. reflexivity.
Qed.

Lemma CreateWindow_fix_size_run
      (env : Env) (user : User) (cs : CREATESTRUCTA)
      (s : State) (d : x11drv_win_data) :
  pDriverData (st_win s) = Some d ->
  exists b cs' s' calls,
    CreateWindow_fix_size env user cs s = Some ((b, cs'), s', calls) /\
    same_window s s' /\
    (size_not_negotiated (cs_style cs) = true ->
     b = true /\ cs' = cs /\ s' = s /\ calls = []).
Proof.
  intros Hd. unfold CreateWindow_fix_size, size_not_negotiated. xrun.
  destruct (has_bits (cs_style cs) WS.THICKFRAME
            || negb (has_bits (cs_style cs) (WS.POPUP .| WS.CHILD))).
  - xrun. cbv zeta.
    match goal with
    | |- context [mkCS (cs_x cs) (cs_y cs) ?a ?b (cs_style cs)] =>
        set (cs1 := mkCS (cs_x cs) (cs_y cs) a b (cs_style cs))
    end.
    destruct (window_gone user after_WM_GETMINMAXINFO).
    + do 4 eexists. split; [reflexivity |].
      split; [| discriminate].
      split; [reflexivity |]. split; [reflexivity |].
      exists d, d. repeat split; assumption.
    + xrun.
      match goal with
      | |- context [bind (X11DRV_sync_whole_window_position env 0) _ ?st] =>
          destruct (sync_whole_run env st d Hd) as (h & _ & E)
      end.
      cbv zeta in E. rewrite (bind_Some _ _ _ _ _ _ E). xrun.
      do 4 eexists. split; [reflexivity |].
      split; [| discriminate].
      split; [reflexivity |]. split; [reflexivity |].
      eexists d, _. split; [exact Hd |]. split; [reflexivity |].
      repeat split.
  - do 4 eexists. split; [reflexivity |].
    split; [| intros _; repeat split].
    split; [reflexivity |]. split; [reflexivity |].
    exists d, d. repeat split; assumption.
Qed.

Ltac no_size_hints :=
  repeat first
    [ rewrite size_hints_of_app
    | progress cbn [size_hints_of app]
    | match goal with
      | |- context [if ?b then _ else _] => destruct b
      end ];
  reflexivity.

Lemma same_window_refl (s : State) (d : x11drv_win_data) :
  pDriverData (st_win s) = Some d -> same_window s s.
Proof.
  intros Hd. split; [reflexivity |]. split; [reflexivity |].
  exists d, d. repeat split; assumption.
Qed.

Lemma same_window_trans (s1 s2 s3 : State) :
  same_window s1 s2 -> same_window s2 s3 -> same_window s1 s3.
Proof.
  intros (Hh & Hp & d1 & d2 & E1 & E2 & Hw & Hc & Hi & Hb & Hm)
         (Hh' & Hp' & d2' & d3 & E2' & E3 & Hw' & Hc' & Hi' & Hb' & Hm').
  rewrite E2 in E2'. injection E2' as <-.
  split; [congruence |]. split; [congruence |].
  exists d1, d3. repeat split; congruence.
Qed.

Lemma CreateWindow_messages_run
      (env : Env) (user : User) (cs : CREATESTRUCTA) (unicode : bool)
      (s : State) (d : x11drv_win_data) :
  pDriverData (st_win s) = Some d ->
  exists b s' calls,
    CreateWindow_messages env user cs unicode s = Some (b, s', calls) /\
    same_window s s' /\ size_hints_of calls = [] /\
    rectWindow (st_win s') = rectWindow (st_win s).
Proof.
  intros Hd. unfold CreateWindow_messages. xrun.
  destruct (WM_NCCREATE_reply user =? 0).
  { xrun. do 3 eexists. split; [reflexivity |].
    split; [exact (same_window_refl s d Hd) |]. split; reflexivity. }
  destruct (window_gone user after_WM_NCCREATE).
  { xrun. do 3 eexists. split; [reflexivity |].
    split; [exact (same_window_refl s d Hd) |]. split; reflexivity. }
  destruct (sync_window_style_run env s d Hd) as (m & a & Es).
  rewrite (bind_Some _ _ _ _ _ _ Es). clear Es. xrun.
  set (s1 := with_win s (set_dwExStyle (st_win s) (synced_exStyle env (st_win s)))).
  assert (H1 : same_window s s1).
  { split; [reflexivity |]. split; [reflexivity |].
    exists d, d. repeat split; assumption. }
  destruct (window_gone user after_WM_NCCALCSIZE).
  { xrun. do 3 eexists. split; [reflexivity |].
    split; [exact H1 |]. split; [no_size_hints | reflexivity]. }
  xrun.
  match goal with
  | |- context [bind X11DRV_sync_client_window_position _ ?st] => set (s2 := st)
  end.
  assert (Hd2 : pDriverData (st_win s2) = Some d) by exact Hd.
  assert (H2 : same_window s s2).
  { split; [reflexivity |]. split; [reflexivity |].
    exists d, d. repeat split; assumption. }
  pose proof (sync_client_run s2 d Hd2) as Ec. cbv zeta in Ec.
  set (mc := get_window_changes no_changes (client_rect d)
               (client_rect_relative (st_win s2) d)) in Ec.
  rewrite (bind_Some _ _ _ _ _ _ Ec). clear Ec.
  set (s3 := if fst mc =? 0 then s2
             else with_data s2 (set_client_rect d
                                  (client_rect_relative (st_win s2) d))).
  assert (H3 : exists d3, pDriverData (st_win s3) = Some d3 /\ same_window s s3 /\
                          rectWindow (st_win s3) = rectWindow (st_win s)).
  { unfold s3. destruct (fst mc =? 0).
    - exists d. split; [exact Hd2 |]. split; [exact H2 | reflexivity].
    - eexists. split; [reflexivity |]. split; [| reflexivity].
      split; [reflexivity |]. split; [reflexivity |].
      eexists d, _. split; [exact Hd |]. split; [reflexivity |]. repeat split. }
  destruct H3 as (d3 & Hd3 & H3 & R3).
  rewrite (bind_Some _ _ _ _ _ _ (register_window_run _ s3 d3 Hd3)). xrun.
  destruct (WM_CREATE_reply user =? -1).
  { xrun. do 3 eexists. split; [reflexivity |].
    split; [exact H3 |]. split; [no_size_hints | exact R3]. }
  destruct (window_gone user after_WM_CREATE).
  { xrun. do 3 eexists. split; [reflexivity |].
    split; [exact H3 |]. split; [no_size_hints | exact R3]. }
  xrun.
  destruct (WIN_NEED_SIZE user); cbn [negb when]; xrun;
    (destruct (has_bits (dwStyle (st_win s3)) (WS.MINIMIZE .| WS.MAXIMIZE));
     cbn [when]; xrun;
     do 3 eexists; (split; [reflexivity |]);
     (split;
      [ first
          [ exact H3
          | apply (same_window_trans s s3); [exact H3 |];
            split; [reflexivity |]; split; [reflexivity |];
            eexists d3, _; split; [exact Hd3 |];
            split; [exact Hd3 |]; repeat split ]
      | split; [no_size_hints | exact R3] ])).
Qed.

(** ** Size hints among the calls *)

Lemma DestroyWindow_size_hints (s s' : State) (b : bool) (t : list Call) :
  X11DRV_DestroyWindow s = Some (b, s', t) -> size_hints_of t = [].
Proof.
  destruct (pDriverData (st_win s)) as [d |] eqn:Hd.
  - rewrite (DestroyWindow_run s d Hd). intros E. injection E as _ _ <-.
    no_size_hints.
  - unfold X11DRV_DestroyWindow. xrun. rewrite Hd.
    intros E. injection E as _ _ <-. reflexivity.
Qed.





(** ** The course of a creation *)

Lemma creation_announced_run
      (env : Env) (user : User) (cs : CREATESTRUCTA) (unicode : bool)
      (s : State) (d : x11drv_win_data) :
  pDriverData (st_win s) = Some d ->
  exists b cs1 s' t,
    creation_announced env user cs unicode s = Some ((b, cs1), s', t) /\
    (pDriverData (st_win s') <> None -> same_window s s') /\
    (size_not_negotiated (cs_style cs) = true ->
     size_hints_of t = [] /\ cs1 = cs /\
     rectWindow (st_win s') = rectWindow (st_win s)).
Proof.
  intros Hd. unfold creation_announced.
  assert (Hfail : forall hook,
            size_hints_of hook = [] ->
            exists b cs1 s' t,
              after hook (failed_exit cs s) = Some ((b, cs1), s', t) /\
              (pDriverData (st_win s') <> None -> same_window s s') /\
              (size_not_negotiated (cs_style cs) = true ->
               size_hints_of t = [] /\ cs1 = cs /\
               rectWindow (st_win s') = rectWindow (st_win s))).
  { intros hook Hh.
    destruct (failed_exit_total cs s) as (s' & t & Ed & Ef & Hn & Hr).
    rewrite Ef. cbn [after]. do 4 eexists. split; [reflexivity |].
    split; [intros F; contradiction |]. intros _.
    split; [| split; [reflexivity | exact Hr]].
    rewrite size_hints_of_app, Hh, (DestroyWindow_size_hints _ _ _ _ Ed).
    reflexivity. }
  assert (Hgo : forall hook,
            size_hints_of hook = [] ->
            exists b cs1 s' t,
              after hook
                match CreateWindow_fix_size env user cs s with
                | None => None
                | Some ((false, cs1), s1, t1) => Some ((false, cs1), s1, t1)
                | Some ((true, cs1), s1, t1) =>
                    after t1
                      match CreateWindow_messages env user cs1 unicode s1 with
                      | None => None
                      | Some (ok, s2, t2) => Some ((ok, cs1), s2, t2)
                      end
                end = Some ((b, cs1), s', t) /\
              (pDriverData (st_win s') <> None -> same_window s s') /\
              (size_not_negotiated (cs_style cs) = true ->
               size_hints_of t = [] /\ cs1 = cs /\
               rectWindow (st_win s') = rectWindow (st_win s))).
  { intros hook Hh.
    destruct (CreateWindow_fix_size_run env user cs s d Hd)
      as (b & cs1 & s1 & t1 & Ef & Hsame & Hskip).
    rewrite Ef. destruct b.
    - destruct Hsame as (Hh1 & Hp1 & d0 & d1 & E0 & E1 & Hrest).
      destruct (CreateWindow_messages_run env user cs1 unicode s1 d1 E1)
        as (ok & s2 & t2 & Em & Hsame2 & Hsz2 & Hr2).
      rewrite Em. cbn [after]. do 4 eexists. split; [reflexivity |].
      split.
      + intros _. apply (same_window_trans s s1 s2); [| exact Hsame2].
        split; [exact Hh1 |]. split; [exact Hp1 |].
        exists d0, d1. split; [exact E0 |]. split; [exact E1 | exact Hrest].
      + intros Hn. destruct (Hskip Hn) as (_ & -> & Es1 & ->).
        split; [| split; [reflexivity | rewrite Hr2, Es1; reflexivity]].
        rewrite !size_hints_of_app, Hh, Hsz2. reflexivity.
    - cbn [after]. do 4 eexists. split; [reflexivity |].
      split; [intros _; exact Hsame |].
      intros Hn. destruct (Hskip Hn) as (F & _). discriminate F. }
  destruct (HOOK_IsHooked_CBT user); cbn [andb].
  - destruct (negb (HOOK_CallHooks_reply user =? 0)).
    + apply Hfail. reflexivity.
    + apply Hgo. reflexivity.
  - apply Hgo. reflexivity.
Qed.

Lemma after_app {A} (t1 t2 : list Call) (r : option (A * State * list Call)) :
  after t1 (after t2 r) = after (t1 ++ t2) r.
Proof.
  destruct r as [[[a s] t] |]; [| reflexivity].
  cbn [after]. rewrite app_assoc. reflexivity.
Qed.

Lemma creation_announced_code
      (env : Env) (user : User) (cs : CREATESTRUCTA) (unicode : bool) (s : State) :
  bind (if HOOK_IsHooked_CBT user then
          call (HOOK_CallHooks unicode (hwndSelf (st_win s)) cs
                  (if (cs_style cs .& (WS.CHILD .| WS.MAXIMIZE)) =? WS.CHILD
                   then WS.HWND_BOTTOM else WS.HWND_TOP)) ;;;
          ret (HOOK_CallHooks_reply user)
        else ret 0)
       (fun lret =>
          if negb (lret =? 0) then CreateWindow_failed cs
          else
            sized <- CreateWindow_fix_size env user cs ;;
            if negb (fst sized) then ret (false, snd sized)
            else
              ok <- CreateWindow_messages env user (snd sized) unicode ;;
              ret (ok, snd sized)) s =
  creation_announced env user cs unicode s.
Proof.
  assert (Hgo : bind (CreateWindow_fix_size env user cs)
                  (fun sized =>
                     if negb (fst sized) then ret (false, snd sized)
                     else
                       ok <- CreateWindow_messages env user (snd sized) unicode ;;
                       ret (ok, snd sized)) s =
                match CreateWindow_fix_size env user cs s with
                | None => None
                | Some ((false, cs1), s1, t1) => Some ((false, cs1), s1, t1)
                | Some ((true, cs1), s1, t1) =>
                    after t1
                      match CreateWindow_messages env user cs1 unicode s1 with
                      | None => None
                      | Some (ok, s2, t2) => Some ((ok, cs1), s2, t2)
                      end
                end).
  { unfold bind at 1.
    destruct (CreateWindow_fix_size env user cs s) as [[[[b cs1] s1] t1] |];
      [| reflexivity].
    destruct b; cbn [fst snd negb].
    - unfold bind.
      destruct (CreateWindow_messages env user cs1 unicode s1)
        as [[[ok s2] t2] |]; [| reflexivity].
      cbn. rewrite app_nil_r. reflexivity.
    - cbn. rewrite app_nil_r. reflexivity. }
  unfold creation_announced.
  destruct (HOOK_IsHooked_CBT user); cbn [andb].
  - xrun. destruct (HOOK_CallHooks_reply user =? 0); cbn [negb].
    + rewrite Hgo. reflexivity.
    + rewrite failed_exit_run. reflexivity.
  - xrun. cbn [Z.eqb negb]. rewrite Hgo. reflexivity.
Qed.

(** The course of [X11DRV_CreateWindow] for a window with a parent, when the
    parent and the owner can be looked up: the whole window is created in
    the state [creation_started], then the client window; a reply of 0 to
    either request leads to the [failed:] exit, and otherwise the two windows
    are recorded and the creation is announced. *)
Lemma CreateWindow_structure (env : Env) (user : User) (cs : CREATESTRUCTA)
      (unicode : bool) (s : State) (pw : Window) :
  parent (st_win s) <> 0 ->
  X11DRV_get_client_window env (parent (st_win s)) = Some pw ->
  (owner (st_win s) <> 0 ->
   exists ow, X11DRV_get_whole_window env (owner (st_win s)) = Some ow) ->
  let cs' := limit_size cs in
  let s0 := creation_started cs' s in
  let w := hd 0 (st_replies s) in
  exists d1 r1 t1 d2 t2,
    let s1 := with_data_replies (whole_window_created env s0 fresh_data) d1 r1 in
    let s2 := with_data (pop_reply s1) d2 in
    create_whole_window env s0 = Some (w, s1, t1) /\
    create_client_window s1 = Some (hd 0 r1, s2, t2) /\
    whole_window d2 = w /\ client_window d2 = hd 0 r1 /\
    X11DRV_CreateWindow env user cs unicode s =
      if w =? 0 then after t1 (failed_exit cs' s1)
      else if hd 0 r1 =? 0 then after t1 (after t2 (failed_exit cs' s2))
      else after (t1 ++ t2 ++
                  [XSync;
                   SetPropA (hwndSelf (st_win s)) whole_window_atom w;
                   SetPropA (hwndSelf (st_win s)) client_window_atom (hd 0 r1)])
                 (creation_announced env user cs' unicode s2).
Proof.
  intros Hpar Hpw Hown cs' s0 w.
  destruct (create_whole_window_run env s0 fresh_data pw eq_refl Hpw Hown)
    as (d1 & r1 & t1 & Ew & Hww & _ & Hsh).
  destruct (create_client_window_run
              (with_data_replies (whole_window_created env s0 fresh_data) d1 r1)
              d1 eq_refl) as (t2 & Ec).
  exists d1, r1, t1,
    (client_window_created
       (with_data_replies (whole_window_created env s0 fresh_data) d1 r1) d1),
    t2. cbv zeta.
  split; [exact Ew |]. split; [exact Ec |].
  split; [exact Hww |]. split; [reflexivity |].
  unfold X11DRV_CreateWindow. rewrite limit_size_code. fold cs'.
  xrun. apply Z.eqb_neq in Hpar.
  cbn [with_data st_win set_pDriverData parent]. rewrite Hpar.
  change (with_win (with_data s fresh_data)
            (set_rects (set_pDriverData (st_win s) (Some fresh_data))
               (SetRect (cs_x cs') (cs_y cs') (Int32.add (cs_x cs') (cs_cx cs'))
                  (Int32.add (cs_y cs') (cs_cy cs')))
               (SetRect (cs_x cs') (cs_y cs') (Int32.add (cs_x cs') (cs_cx cs'))
                  (Int32.add (cs_y cs') (cs_cy cs'))))) with s0.
  rewrite (bind_Some _ _ _ _ _ _ Ew).
  change (hd 0 (st_replies s0)) with w.
  destruct (w =? 0).
  - rewrite failed_exit_run. reflexivity.
  - rewrite (bind_Some _ _ _ _ _ _ Ec).
    cbn [with_data_replies st_replies].
    destruct (hd 0 r1 =? 0).
    + rewrite failed_exit_run. reflexivity.
    + xrun. rewrite creation_announced_code. rewrite !after_app.
      unfold client_window_created.
      cbn [with_data pop_reply with_data_replies st_win set_pDriverData
           pDriverData whole_window_created hwndSelf set_dwExStyle s0
           creation_started set_rects
           whole_window client_window set_client_window set_client_rect
           st_replies].
      rewrite Hww. rewrite <- !app_assoc. reflexivity.
Qed.

(** [create_whole_window] when the request fails: nothing but the whole
    rectangle is stored in the driver data. *)
Lemma create_whole_window_run_failed (env : Env) (s : State) (d : x11drv_win_data)
      (pw : Window) :
  pDriverData (st_win s) = Some d ->
  X11DRV_get_client_window env (parent (st_win s)) = Some pw ->
  hd 0 (st_replies s) = 0 ->
  exists t,
    create_whole_window env s = Some (0, whole_window_created env s d, t).
Proof.
  intros Hd Hpw Hw.
  destruct (get_window_attributes_run env no_attributes s) as (m & a & Ea).
  unfold create_whole_window. xrun.
  rewrite (bind_Some _ _ _ _ _ _ Ea). xrun.
  rewrite (bind_Some _ _ _ _ _ _ (next_reply_run _)). xrun.
  cbn [with_win st_replies pop_reply st_win st_hIcon with_data tl].
  rewrite Hw. cbn [Z.eqb]. xrun.
  unfold whole_window_created. rewrite Hw.
  eexists. reflexivity.
Qed.




(** C9: when the request for the whole window or the request for the client
    window is answered with 0, [X11DRV_CreateWindow] runs
    [X11DRV_DestroyWindow] on the state reached and returns [FALSE].  After
    a failed whole window there is no X window to destroy and the teardown
    frees the driver data; after a failed client window the teardown deletes
    the context entries, destroys the whole window that was created, then the
    icon window and the icon bitmaps if the hints created any, and frees the
    driver data.  The window has no driver data afterwards. *)
Theorem CreateWindow_failure (env : Env) (user : User) (cs : CREATESTRUCTA)
        (unicode : bool) (s : State) (pw : Window) :
  parent (st_win s) <> 0 ->
  X11DRV_get_client_window env (parent (st_win s)) = Some pw ->
  (owner (st_win s) <> 0 ->
   exists ow, X11DRV_get_whole_window env (owner (st_win s)) = Some ow) ->
  let s0 := creation_started (limit_size cs) s in
  (hd 0 (st_replies s) = 0 ->
   exists s1 t1 s3,
     create_whole_window env s0 = Some (0, s1, t1) /\
     X11DRV_DestroyWindow s1 = Some (true, s3, [HeapFree_data]) /\
     X11DRV_CreateWindow env user cs unicode s =
       Some ((false, limit_size cs), s3, t1 ++ [HeapFree_data]) /\
     pDriverData (st_win s3) = None) /\
  (forall w s1 t1,
     create_whole_window env s0 = Some (w, s1, t1) ->
     w <> 0 ->
     hd 0 (st_replies s1) = 0 ->
     exists d2 s2 t2 s3 t3,
       create_client_window s1 = Some (0, s2, t2) /\
       pDriverData (st_win s2) = Some d2 /\
       whole_window d2 = w /\ client_window d2 = 0 /\
       X11DRV_DestroyWindow s2 = Some (true, s3, t3) /\
       t3 = [XSync; XDeleteContext w; XDeleteContext 0; XDestroyWindow w] ++
            (if icon_window d2 =? 0 then []
             else [XDeleteContext (icon_window d2);
                   XDestroyWindow (icon_window d2);
                   RemovePropA (hwndSelf (st_win s)) icon_window_atom]) ++
            (if hWMIconBitmap d2 =? 0 then []
             else [DeleteObject (hWMIconBitmap d2)]) ++
            (if hWMIconMask d2 =? 0 then []
             else [DeleteObject (hWMIconMask d2)]) ++
            [HeapFree_data] /\
       X11DRV_CreateWindow env user cs unicode s =
         Some ((false, limit_size cs), s3, t1 ++ t2 ++ t3) /\
       pDriverData (st_win s3) = None).
Proof.
  intros Hpar Hpw Hown s0.
  destruct (CreateWindow_structure env user cs unicode s pw Hpar Hpw Hown)
    as (d1 & r1 & t1 & d2 & t2 & Ew & Ec & Hd2w & Hd2c & E).
  cbv zeta in *. fold s0 in Ew, Ec, E. split.
  - intros Hw.
    destruct (create_whole_window_run_failed env s0 fresh_data pw eq_refl Hpw Hw)
      as (t1' & Ew').
    assert (Es1 : with_data_replies (whole_window_created env s0 fresh_data) d1 r1 =
                  whole_window_created env s0 fresh_data) by congruence.
    rewrite Es1 in Ew, E. clear Es1 Ew'.
    assert (Ed : X11DRV_DestroyWindow (whole_window_created env s0 fresh_data) =
                 Some (true,
                       with_win (whole_window_created env s0 fresh_data)
                         (set_pDriverData
                            (st_win (whole_window_created env s0 fresh_data)) None),
                       [HeapFree_data])).
    { rewrite (DestroyWindow_run (whole_window_created env s0 fresh_data) _ eq_refl).
      cbn [whole_window set_whole hWMIconBitmap hWMIconMask fresh_data].
      change (hd 0 (st_replies s0)) with (hd 0 (st_replies s)).
      rewrite Hw. reflexivity. }
    rewrite Hw in E, Ew. cbn [Z.eqb] in E.
    unfold failed_exit in E. rewrite Ed in E. cbn [after] in E.
    do 3 eexists.
    split; [exact Ew |]. split; [exact Ed |].
    split; [exact E | reflexivity].
  - intros w s1 t1' Ew' Hw Hc.
    rewrite Ew in Ew'. injection Ew' as <- <- <-.
    cbn [with_data_replies st_replies] in Hc.
    rewrite Hc in Ec, E, Hd2c.
    apply Z.eqb_neq in Hw. rewrite Hw in E. cbn [Z.eqb] in E.
    unfold failed_exit in E.
    match type of E with
    | context [X11DRV_DestroyWindow ?st] =>
        rewrite (DestroyWindow_run st d2 eq_refl) in E;
        pose proof (DestroyWindow_run st d2 eq_refl) as Ed
    end.
    rewrite Hd2w, Hd2c, Hw in E, Ed. cbn [after] in E.
    exists d2. do 4 eexists.
    split; [exact Ec |]. split; [reflexivity |].
    split; [exact Hd2w |]. split; [exact Hd2c |].
    split; [exact Ed |].
    split; [rewrite <- !app_assoc; reflexivity |].
    split; [exact E | reflexivity].
Qed.

Lemma CreateWindow_failure_witness :
  (exists s3 t1,
     X11DRV_CreateWindow managed_env plain_user
       (mkCS 10 10 200 100 (WS.POPUP .| WS.DLGFRAME)) false
       dialog_window_no_whole =
       Some ((false, mkCS 10 10 200 100 (WS.POPUP .| WS.DLGFRAME)),
             s3, t1 ++ [HeapFree_data]) /\
     pDriverData (st_win s3) = None) /\
  (exists s3 t1 t2,
     X11DRV_CreateWindow managed_env plain_user
       (mkCS 10 10 200 100 (WS.POPUP .| WS.DLGFRAME)) false
       dialog_window_no_client =
       Some ((false, mkCS 10 10 200 100 (WS.POPUP .| WS.DLGFRAME)),
             s3,
             t1 ++ t2 ++
             [XSync; XDeleteContext 601; XDeleteContext 0; XDestroyWindow 601;
              HeapFree_data]) /\
     pDriverData (st_win s3) = None).
Proof.
  assert (Hpar : parent (st_win dialog_window) <> 0) by discriminate.
  assert (Hown : owner (st_win dialog_window) <> 0 ->
                 exists ow, X11DRV_get_whole_window managed_env
                              (owner (st_win dialog_window)) = Some ow).
  { intros F. contradiction F. reflexivity. }
  split.
  - destruct (proj1 (CreateWindow_failure managed_env plain_user
                       (mkCS 10 10 200 100 (WS.POPUP .| WS.DLGFRAME)) false
                       dialog_window_no_whole 1 Hpar eq_refl Hown) eq_refl)
      as (s1 & t1 & s3 & _ & _ & E & Hn).
    exists s3, t1. split; [exact E | exact Hn].
  - destruct (proj2 (CreateWindow_failure managed_env plain_user
                       (mkCS 10 10 200 100 (WS.POPUP .| WS.DLGFRAME)) false
                       dialog_window_no_client 1 Hpar eq_refl Hown)
                601 _ _ eq_refl ltac:(discriminate) eq_refl)
      as (d2 & s2 & t2 & s3 & t3 & Ec & Hd2 & _ & _ & _ & Ht3 & E & Hn).
    vm_compute in Ec. injection Ec as <- <-.
    vm_compute in Hd2. injection Hd2 as <-.
    cbn [icon_window hWMIconBitmap hWMIconMask Z.eqb app hwndSelf] in Ht3.
    rewrite Ht3 in E.
    eexists s3, _, _. split; [exact E | exact Hn].
Defined.

Lemma limit_size_idempotent cs : limit_size (limit_size cs) = limit_size cs.
Proof.
  unfold limit_size. cbn [cs_x cs_y cs_cx cs_cy cs_style].
  f_equal; lia.
Qed.

(** The run of [create_desktop]. *)
Lemma create_desktop_run (env : Env) (user : User) (cs : CREATESTRUCTA)
      (s : State) (d : x11drv_win_data) :
  pDriverData (st_win s) = Some d ->
  let hwnd := hwndSelf (st_win s) in
  let root := root_window env in
  let d' := set_client_window
              (set_client_rect (set_whole d root (rectWindow (st_win s)))
                               (rectWindow (st_win s))) root in
  create_desktop env user cs s =
    Some (tt, with_data s d',
          [XUniqueContext;
           XInternAtom WM_PROTOCOLS; XInternAtom WM_DELETE_WINDOW;
           XInternAtom DndProtocol; XInternAtom DndSelection;
           XInternAtom WM_CHANGE_STATE; XInternAtom XA_MWM_HINTS;
           XInternAtom KWM_DOCKWINDOW;
           XInternAtom KDE_NET_WM_SYSTEM_TRAY_WINDOW_FOR;
           GlobalAddAtomA whole_window_atom; GlobalAddAtomA client_window_atom;
           GlobalAddAtomA icon_window_atom;
           SetPropA hwnd whole_window_atom root;
           SetPropA hwnd client_window_atom root;
           SetPropA_visual_id hwnd (XVisualIDFromVisual user);
           SendMessage true hwnd (WM_NCCREATE cs)] ++
          (if root =? DefaultRootWindow env then []
           else [X11DRV_create_desktop_thread])).
Proof.
  intros Hd hwnd root d'. unfold create_desktop. xrun.
  cbn [after app]. fold root. fold hwnd.
  destruct (root =? DefaultRootWindow env); reflexivity.
Qed.

(** C10: [X11DRV_CreateWindow] limits a requested width or height above
    65535 to 65535 and leaves smaller ones as they are, and goes on as for
    the limited request.  The desktop window takes its rectangles from the
    limited parameters.  For a window with a parent the X windows are created
    from the limited parameters; the function takes the [failed:] exit when
    the X server answers one of the two requests with 0, and otherwise
    records both windows and goes on to the hook and the messages. *)
Theorem CreateWindow_size_limit (env : Env) (user : User) (cs : CREATESTRUCTA)
        (unicode : bool) (s : State) :
  X11DRV_CreateWindow env user cs unicode s =
    X11DRV_CreateWindow env user (limit_size cs) unicode s /\
  (65535 < cs_cx cs -> cs_cx (limit_size cs) = 65535) /\
  (65535 < cs_cy cs -> cs_cy (limit_size cs) = 65535) /\
  (cs_cx cs <= 65535 -> cs_cy cs <= 65535 -> limit_size cs = cs) /\
  (parent (st_win s) = 0 ->
   exists s' calls d,
     create_desktop env user (limit_size cs) (creation_started (limit_size cs) s) =
       Some (tt, s', calls) /\
     X11DRV_CreateWindow env user cs unicode s =
       Some ((true, limit_size cs), s', calls) /\
     rectWindow (st_win s') = creation_rect (limit_size cs) /\
     pDriverData (st_win s') = Some d /\
     whole_rect d = creation_rect (limit_size cs) /\
     client_rect d = creation_rect (limit_size cs)) /\
  (forall pw,
     parent (st_win s) <> 0 ->
     X11DRV_get_client_window env (parent (st_win s)) = Some pw ->
     (owner (st_win s) <> 0 ->
      exists ow, X11DRV_get_whole_window env (owner (st_win s)) = Some ow) ->
     exists w s1 t1,
       create_whole_window env (creation_started (limit_size cs) s) =
         Some (w, s1, t1) /\
       (w = 0 ->
        exists s' t3,
          X11DRV_CreateWindow env user cs unicode s =
            Some ((false, limit_size cs), s', t1 ++ t3)) /\
       (w <> 0 ->
        exists c s2 t2,
          create_client_window s1 = Some (c, s2, t2) /\
          (c = 0 ->
           exists s' t3,
             X11DRV_CreateWindow env user cs unicode s =
               Some ((false, limit_size cs), s', t1 ++ t2 ++ t3)) /\
          (c <> 0 ->
           exists out s' rest,
             X11DRV_CreateWindow env user cs unicode s =
               Some (out, s',
                     t1 ++ t2 ++
                     [XSync;
                      SetPropA (hwndSelf (st_win s)) whole_window_atom w;
                      SetPropA (hwndSelf (st_win s)) client_window_atom c] ++
                     rest)))).
Proof.
  split; [| split; [| split; [| split; [| split]]]].
  - unfold X11DRV_CreateWindow. rewrite !limit_size_code, limit_size_idempotent.
    reflexivity.
  - intros H. unfold limit_size. cbn [cs_cx]. lia.
  - intros H. unfold limit_size. cbn [cs_cy]. lia.
  - intros Hx Hy. unfold limit_size. destruct cs as [x y cx cy st].
    cbn [cs_x cs_y cs_cx cs_cy cs_style] in *. f_equal; lia.
  - intros Hpar.
    pose proof (create_desktop_run env user (limit_size cs)
                  (creation_started (limit_size cs) s) fresh_data eq_refl) as Ed.
    cbv zeta in Ed.
    do 3 eexists. split; [exact Ed |].
    split; [| repeat split].
    unfold X11DRV_CreateWindow. rewrite limit_size_code. xrun.
    cbn [with_data st_win set_pDriverData parent]. rewrite Hpar. cbn [Z.eqb].
    change (with_win (with_data s (mkData 0 0 0 (mkRECT 0 0 0 0) (mkRECT 0 0 0 0) 0 0))
              (set_rects
                 (set_pDriverData (st_win s)
                    (Some (mkData 0 0 0 (mkRECT 0 0 0 0) (mkRECT 0 0 0 0) 0 0)))
                 (SetRect (cs_x (limit_size cs)) (cs_y (limit_size cs))
                    (Int32.add (cs_x (limit_size cs)) (cs_cx (limit_size cs)))
                    (Int32.add (cs_y (limit_size cs)) (cs_cy (limit_size cs))))
                 (SetRect (cs_x (limit_size cs)) (cs_y (limit_size cs))
                    (Int32.add (cs_x (limit_size cs)) (cs_cx (limit_size cs)))
                    (Int32.add (cs_y (limit_size cs)) (cs_cy (limit_size cs))))))
      with (creation_started (limit_size cs) s).
    rewrite (bind_Some _ _ _ _ _ _ Ed). xrun. unfold ret. cbn [after].
    rewrite app_nil_r. reflexivity.
  - intros pw Hpar Hpw Hown.
    destruct (CreateWindow_structure env user cs unicode s pw Hpar Hpw Hown)
      as (d1 & r1 & t1 & d2 & t2 & Ew & Ec & Hd2w & Hd2c & E).
    cbv zeta in *.
    do 3 eexists. split; [exact Ew |]. split.
    + intros Hw. rewrite Hw in E. cbn [Z.eqb] in E.
      match type of E with
      | context [failed_exit ?c ?st] =>
          destruct (failed_exit_total c st) as (s3 & t3 & _ & Ef & _)
      end.
      rewrite Ef in E. cbn [after] in E. eexists _, _. exact E.
    + intros Hw. apply Z.eqb_neq in Hw. rewrite Hw in E.
      do 3 eexists. split; [exact Ec |]. split.
      * intros Hc. cbn [with_data_replies st_replies] in Hc.
        rewrite Hc in E. cbn [Z.eqb] in E.
        match type of E with
        | context [failed_exit ?c ?st] =>
            destruct (failed_exit_total c st) as (s3 & t3 & _ & Ef & _)
        end.
        rewrite Ef in E. cbn [after] in E. eexists _, _. exact E.
      * intros Hc. cbn [with_data_replies st_replies] in Hc.
        apply Z.eqb_neq in Hc. rewrite Hc in E.
        match type of E with
        | context [creation_announced env user ?c unicode ?st] =>
            destruct (creation_announced_run env user c unicode st d2 eq_refl)
              as (b & cs1 & s' & t & Ea & _)
        end.
        rewrite Ea in E. cbn [after] in E.
        rewrite <- !app_assoc in E.
        eexists _, _, _. exact E.
Qed.

Lemma CreateWindow_size_limit_witness :
  exists out s' t1 t2 rest,
    X11DRV_CreateWindow managed_env plain_user
      (mkCS 10 10 70000 100 (WS.POPUP .| WS.DLGFRAME)) false dialog_window =
      Some (out, s',
            t1 ++ t2 ++
            [XSync; SetPropA 203 whole_window_atom 601;
             SetPropA 203 client_window_atom 602] ++ rest) /\
    create_whole_window managed_env
      (creation_started (mkCS 10 10 65535 100 (WS.POPUP .| WS.DLGFRAME))
         dialog_window) =
      Some (601,
            mkState
              (mkWND 203 1 0 (WS.POPUP .| WS.DLGFRAME) 0 0
                 (mkRECT 10 10 65545 110) (mkRECT 10 10 65545 110)
                 (Some (mkData 601 0 0 (mkRECT 10 10 65545 110)
                          (mkRECT 0 0 0 0) 0 0)))
              0 [602],
            t1).
Proof.
  destruct (proj2 (proj2 (proj2 (proj2 (proj2
              (CreateWindow_size_limit managed_env plain_user
                 (mkCS 10 10 70000 100 (WS.POPUP .| WS.DLGFRAME)) false
                 dialog_window)))))
              1 ltac:(discriminate) eq_refl
              ltac:(intros F; contradiction F; reflexivity))
    as (w & s1 & t1 & Ew & _ & Hgo).
  pose proof Ew as Ew'. vm_compute in Ew'.
  assert (Hw : w = 601) by (injection Ew'; intros; congruence).
  subst w.
  destruct (Hgo ltac:(discriminate)) as (c & s2 & t2 & Ec & _ & Hgo2).
  assert (Hs1 : s1 = mkState
              (mkWND 203 1 0 (WS.POPUP .| WS.DLGFRAME) 0 0
                 (mkRECT 10 10 65545 110) (mkRECT 10 10 65545 110)
                 (Some (mkData 601 0 0 (mkRECT 10 10 65545 110)
                          (mkRECT 0 0 0 0) 0 0)))
              0 [602]).
  { injection Ew'; intros; subst; reflexivity. }
  subst s1.
  pose proof Ec as Ec'. vm_compute in Ec'.
  assert (Hc : c = 602) by (injection Ec'; intros; congruence).
  subst c.
  destruct (Hgo2 ltac:(discriminate)) as (out & s' & rest & E).
  exists out, s', t1, t2, rest. split; [exact E | exact Ew].
Defined.
(** * Further properties *)

(** ** The managed flag *)

Lemma has_bits_land_lnot_same a b : has_bits (a .& Z.lnot b) b = false.
Proof.
  unfold has_bits. rewrite <- Z.land_assoc, (Z.land_comm (Z.lnot b) b).
  rewrite Z.land_lnot_diag, Z.land_0_r. reflexivity.
Qed.

Lemma is_window_managed_synced (env : Env) (win : WND) :
  is_window_managed env (set_dwExStyle win (synced_exStyle env win)) =
  is_window_managed env win.
Proof.
  unfold is_window_managed, synced_exStyle.
  cbn [dwExStyle dwStyle set_dwExStyle].
  destruct (is_window_top_level env win && _).
  - rewrite !has_bits_lor_other by reflexivity. reflexivity.
  - rewrite !has_bits_land_other by reflexivity. reflexivity.
Qed.

(** X1: [get_window_attributes] stores an extended style whose
    [WS_EX_MANAGED] bit says whether the window is top-level and classified
    as managed, and whose other bits are as before; override-redirect is the
    negation of that bit; and the bit does not influence the classification,
    so a second evaluation stores the same style. *)
Theorem get_window_attributes_managed_flag
        (env : Env) (attr : XSetWindowAttributes) (s : State) :
  exists mask a e' calls,
    get_window_attributes env attr s =
      Some ((mask, a), with_win s (set_dwExStyle (st_win s) e'), calls) /\
    has_bits e' WS.EX_MANAGED =
      is_window_top_level env (st_win s) && is_window_managed env (st_win s) /\
    e' .& Z.lnot WS.EX_MANAGED = dwExStyle (st_win s) .& Z.lnot WS.EX_MANAGED /\
    override_redirect a = negb (has_bits e' WS.EX_MANAGED) /\
    synced_exStyle env (set_dwExStyle (st_win s) e') = e'.
Proof.
  unfold get_window_attributes. xrun.
  destruct (is_window_top_level env (st_win s) && is_window_managed env (st_win s))
    eqn:Hm.
  - do 4 eexists. split; [reflexivity |].
    split; [apply has_bits_lor_same; discriminate |].
    split.
    { rewrite Z.land_lor_distr_l.
      change (WS.EX_MANAGED .& Z.lnot WS.EX_MANAGED) with 0. apply Z.lor_0_r. }
    split; [cbn [override_redirect]; rewrite has_bits_lor_same by discriminate;
            reflexivity |].
    unfold synced_exStyle.
    change (is_window_top_level env (set_dwExStyle (st_win s)
              (dwExStyle (st_win s) .| WS.EX_MANAGED)))
      with (is_window_top_level env (st_win s)).
    assert (E : is_window_managed env
                  (set_dwExStyle (st_win s) (dwExStyle (st_win s) .| WS.EX_MANAGED))
                = is_window_managed env (st_win s)).
    { pose proof (is_window_managed_synced env (st_win s)) as H.
      unfold synced_exStyle in H. rewrite Hm in H. exact H. }
    rewrite E, Hm. cbn [dwExStyle set_dwExStyle].
    rewrite <- Z.lor_assoc, Z.lor_diag. reflexivity.
  - do 4 eexists. split; [reflexivity |].
    split; [apply has_bits_land_lnot_same |].
    split; [rewrite <- Z.land_assoc, Z.land_diag; reflexivity |].
    split; [cbn [override_redirect]; rewrite has_bits_land_lnot_same; reflexivity |].
    unfold synced_exStyle.
    change (is_window_top_level env (set_dwExStyle (st_win s)
              (dwExStyle (st_win s) .& Z.lnot WS.EX_MANAGED)))
      with (is_window_top_level env (st_win s)).
    assert (E : is_window_managed env
                  (set_dwExStyle (st_win s)
                     (dwExStyle (st_win s) .& Z.lnot WS.EX_MANAGED))
                = is_window_managed env (st_win s)).
    { pose proof (is_window_managed_synced env (st_win s)) as H.
      unfold synced_exStyle in H. rewrite Hm in H. exact H. }
    rewrite E, Hm. cbn [dwExStyle set_dwExStyle].
    rewrite <- Z.land_assoc, Z.land_diag. reflexivity.
Qed.

(** X2: [sync_window_style] changes the attributes of the whole window in
    one request and frees the cursor that [get_window_attributes] returned,
    which is non-null only for a top-level window; of the window it changes
    the extended style only. *)
Theorem sync_window_style_frees_cursor
        (env : Env) (s : State) (d : x11drv_win_data) :
  pDriverData (st_win s) = Some d ->
  exists mask a,
    sync_window_style env s =
      Some (tt,
            with_win s (set_dwExStyle (st_win s) (synced_exStyle env (st_win s))),
            XChangeWindowAttributes (whole_window d) mask a ::
            (if cursor a =? 0 then [] else [XFreeCursor (cursor a)])) /\
    cursor a = (if is_window_top_level env (st_win s)
                then X11DRV_GetCursor env else 0).
Proof.
  intros Hd. unfold sync_window_style, get_window_attributes, synced_exStyle. xrun.
  destruct (is_window_top_level env (st_win s) && is_window_managed env (st_win s));
    xrun; cbn [fst snd cursor with_win st_win set_dwExStyle pDriverData];
    change (is_window_top_level env (set_dwExStyle (st_win s) _))
      with (is_window_top_level env (st_win s));
    set (c := if is_window_top_level env (st_win s)
              then X11DRV_GetCursor env else 0);
    eexists _, (mkAttr _ _ _ c _ _ _ _);
    (split; [unfold when, call, ret; cbn [cursor];
             destruct (c =? 0); reflexivity
            | reflexivity]).
Qed.

Lemma sync_window_style_frees_cursor_witness :
  exists mask a,
    sync_window_style managed_env third_sibling =
      Some (tt,
            with_win third_sibling
              (set_dwExStyle (st_win third_sibling)
                 (synced_exStyle managed_env (st_win third_sibling))),
            [XChangeWindowAttributes 601 mask a; XFreeCursor 9]) /\
    cursor a = 9.
Proof.
  destruct (sync_window_style_frees_cursor managed_env third_sibling
              third_sibling_data eq_refl) as (mask & a & E & Hc).
  exists mask, a. change (cursor a = 9) in Hc. rewrite Hc in E.
  split; [exact E | exact Hc].
Defined.

(** ** Degenerate rectangles *)

Lemma add_one_in_range a :
  Int32.in_range a -> a < 2147483647 -> Int32.add a 1 = a + 1.
Proof.
  unfold Int32.in_range, Int32.add, Int32.wrap, Int32.modulus, Int32.half_modulus.
  intros H1 H2. rewrite Z.mod_small by lia. lia.
Qed.

(** X3: [X11DRV_window_to_X_rect] keeps emptiness: an empty rectangle is
    returned as it is, and a non-empty one gives a non-empty one, the far
    edge being moved to one past the near edge when the margins leave no
    room; this needs the near edges after the margins to be below the
    largest integer. *)
Theorem window_to_X_rect_keeps_emptiness (env : Env) (win : WND) (rect : RECT) :
  left (margins_removed env win rect) < 2147483647 ->
  top (margins_removed env win rect) < 2147483647 ->
  (IsRectEmpty rect = true -> X11DRV_window_to_X_rect env win rect = rect) /\
  IsRectEmpty (X11DRV_window_to_X_rect env win rect) = IsRectEmpty rect.
Proof.
  intros Hl Ht.
  assert (E : IsRectEmpty rect = true -> X11DRV_window_to_X_rect env win rect = rect).
  { intros He. unfold X11DRV_window_to_X_rect. rewrite He.
    destruct (has_bits (dwExStyle win) WS.EX_MANAGED); reflexivity. }
  split; [exact E |].
  destruct (IsRectEmpty rect) eqn:He.
  - rewrite (E eq_refl). exact He.
  - unfold X11DRV_window_to_X_rect. rewrite He.
    destruct (has_bits (dwExStyle win) WS.EX_MANAGED); cbn [negb]; [| exact He].
    unfold margins_removed in Hl, Ht. cbn [left top] in Hl, Ht.
    set (rc := AdjustWindowRectEx env (mkRECT 0 0 0 0)
                 (dwStyle win .& Z.lnot (WS.HSCROLL .| WS.VSCROLL)) false
                 (dwExStyle win)) in *.
    set (l := Int32.sub (left rect) (left rc)) in *.
    set (t := Int32.sub (top rect) (top rc)) in *.
    assert (Hlr : Int32.in_range l) by apply Int32Facts.wrap_range.
    assert (Htr : Int32.in_range t) by apply Int32Facts.wrap_range.
    unfold IsRectEmpty. cbn [left top right bottom].
    apply orb_false_iff. split.
    + destruct (Z.leb_spec (Int32.sub (right rect) (right rc)) l).
      * rewrite add_one_in_range by assumption. apply Z.leb_gt. lia.
      * apply Z.leb_gt. assumption.
    + destruct (Z.leb_spec (Int32.sub (bottom rect) (bottom rc)) t).
      * rewrite add_one_in_range by assumption. apply Z.leb_gt. lia.
      * apply Z.leb_gt. assumption.
Qed.

Lemma window_to_X_rect_keeps_emptiness_witness :
  X11DRV_window_to_X_rect managed_env managed_caption_window (mkRECT 10 10 15 20)
    = mkRECT 14 33 15 34 /\
  IsRectEmpty (mkRECT 14 33 15 34) = false.
Proof.
  split; [reflexivity |].
  exact (proj2 (window_to_X_rect_keeps_emptiness managed_env managed_caption_window
                  (mkRECT 10 10 15 20) eq_refl eq_refl)).
Defined.

(** ** The change set *)

Lemma get_window_changes_same (changes : XWindowChanges) (r : RECT) :
  get_window_changes changes r r = (0, changes).
Proof.
  unfold get_window_changes. rewrite !Z.eqb_refl. reflexivity.
Qed.

(** X4: for rectangles within the integer range, the change set of
    [get_window_changes] is empty exactly when the two rectangles are equal,
    and then the structure is left as it was; the mask never holds a bit
    other than [CWX], [CWY], [CWWidth] and [CWHeight]. *)
Theorem get_window_changes_empty_iff
        (changes : XWindowChanges) (old new : RECT) :
  rect_in_range old -> rect_in_range new ->
  (fst (get_window_changes changes old new) = 0 <-> old = new) /\
  (old = new -> snd (get_window_changes changes old new) = changes) /\
  fst (get_window_changes changes old new)
    .& Z.lnot (X11.CWX .| X11.CWY .| X11.CWWidth .| X11.CWHeight) = 0.
Proof.
  intros Ho Hn. split; [split |].
  - apply get_window_changes_zero; assumption.
  - intros ->. rewrite get_window_changes_same. reflexivity.
  - split.
    + intros ->. rewrite get_window_changes_same. reflexivity.
    + unfold get_window_changes.
      destruct (Int32.sub (right old) (left old) =? Int32.sub (right new) (left new));
      destruct (Int32.sub (bottom old) (top old) =? Int32.sub (bottom new) (top new));
      destruct (left old =? left new); destruct (top old =? top new); reflexivity.
Qed.

Lemma get_window_changes_empty_iff_witness :
  fst (get_window_changes no_changes (mkRECT 0 0 10 10) (mkRECT 5 0 15 10)) <> 0.
Proof.
  intros H.
  apply (proj1 (proj1 (get_window_changes_empty_iff no_changes
                         (mkRECT 0 0 10 10) (mkRECT 5 0 15 10)
                         ltac:(unfold rect_in_range, Int32.in_range,
                                 Int32.half_modulus; simpl; lia)
                         ltac:(unfold rect_in_range, Int32.in_range,
                                 Int32.half_modulus; simpl; lia)))) in H.
  discriminate H.
Defined.

(** X5: when the new rectangle is not empty and its width and height fit
    in an integer, every size that [get_window_changes] pushes is the exact
    width or height of the new rectangle, hence at least 1. *)
Theorem get_window_changes_pushed_sizes
        (changes : XWindowChanges) (old new : RECT) :
  rect_in_range new ->
  IsRectEmpty new = false ->
  right new - left new < 2147483648 ->
  bottom new - top new < 2147483648 ->
  let mc := get_window_changes changes old new in
  (has_bits (fst mc) X11.CWWidth = true ->
   ch_width (snd mc) = right new - left new /\ 1 <= ch_width (snd mc)) /\
  (has_bits (fst mc) X11.CWHeight = true ->
   ch_height (snd mc) = bottom new - top new /\ 1 <= ch_height (snd mc)).
Proof.
  intros (Hl & Ht & Hr & Hb) He Hw Hh.
  unfold IsRectEmpty in He. apply orb_false_iff in He. destruct He as [He1 He2].
  apply Z.leb_gt in He1. apply Z.leb_gt in He2.
  assert (Ew : Int32.sub (right new) (left new) = right new - left new).
  { unfold Int32.sub, Int32.wrap, Int32.modulus, Int32.half_modulus.
    rewrite Z.mod_small by lia. lia. }
  assert (Eh : Int32.sub (bottom new) (top new) = bottom new - top new).
  { unfold Int32.sub, Int32.wrap, Int32.modulus, Int32.half_modulus.
    rewrite Z.mod_small by lia. lia. }
  unfold get_window_changes. rewrite Ew, Eh.
  destruct (Int32.sub (right old) (left old) =? right new - left new);
  destruct (Int32.sub (bottom old) (top old) =? bottom new - top new);
  destruct (left old =? left new); destruct (top old =? top new);
  cbn [negb fst snd ch_width ch_height]; split; intros H; try discriminate H;
  match goal with
  | |- (if ?c =? 0 then _ else _) = _ /\ _ =>
      destruct (Z.eqb_spec c 0); split; lia
  end.
Qed.

Lemma get_window_changes_pushed_sizes_witness :
  ch_width (snd (get_window_changes no_changes (mkRECT 0 0 10 10) (mkRECT 0 0 20 10)))
    = 20.
Proof.
  refine (proj1 (proj1 (get_window_changes_pushed_sizes no_changes
                          (mkRECT 0 0 10 10) (mkRECT 0 0 20 10) _ eq_refl _ _)
                   eq_refl)).
  - unfold rect_in_range, Int32.in_range, Int32.half_modulus. simpl. lia.
  - simpl. lia.
  - simpl. lia.
Defined.

(** ** Synchronising twice *)

Lemma set_whole_rect_same d : set_whole_rect d (whole_rect d) = d.
Proof. destruct d; reflexivity. Qed.

Lemma set_client_rect_same d : set_client_rect d (client_rect d) = d.
Proof. destruct d; reflexivity. Qed.

(** X6: once [X11DRV_sync_whole_window_position] has run, running it again
    (without a z-order request) finds nothing to change: it returns an empty
    mask, makes no call and leaves the state as it is. *)
Theorem sync_whole_window_position_twice
        (env : Env) (s : State) (d : x11drv_win_data) :
  pDriverData (st_win s) = Some d ->
  exists mask calls s',
    X11DRV_sync_whole_window_position env 0 s = Some (mask, s', calls) /\
    X11DRV_sync_whole_window_position env 0 s' = Some (0, s', []).
Proof.
  intros Hd.
  destruct (sync_whole_run env s d Hd) as (h & _ & E). cbv zeta in E.
  do 3 eexists. split; [exact E |].
  destruct (sync_whole_run env _ _ (with_data_data s
              (set_whole_rect d
                 (X11DRV_window_to_X_rect env (st_win s) (rectWindow (st_win s))))))
    as (h' & _ & E').
  cbv zeta in E'. rewrite E'.
  change (X11DRV_window_to_X_rect env
            (st_win (with_data s
               (set_whole_rect d
                  (X11DRV_window_to_X_rect env (st_win s) (rectWindow (st_win s))))))
            (rectWindow (st_win (with_data s
               (set_whole_rect d
                  (X11DRV_window_to_X_rect env (st_win s) (rectWindow (st_win s))))))))
    with (X11DRV_window_to_X_rect env (st_win s) (rectWindow (st_win s))).
  change (whole_rect (set_whole_rect d
            (X11DRV_window_to_X_rect env (st_win s) (rectWindow (st_win s)))))
    with (X11DRV_window_to_X_rect env (st_win s) (rectWindow (st_win s))).
  rewrite get_window_changes_same. cbn [fst Z.eqb].
  reflexivity.
Qed.

Lemma sync_whole_window_position_twice_witness :
  exists mask calls s',
    X11DRV_sync_whole_window_position managed_env 0 third_sibling =
      Some (mask, s', calls) /\
    X11DRV_sync_whole_window_position managed_env 0 s' = Some (0, s', []).
Proof.
  exact (sync_whole_window_position_twice managed_env third_sibling
           third_sibling_data eq_refl).
Defined.

(** The run of [X11DRV_sync_whole_window_position] with a z-order request,
    when the loop over the predecessors ends at [p]. *)
Lemma sync_whole_run_zorder
      (env : Env) (zorder : Z) (s : State) (d : x11drv_win_data)
      (p : HWND) (sib : Window) :
  pDriverData (st_win s) = Some d ->
  zorder <> 0 ->
  skip_invisible env (length (siblings env))
    (GetWindow_prev (siblings env) (hwndSelf (st_win s))) = Some p ->
  (p <> 0 -> X11DRV_get_whole_window env p = Some sib) ->
  let rect' := X11DRV_window_to_X_rect env (st_win s) (rectWindow (st_win s)) in
  let mc := get_window_changes no_changes (whole_rect d) rect' in
  let mask := if p =? 0 then fst mc .| X11.CWStackMode
              else fst mc .| (X11.CWStackMode .| X11.CWSibling) in
  let changes :=
    mkChanges (ch_x (snd mc)) (ch_y (snd mc)) (ch_width (snd mc)) (ch_height (snd mc))
              (if p =? 0 then ch_sibling (snd mc) else sib)
              (if p =? 0 then X11.Above else X11.Below) in
  let s' := with_data s (set_whole_rect d rect') in
  exists h,
    set_size_hints s' = Some (tt, s', [XSetWMNormalHints (whole_window d) h]) /\
    has_bits mask X11.CWStackMode = true /\
    has_bits mask (X11.CWWidth .| X11.CWHeight) =
      has_bits (fst mc) (X11.CWWidth .| X11.CWHeight) /\
    X11DRV_sync_whole_window_position env zorder s =
      Some (mask, s',
            XSync ::
            (if is_window_top_level env (st_win s)
             then (if has_bits (fst mc) (X11.CWWidth .| X11.CWHeight)
                   then [XSetWMNormalHints (whole_window d) h] else []) ++
                  [XReconfigureWMWindow (whole_window d) mask changes]
             else [XConfigureWindow (whole_window d) mask changes])).
Proof.
  intros Hd Hz Hskip Hsib rect' mc mask changes s'.
  destruct (set_size_hints_run s' _ (with_data_data _ _)) as (h & Eh & _).
  exists h. split; [exact Eh |].
  assert (Hstack : has_bits mask X11.CWStackMode = true).
  { unfold mask. destruct (p =? 0).
    - apply has_bits_lor_same. discriminate.
    - rewrite (Z.lor_comm X11.CWStackMode), Z.lor_assoc.
      apply has_bits_lor_same. discriminate. }
  assert (Hsize : has_bits mask (X11.CWWidth .| X11.CWHeight) =
                  has_bits (fst mc) (X11.CWWidth .| X11.CWHeight)).
  { unfold mask. destruct (p =? 0); apply has_bits_lor_other; reflexivity. }
  split; [exact Hstack |]. split; [exact Hsize |].
  pose proof (has_bits_nonzero _ _ Hstack) as Hmask.
  unfold X11DRV_sync_whole_window_position. xrun.
  fold rect'. fold mc.
  apply Z.eqb_neq in Hz. rewrite Hz. cbn [negb]. xrun.
  assert (E : forall (B : Type) (k : Z * XWindowChanges -> X B) st,
             bind (if p =? 0
                   then ret (fst mc .| X11.CWStackMode,
                             mkChanges (ch_x (snd mc)) (ch_y (snd mc)) (ch_width (snd mc))
                               (ch_height (snd mc)) (ch_sibling (snd mc)) X11.Above)
                   else
                     sibling <- lift (X11DRV_get_whole_window env p) ;;
                     ret (fst mc .| (X11.CWStackMode .| X11.CWSibling),
                          mkChanges (ch_x (snd mc)) (ch_y (snd mc)) (ch_width (snd mc))
                            (ch_height (snd mc)) sibling X11.Below)) k st
             = k (mask, changes) st).
  { intros B k st. unfold mask, changes.
    destruct (Z.eqb_spec p 0) as [E0 | E0].
    - xrun. reflexivity.
    - xrun. erewrite bind_lift by (apply Hsib; exact E0). xrun. reflexivity. }
  rewrite E. cbn [fst snd]. xrun. fold s'. rewrite Hmask. cbn [negb]. xrun.
  destruct (is_window_top_level env (st_win s)).
  - xrun. rewrite Hsize.
    destruct (has_bits (fst mc) (X11.CWWidth .| X11.CWHeight)); cbn [when].
    + rewrite (bind_Some _ _ _ _ _ _ Eh). xrun. reflexivity.
    + xrun. reflexivity.
  - xrun. reflexivity.
Qed.

(** X7: whenever [X11DRV_sync_whole_window_position] changes the size of a
    top-level window, with or without a z-order request, it sets the size
    hints from the new whole rectangle after the flush and before it asks
    the window manager to reconfigure the window; when the size is unchanged
    it sets no hints.  A window that is not top-level is configured directly
    and gets no hints.  For a z-order request the window is in the sibling
    chain and the whole window of its nearest visible predecessor can be
    looked up. *)
Theorem sync_whole_window_position_hints_first
        (env : Env) (zorder : Z) (s : State) (d : x11drv_win_data)
        (before rest : list HWND) (sib : Window) :
  pDriverData (st_win s) = Some d ->
  (zorder <> 0 ->
   siblings env = rev before ++ hwndSelf (st_win s) :: rest /\
   NoDup (siblings env) /\ ~ In 0 (siblings env) /\
   (nearest_visible (GetWindowLongW_style env) before <> 0 ->
    X11DRV_get_whole_window env
      (nearest_visible (GetWindowLongW_style env) before) = Some sib)) ->
  let rect' := X11DRV_window_to_X_rect env (st_win s) (rectWindow (st_win s)) in
  let mc := get_window_changes no_changes (whole_rect d) rect' in
  let s' := with_data s (set_whole_rect d rect') in
  exists mask changes,
    (zorder = 0 -> mask = fst mc /\ changes = snd mc) /\
    (zorder <> 0 -> has_bits mask X11.CWStackMode = true) /\
    (is_window_top_level env (st_win s) = false ->
     mask <> 0 ->
     X11DRV_sync_whole_window_position env zorder s =
       Some (mask, s', [XSync; XConfigureWindow (whole_window d) mask changes])) /\
    (is_window_top_level env (st_win s) = true ->
     mask <> 0 ->
     has_bits (fst mc) (X11.CWWidth .| X11.CWHeight) = false ->
     X11DRV_sync_whole_window_position env zorder s =
       Some (mask, s', [XSync; XReconfigureWMWindow (whole_window d) mask changes])) /\
    (is_window_top_level env (st_win s) = true ->
     has_bits (fst mc) (X11.CWWidth .| X11.CWHeight) = true ->
     exists h,
       X11DRV_sync_whole_window_position env zorder s =
         Some (mask, s',
               [XSync; XSetWMNormalHints (whole_window d) h;
                XReconfigureWMWindow (whole_window d) mask changes]) /\
       sh_x h = left rect' /\ sh_y h = top rect' /\
       (HAS_DLGFRAME (dwStyle (st_win s)) (dwExStyle (st_win s)) = true ->
        min_width h = Int32.sub (right rect') (left rect') /\
        max_width h = Int32.sub (right rect') (left rect') /\
        min_height h = Int32.sub (bottom rect') (top rect') /\
        max_height h = Int32.sub (bottom rect') (top rect'))).
Proof.
  intros Hd Hchain rect' mc s'.
  assert (Hhints : forall h,
            set_size_hints s' = Some (tt, s', [XSetWMNormalHints (whole_window d) h]) ->
            sh_x h = left rect' /\ sh_y h = top rect' /\
            (HAS_DLGFRAME (dwStyle (st_win s)) (dwExStyle (st_win s)) = true ->
             min_width h = Int32.sub (right rect') (left rect') /\
             max_width h = Int32.sub (right rect') (left rect') /\
             min_height h = Int32.sub (bottom rect') (top rect') /\
             max_height h = Int32.sub (bottom rect') (top rect'))).
  { intros h Eh.
    destruct (set_size_hints_run s' _ (with_data_data _ _))
      as (h' & Eh' & _ & Hx & Hy & Hdlg & _).
    change (set_size_hints s' =
              Some (tt, s', [XSetWMNormalHints (whole_window d) h'])) in Eh'.
    rewrite Eh in Eh'. injection Eh' as <-.
    split; [exact Hx |]. split; [exact Hy |].
    intros Hf. destruct (Hdlg Hf) as (_ & H1 & H2 & H3 & H4).
    repeat split; assumption. }
  destruct (Z.eqb_spec zorder 0) as [Hz | Hz].
  - subst zorder.
    destruct (sync_whole_run env s d Hd) as (h & Eh & E). cbv zeta in E.
    fold rect' in E. fold mc in E. fold s' in E, Eh.
    exists (fst mc), (snd mc).
    split; [intros _; split; reflexivity |].
    split; [intros F; contradiction F; reflexivity |].
    split; [| split].
    + intros Htop Hm. apply Z.eqb_neq in Hm. rewrite Hm, Htop in E. exact E.
    + intros Htop Hm Hsz. apply Z.eqb_neq in Hm. rewrite Hm, Htop, Hsz in E.
      exact E.
    + intros Htop Hsz.
      assert (Hm : (fst mc =? 0) = false)
        by (apply (has_bits_nonzero _ _ Hsz)).
      rewrite Hm, Htop, Hsz in E.
      exists h. split; [exact E | exact (Hhints h Eh)].
  - destruct (Hchain Hz) as (Hs & Hnd & H0 & Hsib).
    assert (Hskip : skip_invisible env (length (siblings env))
                      (GetWindow_prev (siblings env) (hwndSelf (st_win s))) =
                    Some (nearest_visible (GetWindowLongW_style env) before)).
    { rewrite Hs at 2. rewrite GetWindow_prev_chain by (rewrite <- Hs; exact Hnd).
      apply (skip_invisible_chain env before (hwndSelf (st_win s)) rest);
        try assumption.
      rewrite Hs, length_app, length_rev. lia. }
    destruct (sync_whole_run_zorder env zorder s d _ sib Hd Hz Hskip Hsib)
      as (h & Eh & Hstack & Hsize & E).
    cbv zeta in E. fold rect' in E, Hstack, Hsize. fold mc in E, Hstack, Hsize.
    fold s' in E, Eh.
    eexists _, _.
    split; [intros F; contradiction |].
    split; [intros _; exact Hstack |].
    split; [| split].
    + intros Htop _. rewrite Htop in E. exact E.
    + intros Htop _ Hsz. rewrite Htop, Hsz in E. exact E.
    + intros Htop Hsz. rewrite Htop, Hsz in E.
      exists h. split; [exact E | exact (Hhints h Eh)].
Qed.

Lemma sync_whole_window_position_hints_first_witness :
  exists h,
    X11DRV_sync_whole_window_position managed_env 1 third_sibling =
      Some (X11.CWWidth .| X11.CWHeight .| (X11.CWStackMode .| X11.CWSibling),
            with_data third_sibling
              (set_whole_rect third_sibling_data (mkRECT 0 0 50 50)),
            [XSync; XSetWMNormalHints 601 h;
             XReconfigureWMWindow 601
               (X11.CWWidth .| X11.CWHeight .| (X11.CWStackMode .| X11.CWSibling))
               (mkChanges 0 0 50 50 501 X11.Below)]) /\
    sh_x h = 0 /\ sh_y h = 0.
Proof.
  assert (Hchain : 1 <> 0 ->
            siblings managed_env =
              rev [202; 201] ++ hwndSelf (st_win third_sibling) :: [] /\
            NoDup (siblings managed_env) /\ ~ In 0 (siblings managed_env) /\
            (nearest_visible (GetWindowLongW_style managed_env) [202; 201] <> 0 ->
             X11DRV_get_whole_window managed_env
               (nearest_visible (GetWindowLongW_style managed_env) [202; 201]) =
             Some 501)).
  { intros _. split; [reflexivity |]. split.
    - repeat constructor; cbn [In]; intuition discriminate.
    - split; [cbn [In siblings managed_env]; intuition discriminate |].
      intros _. reflexivity. }
  destruct (sync_whole_window_position_hints_first managed_env 1
              third_sibling third_sibling_data [202; 201] [] 501 eq_refl Hchain)
    as (mask & changes & _ & _ & _ & _ & Hh).
  destruct (Hh eq_refl eq_refl) as (h & E & Hx & Hy & _).
  exists h.
  pose proof E as E'. vm_compute in E'.
  assert (Hm : mask = 108) by (injection E'; intros; congruence).
  assert (Hc : changes = mkChanges 0 0 50 50 501 1)
    by (injection E'; intros; congruence).
  rewrite Hm, Hc in E.
  split; [exact E |]. split; [exact Hx | exact Hy].
Defined.

(** X8: once [X11DRV_sync_client_window_position] has run, running it again
    returns an empty mask, makes no call and leaves the state as it is. *)
Theorem sync_client_window_position_twice (s : State) (d : x11drv_win_data) :
  pDriverData (st_win s) = Some d ->
  exists mask calls s',
    X11DRV_sync_client_window_position s = Some (mask, s', calls) /\
    X11DRV_sync_client_window_position s' = Some (0, s', []).
Proof.
  intros Hd. pose proof (sync_client_run s d Hd) as E. cbv zeta in E.
  destruct (fst (get_window_changes no_changes (client_rect d)
                   (client_rect_relative (st_win s) d)) =? 0) eqn:Hm.
  - apply Z.eqb_eq in Hm. rewrite Hm in E.
    exists 0, [], s. split; exact E.
  - do 3 eexists. split; [exact E |].
    rewrite (sync_client_run _ _ (with_data_data s _)). cbv zeta.
    change (client_rect_relative
              (st_win (with_data s
                 (set_client_rect d (client_rect_relative (st_win s) d))))
              (set_client_rect d (client_rect_relative (st_win s) d)))
      with (client_rect_relative (st_win s) d).
    change (client_rect (set_client_rect d (client_rect_relative (st_win s) d)))
      with (client_rect_relative (st_win s) d).
    rewrite get_window_changes_same. reflexivity.
Qed.

Lemma sync_client_window_position_twice_witness :
  exists mask calls s',
    X11DRV_sync_client_window_position collapsing_window = Some (mask, s', calls) /\
    X11DRV_sync_client_window_position s' = Some (0, s', []).
Proof.
  exact (sync_client_window_position_twice collapsing_window
           (mkData 601 602 0 (mkRECT 0 0 100 100) (mkRECT 0 0 100 100) 0 0)
           eq_refl).
Defined.

(** X9: [X11DRV_sync_client_window_position] never maps or unmaps the client
    window of a minimized window, never does so when the old and the new
    client rectangle are both empty or both non-empty, and never does both
    in one run. *)
Theorem sync_client_window_position_mapping (s : State) (d : x11drv_win_data) :
  pDriverData (st_win s) = Some d ->
  exists mask s' calls,
    X11DRV_sync_client_window_position s = Some (mask, s', calls) /\
    (has_bits (dwStyle (st_win s)) WS.MINIMIZE = true \/
     IsRectEmpty (client_rect d) =
       IsRectEmpty (client_rect_relative (st_win s) d) ->
     forall w, ~ In (XMapWindow w) calls /\ ~ In (XUnmapWindow w) calls) /\
    (forall w w', ~ (In (XMapWindow w) calls /\ In (XUnmapWindow w') calls)).
Proof.
  intros Hd. pose proof (sync_client_run s d Hd) as E. cbv zeta in E.
  do 3 eexists. split; [exact E |].
  destruct (fst (get_window_changes no_changes (client_rect d)
                   (client_rect_relative (st_win s) d)) =? 0).
  - split; [intros _ w; split; intros F; exact F |].
    intros w w' [F _]. exact F.
  - destruct (has_bits (dwStyle (st_win s)) WS.MINIMIZE);
      destruct (IsRectEmpty (client_rect d));
      destruct (IsRectEmpty (client_rect_relative (st_win s) d));
      cbn [negb andb app In];
      (split; [intros [F | F]; try discriminate F; intros w; split;
               intros G; intuition discriminate
              | intros w w' [G1 G2]; intuition discriminate]).
Qed.

Lemma sync_client_window_position_mapping_witness :
  exists mask s' calls,
    X11DRV_sync_client_window_position
      (mkState (mkWND 203 1 0 (WS.VISIBLE .| WS.MINIMIZE) 0 0
                  (mkRECT 0 0 100 100) (mkRECT 0 0 100 0)
                  (Some (mkData 601 602 0 (mkRECT 0 0 100 100)
                           (mkRECT 0 0 100 100) 0 0))) 0 [])
      = Some (mask, s', calls) /\
    forall w, ~ In (XMapWindow w) calls /\ ~ In (XUnmapWindow w) calls.
Proof.
  destruct (sync_client_window_position_mapping
              (mkState (mkWND 203 1 0 (WS.VISIBLE .| WS.MINIMIZE) 0 0
                          (mkRECT 0 0 100 100) (mkRECT 0 0 100 0)
                          (Some (mkData 601 602 0 (mkRECT 0 0 100 100)
                                   (mkRECT 0 0 100 100) 0 0))) 0 [])
              _ eq_refl) as (mask & s' & calls & E & H & _).
  exists mask, s', calls. split; [exact E |]. apply H. left. reflexivity.
Defined.

(** ** The requests that create the X windows *)

Lemma add_neg_self a : Int32.add a (Int32.neg a) = 0.
Proof.
  unfold Int32.add, Int32.neg, Int32.wrap, Int32.modulus, Int32.half_modulus.
  Z.div_mod_to_equations. lia.
Qed.

(** X10: [create_client_window] asks for a window at the origin of the whole
    window with a width and a height of at least 1, whatever the whole
    rectangle is; the client rectangle it records has its origin at (0,0);
    the window is mapped exactly when the request succeeded and the window
    is neither minimized nor empty. *)
Theorem create_client_window_request (s : State) (d : x11drv_win_data) :
  pDriverData (st_win s) = Some d ->
  let reply := hd 0 (st_replies s) in
  let d' := client_window_created s d in
  exists width height mask attr,
    create_client_window s =
      Some (reply, with_data (pop_reply s) d',
            XCreateWindow (whole_window d) 0 0 width height mask attr ::
            (if negb (reply =? 0) &&
                (negb (has_bits (dwStyle (st_win s)) WS.MINIMIZE) &&
                 negb (IsRectEmpty (client_rect d')))
             then [XMapWindow reply] else [])) /\
    1 <= width /\ 1 <= height /\
    left (client_rect d') = 0 /\ top (client_rect d') = 0 /\
    client_window d' = reply /\ whole_window d' = whole_window d.
Proof.
  intros Hd reply d'.
  unfold create_client_window. xrun.
  rewrite (bind_Some _ _ _ _ _ _ (next_reply_run _)). xrun.
  xcall is_client_window_mapped_run. xrun.
  do 4 eexists. split.
  - unfold when, call, ret.
    cbn [with_data pop_reply st_win set_pDriverData dwStyle st_replies
         client_rect set_client_window set_client_rect].
    fold reply.
    change (client_rect d') with
      (OffsetRect (whole_rect d) (Int32.neg (left (whole_rect d)))
                  (Int32.neg (top (whole_rect d)))).
    destruct (negb (reply =? 0) && _); reflexivity.
  - split; [apply Z.le_max_r |]. split; [apply Z.le_max_r |].
    unfold d', client_window_created.
    cbn [client_rect set_client_window set_client_rect OffsetRect left top
         client_window whole_window].
    rewrite !add_neg_self. repeat split.
Qed.

Lemma create_client_window_request_witness :
  exists mask attr,
    create_client_window
      (mkState (mkWND 203 1 0 WS.VISIBLE 0 0 (mkRECT 5 5 5 (-4)) (mkRECT 5 5 5 (-4))
                  (Some (mkData 601 0 0 (mkRECT 5 5 5 (-4)) (mkRECT 0 0 0 0) 0 0)))
               0 [602]) =
      Some (602,
            mkState (mkWND 203 1 0 WS.VISIBLE 0 0 (mkRECT 5 5 5 (-4)) (mkRECT 5 5 5 (-4))
                       (Some (mkData 601 602 0 (mkRECT 5 5 5 (-4))
                                (mkRECT 0 0 0 (-9)) 0 0)))
                    0 [],
            [XCreateWindow 601 0 0 1 1 mask attr]).
Proof.
  destruct (create_client_window_request
              (mkState (mkWND 203 1 0 WS.VISIBLE 0 0 (mkRECT 5 5 5 (-4))
                          (mkRECT 5 5 5 (-4))
                          (Some (mkData 601 0 0 (mkRECT 5 5 5 (-4))
                                   (mkRECT 0 0 0 0) 0 0)))
                       0 [602]) _ eq_refl)
    as (width & height & mask & attr & E & _).
  exists mask, attr. rewrite E. vm_compute in E. injection E as <- <- <- <-.
  reflexivity.
Defined.

(** X11: when the request for the whole window fails, [create_whole_window]
    returns 0 having made no other request than to free the cursor; the
    size it asked for is not 0 in either dimension. *)
Theorem create_whole_window_failed_request
        (env : Env) (s : State) (d : x11drv_win_data) (pw : Window) :
  pDriverData (st_win s) = Some d ->
  X11DRV_get_client_window env (parent (st_win s)) = Some pw ->
  hd 0 (st_replies s) = 0 ->
  let rect := X11DRV_window_to_X_rect env (st_win s) (rectWindow (st_win s)) in
  exists width height mask attr,
    create_whole_window env s =
      Some (0, whole_window_created env s d,
            XCreateWindow pw (left rect) (top rect) width height mask attr ::
            (if cursor attr =? 0 then [] else [XFreeCursor (cursor attr)])) /\
    width <> 0 /\ height <> 0 /\
    pDriverData (st_win (whole_window_created env s d)) =
      Some (set_whole d 0 rect).
Proof.
  intros Hd Hpw Hw rect.
  assert (Hsz : (if Int32.sub (right rect) (left rect) =? 0 then 1
                 else Int32.sub (right rect) (left rect)) <> 0 /\
                (if Int32.sub (bottom rect) (top rect) =? 0 then 1
                 else Int32.sub (bottom rect) (top rect)) <> 0).
  { split.
    - destruct (Z.eqb_spec (Int32.sub (right rect) (left rect)) 0); lia.
    - destruct (Z.eqb_spec (Int32.sub (bottom rect) (top rect)) 0); lia. }
  destruct Hsz as [Hsw Hsh].
  unfold whole_window_created, synced_exStyle. rewrite Hw. fold rect.
  unfold create_whole_window, get_window_attributes. xrun.
  rewrite (bind_Some _ _ _ _ _ _ (next_reply_run _)). xrun.
  cbn [with_win st_replies pop_reply st_win st_hIcon with_data tl fst snd cursor].
  rewrite Hw. cbn [Z.eqb]. xrun. fold rect.
  set (c := if is_window_top_level env (st_win s)
            then X11DRV_GetCursor env else 0).
  destruct (is_window_top_level env (st_win s) && is_window_managed env (st_win s));
    change (is_window_top_level env (set_dwExStyle (st_win s) _))
      with (is_window_top_level env (st_win s)); fold c;
    eexists _, _, _, (mkAttr _ _ _ c _ _ _ _);
    (split; [unfold when, call, ret; cbn [cursor after app];
             destruct (c =? 0); reflexivity |]);
    (split; [exact Hsw |]); (split; [exact Hsh | reflexivity]).
Qed.

Lemma create_whole_window_failed_request_witness :
  exists width height mask attr,
    create_whole_window managed_env
      (creation_started (mkCS 10 10 0 100 0) dialog_window_no_whole) =
      Some (0,
            whole_window_created managed_env
              (creation_started (mkCS 10 10 0 100 0) dialog_window_no_whole)
              fresh_data,
            [XCreateWindow 1 10 10 width height mask attr; XFreeCursor 9]) /\
    width = 1 /\ height = 100.
Proof.
  destruct (create_whole_window_failed_request managed_env
              (creation_started (mkCS 10 10 0 100 0) dialog_window_no_whole)
              fresh_data 1 eq_refl eq_refl eq_refl)
    as (width & height & mask & attr & E & _).
  exists width, height, mask, attr. rewrite E.
  vm_compute in E. injection E as <- <- <- <-.
  repeat split.
Defined.

(** X12: for a window that is not top-level, [create_whole_window] sets no
    window-manager hints and obtains no cursor; after the window is created
    it makes one more request, to put the window at the bottom of the
    stacking order, exactly when the window is a child that is not
    maximized. *)
Theorem create_whole_window_child
        (env : Env) (s : State) (d : x11drv_win_data) (pw : Window) :
  pDriverData (st_win s) = Some d ->
  X11DRV_get_client_window env (parent (st_win s)) = Some pw ->
  is_window_top_level env (st_win s) = false ->
  hd 0 (st_replies s) <> 0 ->
  let rect := X11DRV_window_to_X_rect env (st_win s) (rectWindow (st_win s)) in
  let w := hd 0 (st_replies s) in
  exists width height mask attr,
    create_whole_window env s =
      Some (w, whole_window_created env s d,
            XCreateWindow pw (left rect) (top rect) width height mask attr ::
            (if (dwStyle (st_win s) .& (WS.CHILD .| WS.MAXIMIZE)) =? WS.CHILD
             then [XConfigureWindow w X11.CWStackMode (mkChanges 0 0 0 0 0 X11.Below)]
             else [])) /\
    override_redirect attr = true /\ cursor attr = 0 /\
    has_bits (dwExStyle (st_win (whole_window_created env s d))) WS.EX_MANAGED
      = false.
Proof.
  intros Hd Hpw Htop Hw rect w.
  unfold whole_window_created, synced_exStyle. rewrite Htop. cbn [andb].
  fold rect. fold w.
  unfold create_whole_window, get_window_attributes. xrun.
  rewrite (bind_Some _ _ _ _ _ _ (next_reply_run _)). xrun.
  cbn [with_win st_replies pop_reply st_win st_hIcon with_data tl fst snd cursor].
  fold rect. fold w. rewrite Htop. cbn [andb].
  change (is_window_top_level env (set_dwExStyle (st_win s) _))
    with (is_window_top_level env (st_win s)).
  rewrite Htop. cbn [Z.eqb negb when]. xrun.
  assert (Hw' : (w =? 0) = false) by (apply Z.eqb_neq; exact Hw).
  rewrite Hw'. xrun.
  cbn [dwStyle set_dwExStyle when]. xrun.
  do 4 eexists. split.
  - unfold ret. cbn [after app].
    destruct ((dwStyle (st_win s) .& (WS.CHILD .| WS.MAXIMIZE)) =? WS.CHILD);
      reflexivity.
  - split; [reflexivity |]. split; [reflexivity |].
    cbn [st_win set_pDriverData dwExStyle set_dwExStyle].
    apply has_bits_land_lnot_same.
Qed.

Lemma create_whole_window_child_witness :
  exists width height mask attr,
    create_whole_window managed_env
      (mkState (mkWND 204 201 0 (WS.CHILD .| WS.VISIBLE) 0 0
                  (mkRECT 1 2 31 42) (mkRECT 1 2 31 42) (Some fresh_data))
               0 [701]) =
      Some (701,
            whole_window_created managed_env
              (mkState (mkWND 204 201 0 (WS.CHILD .| WS.VISIBLE) 0 0
                          (mkRECT 1 2 31 42) (mkRECT 1 2 31 42) (Some fresh_data))
                       0 [701]) fresh_data,
            [XCreateWindow 502 1 2 width height mask attr;
             XConfigureWindow 701 X11.CWStackMode (mkChanges 0 0 0 0 0 X11.Below)]) /\
    width = 30 /\ height = 40.
Proof.
  destruct (create_whole_window_child managed_env
              (mkState (mkWND 204 201 0 (WS.CHILD .| WS.VISIBLE) 0 0
                          (mkRECT 1 2 31 42) (mkRECT 1 2 31 42) (Some fresh_data))
                       0 [701]) fresh_data 502 eq_refl eq_refl eq_refl
              ltac:(discriminate))
    as (width & height & mask & attr & E & _).
  exists width, height, mask, attr. rewrite E.
  vm_compute in E. injection E as <- <- <- <-.
  repeat split.
Defined.

(** ** Teardown, again *)

(** X13: after [X11DRV_DestroyWindow], a second [X11DRV_DestroyWindow] makes
    no call and changes nothing: the null driver data stops it. *)
Theorem DestroyWindow_twice (s : State) :
  exists s' calls,
    X11DRV_DestroyWindow s = Some (true, s', calls) /\
    X11DRV_DestroyWindow s' = Some (true, s', []).
Proof.
  destruct (DestroyWindow_total s) as (s' & calls & E & Hn & _).
  exists s', calls. split; [exact E |].
  unfold X11DRV_DestroyWindow. xrun. rewrite Hn. reflexivity.
Qed.

(** X14: when [X11DRV_CreateWindow] has created both X windows for a window
    with a parent and has not taken the [failed:] exit (the window still has
    its driver data when the function returns, with [TRUE] or with [FALSE]),
    the driver data holds the two non-null windows, both are recorded as
    properties of the logical window, and a following [X11DRV_DestroyWindow]
    deletes the context entries of both, destroys the whole window and leaves
    the window without driver data. *)
Theorem CreateWindow_then_DestroyWindow
        (env : Env) (user : User) (cs : CREATESTRUCTA) (unicode : bool)
        (out : bool * CREATESTRUCTA) (s s2 : State) (pw : Window)
        (calls : list Call) :
  parent (st_win s) <> 0 ->
  X11DRV_get_client_window env (parent (st_win s)) = Some pw ->
  (owner (st_win s) <> 0 ->
   exists ow, X11DRV_get_whole_window env (owner (st_win s)) = Some ow) ->
  X11DRV_CreateWindow env user cs unicode s = Some (out, s2, calls) ->
  pDriverData (st_win s2) <> None ->
  exists d2 s3 rest,
    pDriverData (st_win s2) = Some d2 /\
    whole_window d2 <> 0 /\ client_window d2 <> 0 /\
    In (SetPropA (hwndSelf (st_win s)) whole_window_atom (whole_window d2)) calls /\
    In (SetPropA (hwndSelf (st_win s)) client_window_atom (client_window d2)) calls /\
    X11DRV_DestroyWindow s2 =
      Some (true, s3,
            [XSync; XDeleteContext (whole_window d2);
             XDeleteContext (client_window d2);
             XDestroyWindow (whole_window d2)] ++ rest) /\
    pDriverData (st_win s3) = None.
Proof.
  intros Hpar Hpw Hown Hc Hdata.
  destruct (CreateWindow_structure env user cs unicode s pw Hpar Hpw Hown)
    as (d1 & r1 & t1 & d2 & t2 & Ew & Ec & Hd2w & Hd2c & E).
  cbv zeta in *. rewrite E in Hc. clear E.
  destruct (Z.eqb_spec (hd 0 (st_replies s)) 0) as [Hw | Hw].
  { match type of Hc with
    | context [failed_exit ?c ?st] =>
        destruct (failed_exit_total c st) as (s3 & t3 & _ & Ef & Hn & _)
    end.
    rewrite Ef in Hc. cbn [after] in Hc. injection Hc as _ <- _.
    contradiction. }
  destruct (Z.eqb_spec (hd 0 r1) 0) as [Hcw | Hcw].
  { match type of Hc with
    | context [failed_exit ?c ?st] =>
        destruct (failed_exit_total c st) as (s3 & t3 & _ & Ef & Hn & _)
    end.
    rewrite Ef in Hc. cbn [after] in Hc. injection Hc as _ <- _.
    contradiction. }
  match type of Hc with
  | context [creation_announced env user ?c unicode ?st] =>
      destruct (creation_announced_run env user c unicode st d2 eq_refl)
        as (b & cs1 & s' & t & Ea & Hsame & _)
  end.
  rewrite Ea in Hc. cbn [after] in Hc. injection Hc as _ <- <-.
  destruct (Hsame Hdata)
    as (Hh & _ & d2' & d3 & E2 & E3 & Hw3 & Hc3 & _).
  cbn [with_data st_win set_pDriverData pDriverData] in E2.
  injection E2 as <-.
  exists d3. do 2 eexists.
  split; [exact E3 |].
  split; [rewrite Hw3, Hd2w; exact Hw |].
  split; [rewrite Hc3, Hd2c; exact Hcw |].
  split; [rewrite Hw3, Hd2w; apply in_or_app; left;
          apply in_or_app; right; apply in_or_app; right;
          right; left; reflexivity |].
  split; [rewrite Hc3, Hd2c; apply in_or_app; left;
          apply in_or_app; right; apply in_or_app; right;
          right; right; left; reflexivity |].
  split.
  - rewrite (DestroyWindow_run s' d3 E3).
    rewrite Hw3, Hd2w. apply Z.eqb_neq in Hw. rewrite Hw.
    rewrite <- !app_assoc. reflexivity.
  - reflexivity.
Qed.

Lemma CreateWindow_then_DestroyWindow_witness :
  exists calls s2 d2 s3 rest,
    X11DRV_CreateWindow managed_env plain_user
      (mkCS 10 10 200 100 (WS.POPUP .| WS.DLGFRAME)) false dialog_window =
      Some ((true, mkCS 10 10 200 100 (WS.POPUP .| WS.DLGFRAME)),
            s2, calls) /\
    pDriverData (st_win s2) = Some d2 /\
    X11DRV_DestroyWindow s2 =
      Some (true, s3,
            [XSync; XDeleteContext (whole_window d2);
             XDeleteContext (client_window d2);
             XDestroyWindow (whole_window d2)] ++ rest) /\
    pDriverData (st_win s3) = None.
Proof.
  do 2 eexists.
  assert (Hc : X11DRV_CreateWindow managed_env plain_user
                 (mkCS 10 10 200 100 (WS.POPUP .| WS.DLGFRAME)) false
                 dialog_window =
               Some ((true, mkCS 10 10 200 100 (WS.POPUP .| WS.DLGFRAME)),
                     _, _)) by (vm_compute; reflexivity).
  destruct (CreateWindow_then_DestroyWindow managed_env plain_user _ _ _
              dialog_window _ 1 _
              ltac:(discriminate) eq_refl
              ltac:(intros F; contradiction F; reflexivity) Hc
              ltac:(discriminate))
    as (d2 & s3 & rest & Hd2 & _ & _ & _ & _ & Ed & Hn).
  exists d2, s3, rest.
  split; [exact Hc |]. split; [exact Hd2 |]. split; [exact Ed | exact Hn].
Defined.

(** ** Icon bitmaps *)

(** The run of [set_icon_hints] for a managed window whose class has an
    icon. *)
Lemma set_icon_hints_pixmap_run (env : Env) (s : State) (d : x11drv_win_data)
      (hints : XWMHints) :
  pDriverData (st_win s) = Some d ->
  has_bits (dwExStyle (st_win s)) WS.EX_MANAGED = true ->
  st_hIcon s <> 0 ->
  let hbmMask := fst (GetIconInfo env (st_hIcon s)) in
  let hbmColor := snd (GetIconInfo env (st_hIcon s)) in
  set_icon_hints env hints s =
    Some (mkWMHints
            ((wm_flags hints .& Z.lnot X11.IconWindowHint)
               .| X11.IconPixmapHint .| X11.IconMaskHint)
            (wm_input hints) (initial_state hints)
            (X11DRV_BITMAP_Pixmap env hbmColor) (wm_icon_window hints)
            (X11DRV_BITMAP_Pixmap env hbmMask) (window_group hints),
          with_data s (set_icon_window (set_icon_bitmaps d hbmColor hbmMask) 0),
          (if hWMIconBitmap d =? 0 then [] else [DeleteObject (hWMIconBitmap d)]) ++
          (if hWMIconMask d =? 0 then [] else [DeleteObject (hWMIconMask d)]) ++
          [X11DRV_CreateBitmap hbmMask; X11DRV_CreateBitmap hbmColor;
           InvertMaskBits hbmMask] ++
          (if icon_window d =? 0 then []
           else [XDeleteContext (icon_window d); XDestroyWindow (icon_window d);
                 RemovePropA (hwndSelf (st_win s)) icon_window_atom])).
Proof.
  intros Hd Hm Hi hbmMask hbmColor.
  unfold set_icon_hints. xrun. rewrite Hm. cbn [negb].
  apply Z.eqb_neq in Hi. rewrite Hi. xrun.
  xcall destroy_icon_window_run. xrun.
  fold hbmMask. fold hbmColor.
  cbn [with_data st_win set_pDriverData hwndSelf icon_window set_icon_bitmaps
       after app].
  destruct (hWMIconBitmap d =? 0); destruct (hWMIconMask d =? 0);
    destruct (icon_window d =? 0); reflexivity.
Qed.

(** The run of [set_icon_hints] for a managed window whose class has no
    icon, and which has no icon window. *)
Lemma set_icon_hints_window_run (env : Env) (s : State) (d : x11drv_win_data)
      (hints : XWMHints) :
  pDriverData (st_win s) = Some d ->
  has_bits (dwExStyle (st_win s)) WS.EX_MANAGED = true ->
  st_hIcon s = 0 ->
  icon_window d = 0 ->
  exists created,
    set_icon_hints env hints s =
      Some (mkWMHints
              ((wm_flags hints .& Z.lnot (X11.IconPixmapHint .| X11.IconMaskHint))
                 .| X11.IconWindowHint)
              (wm_input hints) (initial_state hints) (icon_pixmap hints)
              (hd 0 (st_replies s)) (icon_mask hints) (window_group hints),
            with_data (pop_reply s)
              (set_icon_window (set_icon_bitmaps d 0 0) (hd 0 (st_replies s))),
            (if hWMIconBitmap d =? 0 then [] else [DeleteObject (hWMIconBitmap d)]) ++
            (if hWMIconMask d =? 0 then [] else [DeleteObject (hWMIconMask d)]) ++
            created).
Proof.
  intros Hd Hm Hi Hw.
  unfold set_icon_hints. xrun. rewrite Hm. cbn [negb].
  rewrite Hi. cbn [Z.eqb]. xrun.
  cbn [set_icon_bitmaps icon_window]. rewrite Hw. cbn [Z.eqb]. xrun.
  xcall create_icon_window_run. xrun.
  eexists.
  cbn [with_data pop_reply st_win set_pDriverData st_replies st_hIcon
       icon_window set_icon_window after app].
  destruct (hWMIconBitmap d =? 0); destruct (hWMIconMask d =? 0); reflexivity.
Qed.

(** X15: a managed window that advertises the icon of its class and then
    has the class icon cleared ends up, after the next [set_icon_hints],
    with the icon-window flag alone, a newly created icon window, and the
    bitmaps of the former icon deleted; it owns no bitmap any more. *)
Theorem set_icon_hints_icon_cleared
        (env : Env) (s : State) (d : x11drv_win_data) (hints : XWMHints) :
  pDriverData (st_win s) = Some d ->
  has_bits (dwExStyle (st_win s)) WS.EX_MANAGED = true ->
  st_hIcon s <> 0 ->
  exists h1 s1 c1 h2 s2 d2 c2,
    set_icon_hints env hints s = Some (h1, s1, c1) /\
    set_icon_hints env h1 (mkState (st_win s1) 0 (st_replies s1))
      = Some (h2, s2, c2) /\
    pDriverData (st_win s2) = Some d2 /\
    wm_flags h2 .& icon_hint_bits = X11.IconWindowHint /\
    icon_window d2 = hd 0 (st_replies s) /\
    wm_icon_window h2 = icon_window d2 /\
    hWMIconBitmap d2 = 0 /\ hWMIconMask d2 = 0 /\
    (snd (GetIconInfo env (st_hIcon s)) <> 0 ->
     In (DeleteObject (snd (GetIconInfo env (st_hIcon s)))) c2) /\
    (fst (GetIconInfo env (st_hIcon s)) <> 0 ->
     In (DeleteObject (fst (GetIconInfo env (st_hIcon s)))) c2).
Proof.
  intros Hd Hm Hi.
  pose proof (set_icon_hints_pixmap_run env s d hints Hd Hm Hi) as E1.
  cbv zeta in E1.
  destruct (set_icon_hints_window_run env
              (mkState
                 (st_win (with_data s
                    (set_icon_window
                       (set_icon_bitmaps d (snd (GetIconInfo env (st_hIcon s)))
                          (fst (GetIconInfo env (st_hIcon s)))) 0)))
                 0 (st_replies s))
              _
              (mkWMHints
                 ((wm_flags hints .& Z.lnot X11.IconWindowHint)
                    .| X11.IconPixmapHint .| X11.IconMaskHint)
                 (wm_input hints) (initial_state hints)
                 (X11DRV_BITMAP_Pixmap env (snd (GetIconInfo env (st_hIcon s))))
                 (wm_icon_window hints)
                 (X11DRV_BITMAP_Pixmap env (fst (GetIconInfo env (st_hIcon s))))
                 (window_group hints))
              eq_refl Hm eq_refl eq_refl) as (created & E2).
  do 7 eexists. split; [exact E1 |]. split; [exact E2 |].
  split; [reflexivity |].
  split; [apply icon_bits_window |].
  split; [reflexivity |]. split; [reflexivity |].
  split; [reflexivity |]. split; [reflexivity |].
  cbn [hWMIconBitmap hWMIconMask set_icon_window set_icon_bitmaps].
  split; intros Hn; apply Z.eqb_neq in Hn; rewrite Hn.
  - apply in_or_app. left. left. reflexivity.
  - apply in_or_app. right. apply in_or_app. left. left. reflexivity.
Qed.

Lemma set_icon_hints_icon_cleared_witness :
  exists h1 s1 c1 h2 s2 d2 c2,
    set_icon_hints managed_env XAllocWMHints window_given_icon = Some (h1, s1, c1) /\
    set_icon_hints managed_env h1 (mkState (st_win s1) 0 (st_replies s1))
      = Some (h2, s2, c2) /\
    pDriverData (st_win s2) = Some d2 /\
    wm_flags h2 .& icon_hint_bits = X11.IconWindowHint /\
    hWMIconBitmap d2 = 0 /\ hWMIconMask d2 = 0 /\
    In (DeleteObject 79) c2 /\ In (DeleteObject 78) c2.
Proof.
  destruct (set_icon_hints_icon_cleared managed_env window_given_icon
              iconless_data XAllocWMHints eq_refl eq_refl ltac:(discriminate))
    as (h1 & s1 & c1 & h2 & s2 & d2 & c2 & E1 & E2 & Hd2 & Hf & _ & _ & Hb & Hk
        & Hc & Hmk).
  exists h1, s1, c1, h2, s2, d2, c2.
  split; [exact E1 |]. split; [exact E2 |]. split; [exact Hd2 |].
  split; [exact Hf |]. split; [exact Hb |]. split; [exact Hk |].
  split; [apply Hc; discriminate | apply Hmk; discriminate].
Defined.

(** ** The window-manager hints *)

(** [set_icon_hints] completes and touches nothing of the hints but the
    icon fields and the three icon flags. *)
Lemma set_icon_hints_keeps (env : Env) (s : State) (d : x11drv_win_data)
      (hints : XWMHints) :
  pDriverData (st_win s) = Some d ->
  exists hints' d' replies' calls,
    set_icon_hints env hints s =
      Some (hints', with_data_replies s d' replies', calls) /\
    wm_input hints' = wm_input hints /\
    initial_state hints' = initial_state hints /\
    window_group hints' = window_group hints /\
    wm_flags hints' .& Z.lnot icon_hint_bits =
      wm_flags hints .& Z.lnot icon_hint_bits.
Proof.
  intros Hd. unfold set_icon_hints. xrun.
  destruct (has_bits (dwExStyle (st_win s)) WS.EX_MANAGED); cbn [negb];
    [destruct (st_hIcon s =? 0);
     [xrun; cbn [set_icon_bitmaps icon_window];
      destruct (icon_window d =? 0);
      [xrun; xcall create_icon_window_run; xrun | xrun]
     | xrun; xcall destroy_icon_window_run; xrun]
    | xrun; xcall destroy_icon_window_run; xrun];
    do 4 eexists; (split; [reflexivity |]);
    cbn [wm_input initial_state window_group wm_flags];
    repeat split;
    first [apply other_bits_window | apply other_bits_pixmap
          | apply other_bits_cleared].
Qed.

Lemma has_bits_outside_icon f f' m :
  f' .& Z.lnot icon_hint_bits = f .& Z.lnot icon_hint_bits ->
  Z.lnot icon_hint_bits .& m = m ->
  has_bits f' m = has_bits f m.
Proof.
  intros H Hm. unfold has_bits.
  rewrite <- Hm, !Z.land_assoc, H. reflexivity.
Qed.

(** The calls of a list but the last one, read off its shape. *)
Ltac middle_of l :=
  lazymatch l with
  | ?a :: ?r => let m := middle_of r in constr:(a :: m)
  | ?p ++ [?x] => constr:(p)
  | ?p ++ ?r => let m := middle_of r in constr:(p ++ m)
  end.

Ltac with_middle :=
  lazymatch goal with
  | |- exists s' middle h, Some (_, _, _ :: _ :: ?l) = _ /\ _ =>
      let m := middle_of l in eexists _, m, _
  end.

(** X16: [set_wm_hints] first advertises the protocols ([WM_DELETE_WINDOW],
    and [WM_TAKE_FOCUS] only when that atom is set) and ends with the WM
    hints, in which the input, state and group flags are set, the input
    model is passive exactly when there is no take-focus atom, the initial
    state is iconic exactly for a minimized window, and the group leader is
    the whole window of the owner, or the window's own when it has no owner;
    a window with an owner is made transient for the owner's whole window. *)
Theorem set_wm_hints_grouping
        (env : Env) (s : State) (d : x11drv_win_data) (ow : Window) :
  pDriverData (st_win s) = Some d ->
  (owner (st_win s) <> 0 ->
   X11DRV_get_whole_window env (owner (st_win s)) = Some ow) ->
  exists s' middle h,
    set_wm_hints env s =
      Some (tt, s',
            XSetWMProtocols (whole_window d)
              (wmDeleteWindow env ::
               (if wmTakeFocus env =? 0 then [] else [wmTakeFocus env])) ::
            XSetClassHint (whole_window d) ::
            middle ++ [XSetWMHints (whole_window d) h]) /\
    window_group h =
      (if owner (st_win s) =? 0 then whole_window d else ow) /\
    (owner (st_win s) <> 0 ->
     In (XSetTransientForHint (whole_window d) ow) middle) /\
    initial_state h =
      (if has_bits (dwStyle (st_win s)) WS.MINIMIZE
       then X11.IconicState else X11.NormalState) /\
    wm_input h = (wmTakeFocus env =? 0) /\
    has_bits (wm_flags h) X11.InputHint = true /\
    has_bits (wm_flags h) X11.StateHint = true /\
    has_bits (wm_flags h) X11.WindowGroupHint = true.
Proof.
  intros Hd Hown.
  destruct (set_size_hints_run s d Hd) as (sh & Esh & _).
  assert (Eicon : forall hints, exists hints' d' replies' calls,
             set_icon_hints env hints s =
               Some (hints', with_data_replies s d' replies', calls) /\
             wm_input hints' = wm_input hints /\
             initial_state hints' = initial_state hints /\
             window_group hints' = window_group hints /\
             wm_flags hints' .& Z.lnot icon_hint_bits =
               wm_flags hints .& Z.lnot icon_hint_bits).
  { intros hints. exact (set_icon_hints_keeps env s d hints Hd). }
  unfold set_wm_hints. xrun.
  match goal with
  | |- context [set_icon_hints env ?hints] =>
      destruct (Eicon hints)
        as (hints' & d' & replies' & ci & Ei & Hin & _ & _ & Hfl)
  end.
  cbn [wm_input wm_flags] in Hin, Hfl.
  assert (Hflags : has_bits (wm_flags hints') X11.InputHint = true /\
                   has_bits (wm_flags hints') X11.StateHint = true /\
                   has_bits (wm_flags hints') X11.WindowGroupHint = true).
  { repeat split;
      rewrite (has_bits_outside_icon _ _ _ Hfl) by reflexivity; reflexivity. }
  assert (Hp : (if negb (wmTakeFocus env =? 0) then [wmTakeFocus env] else [])
               = (if wmTakeFocus env =? 0 then [] else [wmTakeFocus env])).
  { destruct (wmTakeFocus env =? 0); reflexivity. }
  rewrite Hp.
  destruct (Z.eqb_spec (owner (st_win s)) 0) as [Ho | Ho]; cbn [negb].
  - xrun. rewrite (bind_Some _ _ _ _ _ _ Esh).
    destruct (has_bits (dwExStyle (st_win s)) WS.EX_TRAYWINDOW); cbn [when];
      xrun; rewrite (bind_Some _ _ _ _ _ _ Ei); xrun;
      unfold call; cbn [after app];
      with_middle;
      (split; [cbn [app]; rewrite <- ?app_assoc; reflexivity |]);
      cbn [window_group initial_state wm_input wm_flags];
      (split; [reflexivity |]); (split; [intros F; contradiction |]);
      (split; [reflexivity |]); (split; [exact Hin | exact Hflags]).
  - pose proof (Hown Ho) as Eow. xrun.
    rewrite (bind_Some _ _ _ _ _ _ Esh).
    destruct (has_bits (dwExStyle (st_win s)) WS.EX_TRAYWINDOW); cbn [when];
      xrun; rewrite (bind_Some _ _ _ _ _ _ Ei); xrun;
      unfold call; cbn [after app];
      with_middle;
      (split; [cbn [app]; rewrite <- ?app_assoc; reflexivity |]);
      cbn [window_group initial_state wm_input wm_flags];
      (split; [reflexivity |]);
      (split; [intros _; left; reflexivity |]);
      (split; [reflexivity |]); (split; [exact Hin | exact Hflags]).
Qed.

Lemma set_wm_hints_grouping_witness :
  exists s' middle h,
    set_wm_hints managed_env
      (mkState (mkWND 203 1 201 WS.CAPTION WS.EX_MANAGED 0
                  (mkRECT 10 10 210 110) (mkRECT 14 33 206 106)
                  (Some iconless_data)) 0 []) =
      Some (tt, s',
            XSetWMProtocols 601 [11] :: XSetClassHint 601 ::
            middle ++ [XSetWMHints 601 h]) /\
    window_group h = 501 /\
    In (XSetTransientForHint 601 501) middle.
Proof.
  destruct (set_wm_hints_grouping managed_env
              (mkState (mkWND 203 1 201 WS.CAPTION WS.EX_MANAGED 0
                          (mkRECT 10 10 210 110) (mkRECT 14 33 206 106)
                          (Some iconless_data)) 0 [])
              iconless_data 501 eq_refl (fun _ => eq_refl))
    as (s' & middle & h & E & Hg & Ht & _).
  exists s', middle, h. split; [exact E |]. split; [exact Hg |].
  apply Ht. discriminate.
Defined.

Lemma mwm_functions_rules (style : Z) :
  let caption := (style .& WS.CAPTION) =? WS.CAPTION in
  let functions := mwm_functions_of style in
  has_bits functions MWM.FUNC_MOVE = caption || has_bits style WS.THICKFRAME /\
  has_bits functions MWM.FUNC_RESIZE = has_bits style WS.THICKFRAME /\
  has_bits functions MWM.FUNC_MINIMIZE = has_bits style WS.MINIMIZE /\
  has_bits functions MWM.FUNC_MAXIMIZE = has_bits style WS.MAXIMIZE /\
  has_bits functions MWM.FUNC_CLOSE = has_bits style WS.SYSMENU.
Proof.
  intros caption. unfold mwm_functions_of, or_if. fold caption.
  destruct caption; destruct (has_bits style WS.THICKFRAME);
    destruct (has_bits style WS.MINIMIZE); destruct (has_bits style WS.MAXIMIZE);
    destruct (has_bits style WS.SYSMENU); repeat split.
Qed.

Lemma mwm_decorations_rules (style exStyle : Z) :
  let caption := (style .& WS.CAPTION) =? WS.CAPTION in
  let decorations := mwm_decorations_of style exStyle in
  has_bits decorations MWM.DECOR_TITLE = caption /\
  has_bits decorations MWM.DECOR_RESIZEH =
    negb (has_bits exStyle WS.EX_DLGMODALFRAME) && has_bits style WS.THICKFRAME /\
  has_bits decorations MWM.DECOR_MENU = has_bits style WS.SYSMENU /\
  has_bits decorations MWM.DECOR_MINIMIZE = has_bits style WS.MINIMIZE /\
  has_bits decorations MWM.DECOR_MAXIMIZE = has_bits style WS.MAXIMIZE /\
  (has_bits exStyle WS.EX_DLGMODALFRAME = true \/
   has_bits style WS.THICKFRAME = true \/
   has_bits style WS.BORDER = true \/
   has_bits style (WS.CHILD .| WS.POPUP) = false ->
   has_bits decorations MWM.DECOR_BORDER = true).
Proof.
  intros caption. unfold mwm_decorations_of, or_if. fold caption.
  destruct caption; destruct (has_bits exStyle WS.EX_DLGMODALFRAME);
    destruct (has_bits style WS.THICKFRAME);
    destruct ((style .& (WS.DLGFRAME .| WS.BORDER)) =? WS.DLGFRAME);
    destruct (has_bits style WS.BORDER);
    destruct (has_bits style (WS.CHILD .| WS.POPUP));
    destruct (has_bits style WS.SYSMENU);
    destruct (has_bits style WS.MINIMIZE); destruct (has_bits style WS.MAXIMIZE);
    cbn [negb andb]; repeat split;
    intros H; try reflexivity; intuition discriminate.
Qed.

(** X17: when the Motif hints atom is set, [set_wm_hints] stores Motif hints
    computed from the styles: moving is allowed with a full caption or a
    thick frame, resizing with a thick frame, minimizing and maximizing for
    a window that is minimized or maximized, closing with a system menu; the
    title is shown with a full caption; resize handles are shown with a
    thick frame unless the window has a dialog-modal frame; a border is shown
    for every window with a dialog-modal frame, a thick frame or a border,
    and for every window that is neither a child nor a popup. *)
Theorem set_wm_hints_motif
        (env : Env) (s : State) (d : x11drv_win_data) (ow : Window) :
  pDriverData (st_win s) = Some d ->
  (owner (st_win s) <> 0 ->
   X11DRV_get_whole_window env (owner (st_win s)) = Some ow) ->
  mwmHints env <> 0 ->
  let style := dwStyle (st_win s) in
  let exStyle := dwExStyle (st_win s) in
  let caption := (style .& WS.CAPTION) =? WS.CAPTION in
  exists s' calls functions decorations,
    set_wm_hints env s = Some (tt, s', calls) /\
    In (XChangeMwmHints (whole_window d) (mwmHints env)
          (mkMwm (MWM.HINTS_FUNCTIONS .| MWM.HINTS_DECORATIONS)
                 functions decorations)) calls /\
    has_bits functions MWM.FUNC_MOVE = caption || has_bits style WS.THICKFRAME /\
    has_bits functions MWM.FUNC_RESIZE = has_bits style WS.THICKFRAME /\
    has_bits functions MWM.FUNC_MINIMIZE = has_bits style WS.MINIMIZE /\
    has_bits functions MWM.FUNC_MAXIMIZE = has_bits style WS.MAXIMIZE /\
    has_bits functions MWM.FUNC_CLOSE = has_bits style WS.SYSMENU /\
    has_bits decorations MWM.DECOR_TITLE = caption /\
    has_bits decorations MWM.DECOR_RESIZEH =
      negb (has_bits exStyle WS.EX_DLGMODALFRAME) && has_bits style WS.THICKFRAME /\
    has_bits decorations MWM.DECOR_MENU = has_bits style WS.SYSMENU /\
    has_bits decorations MWM.DECOR_MINIMIZE = has_bits style WS.MINIMIZE /\
    has_bits decorations MWM.DECOR_MAXIMIZE = has_bits style WS.MAXIMIZE /\
    (has_bits exStyle WS.EX_DLGMODALFRAME = true \/
     has_bits style WS.THICKFRAME = true \/
     has_bits style WS.BORDER = true \/
     has_bits style (WS.CHILD .| WS.POPUP) = false ->
     has_bits decorations MWM.DECOR_BORDER = true).
Proof.
  intros Hd Hown Hmwm style exStyle caption.
  destruct (set_size_hints_run s d Hd) as (sh & Esh & _).
  assert (Eicon : forall hints, exists hints' d' replies' calls,
             set_icon_hints env hints s =
               Some (hints', with_data_replies s d' replies', calls) /\
             same_peers d d').
  { intros hints. exact (set_icon_hints_run env s d hints Hd). }
  pose proof (mwm_functions_rules style) as Hf.
  pose proof (mwm_decorations_rules style exStyle) as Hdec.
  cbv zeta in Hf, Hdec. fold caption in Hf, Hdec.
  destruct Hf as (F1 & F2 & F3 & F4 & F5).
  destruct Hdec as (D1 & D2 & D3 & D4 & D5 & D6).
  unfold set_wm_hints. xrun.
  match goal with
  | |- context [set_icon_hints env ?hints] =>
      destruct (Eicon hints) as (hints' & d' & replies' & ci & Ei & _)
  end.
  apply Z.eqb_neq in Hmwm. rewrite Hmwm. cbn [negb].
  destruct (Z.eqb_spec (owner (st_win s)) 0) as [Ho | Ho]; cbn [negb];
    [| pose proof (Hown Ho) as Eow];
    xrun; rewrite (bind_Some _ _ _ _ _ _ Esh);
    destruct (has_bits (dwExStyle (st_win s)) WS.EX_TRAYWINDOW); cbn [when];
    xrun; rewrite (bind_Some _ _ _ _ _ _ Ei); xrun;
    unfold call; cbn [after app];
    eexists _, _, (mwm_functions_of style), (mwm_decorations_of style exStyle);
    (split; [reflexivity |]);
    (split; [in_calls |]);
    repeat split; assumption.
Qed.

Lemma set_wm_hints_motif_witness :
  exists s' calls functions decorations,
    set_wm_hints managed_env
      (mkState (mkWND 203 1 0 (WS.CAPTION .| WS.THICKFRAME) WS.EX_DLGMODALFRAME 0
                  (mkRECT 10 10 210 110) (mkRECT 14 33 206 106)
                  (Some iconless_data)) 0 []) = Some (tt, s', calls) /\
    In (XChangeMwmHints 601 14
          (mkMwm (MWM.HINTS_FUNCTIONS .| MWM.HINTS_DECORATIONS)
                 functions decorations)) calls /\
    has_bits functions MWM.FUNC_RESIZE = true /\
    has_bits decorations MWM.DECOR_RESIZEH = false /\
    has_bits decorations MWM.DECOR_BORDER = true.
Proof.
  destruct (set_wm_hints_motif managed_env
              (mkState (mkWND 203 1 0 (WS.CAPTION .| WS.THICKFRAME)
                          WS.EX_DLGMODALFRAME 0
                          (mkRECT 10 10 210 110) (mkRECT 14 33 206 106)
                          (Some iconless_data)) 0 [])
              iconless_data 0 eq_refl
              ltac:(intros F; contradiction F; reflexivity)
              ltac:(discriminate))
    as (s' & calls & f & dc & E & Hin & _ & Hr & _ & _ & _ & _ & Hh & _ & _ & _ & Hb).
  exists s', calls, f, dc.
  split; [exact E |]. split; [exact Hin |]. split; [exact Hr |].
  split; [exact Hh |]. apply Hb. left. reflexivity.
Defined.

(** ** Input focus *)

(** X18: [X11DRV_SetFocus] sets the X input focus in one case only: the
    driver runs on the default root window, the window is not null, its
    top-level ancestor is not flagged as managed and has a non-null whole
    window, and the X server answers the attributes request for that window
    with viewable.  The calls are then the attributes request, the focus
    request for the whole window of the ancestor, and the installation of
    the colormap when the palette is private. *)
Theorem SetFocus_sets_focus_iff
        (env : Env) (fenv : FocusEnv) (hwnd : HWND) (w : Window) (t : Z) :
  (exists calls,
     X11DRV_SetFocus env fenv hwnd = Some calls /\
     In (XSetInputFocus w t) calls) <->
  (root_window env = DefaultRootWindow env /\
   hwnd <> 0 /\
   has_bits (GetWindowLongW_exstyle fenv (GetAncestor_root fenv hwnd))
            WS.EX_MANAGED = false /\
   X11DRV_get_whole_window env (GetAncestor_root fenv hwnd) = Some w /\
   w <> 0 /\
   is_viewable fenv w = true /\
   t = focus_time fenv /\
   X11DRV_SetFocus env fenv hwnd =
     Some (XGetWindowAttributes w :: XSetInputFocus w t ::
           (if palette_private fenv
            then [XInstallColormap (X11DRV_PALETTE_PaletteXColormap env)]
            else []))).
Proof.
  unfold X11DRV_SetFocus. split.
  - intros (calls & E & Hin). revert E.
    destruct (Z.eqb_spec (root_window env) (DefaultRootWindow env)) as [Hr | Hr];
      cbn [negb]; [| intros E; injection E as <-; contradiction].
    destruct (Z.eqb_spec hwnd 0) as [Hh | Hh].
    { intros E. injection E as <-.
      destruct (palette_private fenv); cbn [In] in Hin; intuition discriminate. }
    destruct (has_bits (GetWindowLongW_exstyle fenv (GetAncestor_root fenv hwnd))
                WS.EX_MANAGED); [intros E; injection E as <-; contradiction |].
    destruct (X11DRV_get_whole_window env (GetAncestor_root fenv hwnd))
      as [win |]; [| discriminate].
    destruct (Z.eqb_spec win 0) as [Hw | Hw];
      [intros E; injection E as <-; contradiction |].
    destruct (is_viewable fenv win) eqn:Hv;
      [| intros E; injection E as <-; cbn [In] in Hin; intuition discriminate].
    intros E. injection E as <-.
    assert (Hwt : win = w /\ focus_time fenv = t).
    { destruct Hin as [Hin | [Hin | Hin]];
        [discriminate Hin | injection Hin; auto |].
      destruct (palette_private fenv); cbn [In] in Hin; intuition discriminate. }
    destruct Hwt as [-> <-].
    repeat split; try assumption; reflexivity.
  - intros (Hr & Hh & Hm & Hw & Hw0 & Hv & -> & E).
    eexists. split; [exact E |]. right. left. reflexivity.
Qed.

Lemma SetFocus_sets_focus_iff_witness :
  X11DRV_SetFocus managed_env
    (mkFocusEnv true (fun _ => 201) (fun _ => 0) (fun _ => true) 5000) 203 =
    Some [XGetWindowAttributes 501; XSetInputFocus 501 5000; XInstallColormap 7].
Proof.
  destruct (proj1 (SetFocus_sets_focus_iff managed_env
                     (mkFocusEnv true (fun _ => 201) (fun _ => 0)
                        (fun _ => true) 5000) 203 501 5000)
              (ex_intro _ _ (conj eq_refl (or_intror (or_introl eq_refl)))))
    as (_ & _ & _ & _ & _ & _ & _ & E).
  exact E.
Defined.

(** X19: [X11DRV_SetFocus] makes no call at all when the driver runs in a
    desktop window, when the top-level ancestor is flagged as managed, or
    when the ancestor has no whole window.  For a null window it only
    uninstalls the colormap, and only when the palette is private.  When the
    X server answers that the whole window is not viewable, the attributes
    request is the only call: neither the focus nor the colormap is
    touched. *)
Theorem SetFocus_leaves_focus
        (env : Env) (fenv : FocusEnv) (hwnd : HWND) :
  (root_window env <> DefaultRootWindow env ->
   X11DRV_SetFocus env fenv hwnd = Some []) /\
  (root_window env = DefaultRootWindow env ->
   X11DRV_SetFocus env fenv 0 =
     Some (if palette_private fenv
           then [TSXUninstallColormap (X11DRV_PALETTE_PaletteXColormap env)]
           else [])) /\
  (hwnd <> 0 ->
   has_bits (GetWindowLongW_exstyle fenv (GetAncestor_root fenv hwnd))
            WS.EX_MANAGED = true ->
   X11DRV_SetFocus env fenv hwnd = Some []) /\
  (hwnd <> 0 ->
   X11DRV_get_whole_window env (GetAncestor_root fenv hwnd) = Some 0 ->
   X11DRV_SetFocus env fenv hwnd = Some []) /\
  (forall win,
     root_window env = DefaultRootWindow env ->
     hwnd <> 0 ->
     has_bits (GetWindowLongW_exstyle fenv (GetAncestor_root fenv hwnd))
              WS.EX_MANAGED = false ->
     X11DRV_get_whole_window env (GetAncestor_root fenv hwnd) = Some win ->
     win <> 0 ->
     is_viewable fenv win = false ->
     X11DRV_SetFocus env fenv hwnd = Some [XGetWindowAttributes win]).
Proof.
  unfold X11DRV_SetFocus. repeat split.
  - intros Hr. apply Z.eqb_neq in Hr. rewrite Hr. reflexivity.
  - intros Hr. apply Z.eqb_eq in Hr. rewrite Hr. reflexivity.
  - intros Hh Hm. apply Z.eqb_neq in Hh. rewrite Hh, Hm.
    destruct (root_window env =? DefaultRootWindow env); reflexivity.
  - intros Hh Hw. apply Z.eqb_neq in Hh. rewrite Hh, Hw.
    destruct (root_window env =? DefaultRootWindow env); cbn [negb];
      [| reflexivity].
    destruct (has_bits _ WS.EX_MANAGED); reflexivity.
  - intros win Hr Hh Hm Hw Hw0 Hv.
    apply Z.eqb_eq in Hr. apply Z.eqb_neq in Hh. apply Z.eqb_neq in Hw0.
    rewrite Hr, Hh, Hm, Hw, Hw0, Hv. reflexivity.
Qed.

(** ** The iconic state *)

Lemma client_window_mapped_run win data :
  pDriverData win = Some data ->
  client_window_mapped win =
    Some (negb (has_bits (dwStyle win) WS.MINIMIZE)
          && negb (IsRectEmpty (client_rect data))).
Proof.
  intros Hd. unfold client_window_mapped.
  rewrite (is_client_window_mapped_run (mkState win 0 []) data Hd).
  reflexivity.
Qed.

Lemma has_bits_lor_more a b m : has_bits a m = true -> has_bits (a .| b) m = true.
Proof.
  unfold has_bits. rewrite Z.land_lor_distr_l. intros H.
  destruct (Z.eqb_spec (a .& m) 0) as [E | E]; [discriminate H |].
  destruct (Z.eqb_spec ((a .& m) .| (b .& m)) 0) as [E' | E']; [| reflexivity].
  apply Z.lor_eq_0_iff in E'. destruct E' as [E' _]. contradiction.
Qed.

(** X20: for an iconic window [X11DRV_set_iconic_state] unmaps the client
    window and maps nothing; it sets the WM hints of the whole window with
    the initial state [IconicState] and the origin of the window rectangle
    as icon position, and asks for the whole window to be iconified exactly
    when the window is visible. *)
Theorem set_iconic_state_iconic
        (win : WND) (data : x11drv_win_data) (got : option (XWMHints * Z * Z)) :
  pDriverData win = Some data ->
  exists calls hints,
    X11DRV_set_iconic_state win true got = Some calls /\
    In (Plain (XUnmapWindow (client_window data))) calls /\
    (forall w, ~ In (Plain (XMapWindow w)) calls) /\
    In (XSetWMHints_at (whole_window data) hints
          (left (rectWindow win)) (top (rectWindow win))) calls /\
    initial_state hints = X11.IconicState /\
    (In (XIconifyWindow (whole_window data)) calls <->
     has_bits (dwStyle win) WS.VISIBLE = true) /\
    (forall w, In (XIconifyWindow w) calls -> w = whole_window data).
Proof.
  intros Hd. unfold X11DRV_set_iconic_state.
  rewrite Hd, (client_window_mapped_run win data Hd).
  eexists _, _. split; [reflexivity |].
  split; [left; reflexivity |].
  split.
  { intros w Hin. cbn [app In] in Hin.
    destruct (has_bits (dwStyle win) WS.VISIBLE); cbn [In] in Hin;
      intuition discriminate. }
  split; [right; left; reflexivity |].
  split; [reflexivity |].
  split.
  - destruct (has_bits (dwStyle win) WS.VISIBLE); cbn [app In]; split;
      try (intros _; reflexivity); try discriminate.
    + intros _. right. right. left. reflexivity.
    + intros H. intuition discriminate.
  - intros w Hin. cbn [app In] in Hin.
    destruct (has_bits (dwStyle win) WS.VISIBLE); cbn [In] in Hin.
    + destruct Hin as [H | [H | [H | []]]]; try discriminate H.
      injection H as <-. reflexivity.
    + intuition discriminate.
Qed.

Lemma set_iconic_state_iconic_witness :
  exists calls hints,
    X11DRV_set_iconic_state
      (mkWND 203 1 0 (WS.VISIBLE .| WS.MINIMIZE) 0 0
         (mkRECT 10 10 210 110) (mkRECT 14 33 206 106) (Some iconless_data))
      true None = Some calls /\
    In (Plain (XUnmapWindow 602)) calls /\
    In (XSetWMHints_at 601 hints 10 10) calls /\
    initial_state hints = X11.IconicState /\
    In (XIconifyWindow 601) calls.
Proof.
  destruct (set_iconic_state_iconic
              (mkWND 203 1 0 (WS.VISIBLE .| WS.MINIMIZE) 0 0
                 (mkRECT 10 10 210 110) (mkRECT 14 33 206 106)
                 (Some iconless_data))
              iconless_data None eq_refl)
    as (calls & hints & E & Hu & _ & Hh & Hi & Hv & _).
  exists calls, hints.
  split; [exact E |]. split; [exact Hu |]. split; [exact Hh |].
  split; [exact Hi |]. apply Hv. reflexivity.
Defined.

(** X21: for a window that is not iconic [X11DRV_set_iconic_state] unmaps
    and iconifies nothing, and sets the initial state [NormalState].  It
    maps the client window exactly when the window is not minimized and its
    client rectangle is not empty, and the whole window exactly when the
    window is visible and its window rectangle is not empty; no other window
    is mapped. *)
Theorem set_iconic_state_normal
        (win : WND) (data : x11drv_win_data) (got : option (XWMHints * Z * Z)) :
  pDriverData win = Some data ->
  exists calls hints,
    X11DRV_set_iconic_state win false got = Some calls /\
    (forall w, ~ In (Plain (XUnmapWindow w)) calls) /\
    (forall w, ~ In (XIconifyWindow w) calls) /\
    In (XSetWMHints_at (whole_window data) hints
          (left (rectWindow win)) (top (rectWindow win))) calls /\
    initial_state hints = X11.NormalState /\
    (forall w,
       In (Plain (XMapWindow w)) calls <->
       (w = client_window data /\
        has_bits (dwStyle win) WS.MINIMIZE = false /\
        IsRectEmpty (client_rect data) = false) \/
       (w = whole_window data /\
        has_bits (dwStyle win) WS.VISIBLE = true /\
        IsRectEmpty (rectWindow win) = false)).
Proof.
  intros Hd. unfold X11DRV_set_iconic_state.
  rewrite Hd, (client_window_mapped_run win data Hd).
  eexists _, _. split; [reflexivity |].
  destruct (has_bits (dwStyle win) WS.MINIMIZE),
           (IsRectEmpty (client_rect data)),
           (has_bits (dwStyle win) WS.VISIBLE),
           (IsRectEmpty (rectWindow win));
    cbn [negb andb app];
    (split; [intros w Hin; cbn [In] in Hin; intuition discriminate |]);
    (split; [intros w Hin; cbn [In] in Hin; intuition discriminate |]);
    (split; [cbn [In]; auto |]);
    (split; [reflexivity |]);
    intros w; cbn [In]; split;
    try (intros [H | H]; [injection H as <- | ]);
    intuition (try discriminate; try congruence).
Qed.

Lemma set_iconic_state_normal_witness :
  exists calls hints,
    X11DRV_set_iconic_state
      (mkWND 203 1 0 WS.VISIBLE 0 0
         (mkRECT 10 10 210 110) (mkRECT 14 33 206 106) (Some iconless_data))
      false None = Some calls /\
    In (XSetWMHints_at 601 hints 10 10) calls /\
    initial_state hints = X11.NormalState /\
    In (Plain (XMapWindow 602)) calls /\
    In (Plain (XMapWindow 601)) calls.
Proof.
  destruct (set_iconic_state_normal
              (mkWND 203 1 0 WS.VISIBLE 0 0
                 (mkRECT 10 10 210 110) (mkRECT 14 33 206 106)
                 (Some iconless_data))
              iconless_data None eq_refl)
    as (calls & hints & E & _ & _ & Hh & Hi & Hm).
  exists calls, hints.
  split; [exact E |]. split; [exact Hh |]. split; [exact Hi |].
  split; apply Hm.
  - left. repeat split.
  - right. repeat split.
Defined.

(** X22: [X11DRV_set_iconic_state] never drops a hint that is already set on
    the whole window: every flag of the hints read back from the X server is
    still set in the hints it writes, the state and icon position flags are
    added, and the input, icon pixmap, icon window, icon mask and group
    fields are written back unchanged. *)
Theorem set_iconic_state_keeps_hints
        (win : WND) (data : x11drv_win_data) (iconic : bool)
        (old : XWMHints) (x y : Z) :
  pDriverData win = Some data ->
  exists calls hints,
    X11DRV_set_iconic_state win iconic (Some (old, x, y)) = Some calls /\
    In (XSetWMHints_at (whole_window data) hints
          (left (rectWindow win)) (top (rectWindow win))) calls /\
    (forall h ix iy, In (XSetWMHints_at (whole_window data) h ix iy) calls ->
                     h = hints) /\
    (forall m, has_bits (wm_flags old) m = true ->
               has_bits (wm_flags hints) m = true) /\
    has_bits (wm_flags hints) X11.StateHint = true /\
    has_bits (wm_flags hints) X11.IconPositionHint = true /\
    (forall m, m .& (X11.StateHint .| X11.IconPositionHint) = 0 ->
               has_bits (wm_flags hints) m = has_bits (wm_flags old) m) /\
    wm_input hints = wm_input old /\
    icon_pixmap hints = icon_pixmap old /\
    wm_icon_window hints = wm_icon_window old /\
    icon_mask hints = icon_mask old /\
    window_group hints = window_group old.
Proof.
  intros Hd. unfold X11DRV_set_iconic_state.
  rewrite Hd, (client_window_mapped_run win data Hd).
  eexists _, _. split; [reflexivity |].
  split.
  { apply in_or_app. right. left. reflexivity. }
  split.
  { intros h ix iy Hin.
    apply in_app_or in Hin. destruct Hin as [Hin | Hin].
    - destruct iconic;
        [| destruct (negb _ && negb _)]; cbn [In] in Hin;
        intuition discriminate.
    - cbn [app In] in Hin. destruct Hin as [Hin | Hin].
      + injection Hin as <- _ _. reflexivity.
      + destruct (has_bits (dwStyle win) WS.VISIBLE), iconic,
                 (negb (IsRectEmpty (rectWindow win)));
          cbn [In] in Hin; intuition discriminate. }
  cbn [wm_flags wm_input icon_pixmap wm_icon_window icon_mask window_group].
  split; [intros m Hm; apply has_bits_lor_more; exact Hm |].
  split; [rewrite Z.lor_comm; apply has_bits_lor_more; reflexivity |].
  split; [rewrite Z.lor_comm; apply has_bits_lor_more; reflexivity |].
  split.
  { intros m Hm. apply has_bits_lor_other.
    rewrite Z.land_comm. exact Hm. }
  repeat split.
Qed.

Lemma set_iconic_state_keeps_hints_witness :
  exists calls hints,
    X11DRV_set_iconic_state (st_win window_with_icons) true
      (Some (mkWMHints (X11.InputHint .| X11.IconWindowHint) true 1 0 650 0 0,
             0, 0)) = Some calls /\
    In (XSetWMHints_at 601 hints 10 10) calls /\
    has_bits (wm_flags hints) X11.IconWindowHint = true /\
    wm_icon_window hints = 650.
Proof.
  destruct (set_iconic_state_keeps_hints (st_win window_with_icons)
              (mkData 601 602 650 (mkRECT 14 33 206 106)
                 (mkRECT 0 0 192 73) 71 72)
              true
              (mkWMHints (X11.InputHint .| X11.IconWindowHint) true 1 0 650 0 0)
              0 0 eq_refl)
    as (calls & hints & E & Hin & _ & Hk & _ & _ & _ & _ & _ & Hw & _).
  exists calls, hints.
  split; [exact E |]. split; [exact Hin |].
  split; [apply Hk; reflexivity | exact Hw].
Defined.

(** ** Hooks and messages of a creation *)

(** X23: when both X windows were created and the WH_CBT hook answers with a
    non-zero value, [X11DRV_CreateWindow] sends no message: after the hook it
    takes the [failed:] exit, which deletes the context entries, destroys the
    whole window, then the icon window and the icon bitmaps if there are any,
    and frees the driver data.  It returns [FALSE] and the window has no
    driver data. *)
Theorem CreateWindow_hook_veto
        (env : Env) (user : User) (cs : CREATESTRUCTA) (unicode : bool)
        (s : State) (pw : Window) :
  parent (st_win s) <> 0 ->
  X11DRV_get_client_window env (parent (st_win s)) = Some pw ->
  (owner (st_win s) <> 0 ->
   exists ow, X11DRV_get_whole_window env (owner (st_win s)) = Some ow) ->
  HOOK_IsHooked_CBT user = true ->
  HOOK_CallHooks_reply user <> 0 ->
  forall w s1 t1 c s2 t2,
    create_whole_window env (creation_started (limit_size cs) s) =
      Some (w, s1, t1) ->
    w <> 0 ->
    create_client_window s1 = Some (c, s2, t2) ->
    c <> 0 ->
    exists d2 s3 t3,
      pDriverData (st_win s2) = Some d2 /\
      whole_window d2 = w /\ client_window d2 = c /\
      X11DRV_CreateWindow env user cs unicode s =
        Some ((false, limit_size cs), s3,
              t1 ++ t2 ++
              [XSync;
               SetPropA (hwndSelf (st_win s)) whole_window_atom w;
               SetPropA (hwndSelf (st_win s)) client_window_atom c;
               HOOK_CallHooks unicode (hwndSelf (st_win s)) (limit_size cs)
                 (if (cs_style cs .& (WS.CHILD .| WS.MAXIMIZE)) =? WS.CHILD
                  then WS.HWND_BOTTOM else WS.HWND_TOP)] ++
              t3) /\
      t3 = [XSync; XDeleteContext w; XDeleteContext c; XDestroyWindow w] ++
           (if icon_window d2 =? 0 then []
            else [XDeleteContext (icon_window d2);
                  XDestroyWindow (icon_window d2);
                  RemovePropA (hwndSelf (st_win s)) icon_window_atom]) ++
           (if hWMIconBitmap d2 =? 0 then []
            else [DeleteObject (hWMIconBitmap d2)]) ++
           (if hWMIconMask d2 =? 0 then []
            else [DeleteObject (hWMIconMask d2)]) ++
           [HeapFree_data] /\
      pDriverData (st_win s3) = None.
Proof.
  intros Hpar Hpw Hown Hhook Hveto w s1 t1 c s2 t2 Ew' Hw Ec' Hc.
  destruct (CreateWindow_structure env user cs unicode s pw Hpar Hpw Hown)
    as (d1 & r1 & t1' & d2 & t2' & Ew & Ec & Hd2w & Hd2c & E).
  cbv zeta in *.
  rewrite Ew in Ew'. injection Ew' as <- <- <-.
  rewrite Ec in Ec'. injection Ec' as <- <- <-.
  apply Z.eqb_neq in Hw. apply Z.eqb_neq in Hc. rewrite Hw, Hc in E.
  unfold creation_announced in E. rewrite Hhook in E.
  apply Z.eqb_neq in Hveto. rewrite Hveto in E. cbn [negb andb] in E.
  unfold failed_exit in E.
  match type of E with
  | context [X11DRV_DestroyWindow ?st] =>
      rewrite (DestroyWindow_run st d2 eq_refl) in E
  end.
  rewrite Hd2w, Hd2c, Hw in E. cbn [after] in E.
  exists d2. eexists.
  exists ([XSync; XDeleteContext (hd 0 (st_replies s)); XDeleteContext (hd 0 r1);
           XDestroyWindow (hd 0 (st_replies s))] ++
          (if icon_window d2 =? 0 then []
           else [XDeleteContext (icon_window d2);
                 XDestroyWindow (icon_window d2);
                 RemovePropA (hwndSelf (st_win s)) icon_window_atom]) ++
          (if hWMIconBitmap d2 =? 0 then []
           else [DeleteObject (hWMIconBitmap d2)]) ++
          (if hWMIconMask d2 =? 0 then []
           else [DeleteObject (hWMIconMask d2)]) ++
          [HeapFree_data]).
  split; [reflexivity |]. split; [exact Hd2w |]. split; [exact Hd2c |].
  split.
  - rewrite E.
    cbn [with_data pop_reply with_data_replies st_win set_pDriverData hwndSelf
         whole_window_created set_dwExStyle creation_started set_rects].
    rewrite <- !app_assoc. cbn [app]. reflexivity.
  - split; reflexivity.
Qed.

Lemma CreateWindow_hook_veto_witness :
  exists s3 t1 t2,
    X11DRV_CreateWindow managed_env
      (mkUser 33 true 1 (1024, 768) (100, 30) 1 (fun r => r) 0 false
              (mkRECT 0 0 0 0) 0 (fun _ => false))
      (mkCS 10 10 200 100 (WS.POPUP .| WS.DLGFRAME)) false dialog_window =
      Some ((false, mkCS 10 10 200 100 (WS.POPUP .| WS.DLGFRAME)), s3,
            t1 ++ t2 ++
            [XSync; SetPropA 203 whole_window_atom 601;
             SetPropA 203 client_window_atom 602;
             HOOK_CallHooks false 203
               (mkCS 10 10 200 100 (WS.POPUP .| WS.DLGFRAME)) WS.HWND_TOP] ++
            [XSync; XDeleteContext 601; XDeleteContext 602; XDestroyWindow 601;
             HeapFree_data]) /\
    pDriverData (st_win s3) = None.
Proof.
  destruct (create_whole_window managed_env
              (creation_started
                 (limit_size (mkCS 10 10 200 100 (WS.POPUP .| WS.DLGFRAME)))
                 dialog_window)) as [[[w s1] t1] |] eqn:Ew;
    [| vm_compute in Ew; discriminate Ew].
  pose proof Ew as Ew'. vm_compute in Ew'.
  assert (Hw : w = 601) by (injection Ew'; intros; congruence).
  assert (Hs1 : s1 = mkState
              (mkWND 203 1 0 (WS.POPUP .| WS.DLGFRAME) 0 0
                 (mkRECT 10 10 210 110) (mkRECT 10 10 210 110)
                 (Some (mkData 601 0 0 (mkRECT 10 10 210 110)
                          (mkRECT 0 0 0 0) 0 0)))
              0 [602]).
  { injection Ew'; intros; subst; reflexivity. }
  subst w s1. clear Ew'.
  destruct (create_client_window
              (mkState
                 (mkWND 203 1 0 (WS.POPUP .| WS.DLGFRAME) 0 0
                    (mkRECT 10 10 210 110) (mkRECT 10 10 210 110)
                    (Some (mkData 601 0 0 (mkRECT 10 10 210 110)
                             (mkRECT 0 0 0 0) 0 0)))
                 0 [602])) as [[[c s2] t2] |] eqn:Ec;
    [| vm_compute in Ec; discriminate Ec].
  pose proof Ec as Ec'. vm_compute in Ec'.
  assert (Hc : c = 602) by (injection Ec'; intros; congruence).
  assert (Hs2 : s2 = mkState
              (mkWND 203 1 0 (WS.POPUP .| WS.DLGFRAME) 0 0
                 (mkRECT 10 10 210 110) (mkRECT 10 10 210 110)
                 (Some (mkData 601 602 0 (mkRECT 10 10 210 110)
                          (mkRECT 0 0 200 100) 0 0)))
              0 []).
  { injection Ec'; intros; subst; reflexivity. }
  subst c s2. clear Ec'.
  destruct (CreateWindow_hook_veto managed_env
              (mkUser 33 true 1 (1024, 768) (100, 30) 1 (fun r => r) 0 false
                      (mkRECT 0 0 0 0) 0 (fun _ => false))
              (mkCS 10 10 200 100 (WS.POPUP .| WS.DLGFRAME)) false
              dialog_window 1
              ltac:(discriminate) eq_refl
              ltac:(intros F; contradiction F; reflexivity)
              eq_refl ltac:(discriminate)
              _ _ _ _ _ _ Ew ltac:(discriminate) Ec ltac:(discriminate))
    as (d2 & s3 & t3 & Hd2 & _ & _ & E & Ht3 & Hn).
  injection Hd2 as <-.
  cbn [icon_window hWMIconBitmap hWMIconMask Z.eqb app] in Ht3.
  rewrite Ht3 in E.
  exists s3, t1, t2. split; [exact E | exact Hn].
Defined.

Lemma CreateWindow_fix_size_goes_on
      (env : Env) (user : User) (cs cs1 : CREATESTRUCTA) (s s1 : State)
      (b : bool) (t : list Call) :
  window_gone user after_WM_GETMINMAXINFO = false ->
  CreateWindow_fix_size env user cs s = Some ((b, cs1), s1, t) ->
  b = true.
Proof.
  intros Hgone. unfold CreateWindow_fix_size. xrun.
  destruct (has_bits (cs_style cs) WS.THICKFRAME
            || negb (has_bits (cs_style cs) (WS.POPUP .| WS.CHILD))).
  - xrun. rewrite Hgone. xrun. unfold bind.
    destruct (X11DRV_sync_whole_window_position env 0 _) as [[[m s2] t2] |];
      [| cbn; discriminate].
    cbn. intros E. injection E as <- _ _ _. reflexivity.
  - intros E. injection E as <- _ _ _. reflexivity.
Qed.

Lemma CreateWindow_messages_refused
      (env : Env) (user : User) (cs : CREATESTRUCTA) (unicode : bool) (s : State) :
  WM_NCCREATE_reply user = 0 ->
  CreateWindow_messages env user cs unicode s =
    Some (false, s, [SendMessage unicode (hwndSelf (st_win s)) (WM_NCCREATE cs)]).
Proof.
  intros H. unfold CreateWindow_messages. xrun. rewrite H. reflexivity.
Qed.

(** X24: when both X windows were created, the hook does not object, the
    window is still there after the size was negotiated, and the window
    procedure answers WM_NCCREATE with 0, [X11DRV_CreateWindow] returns
    [FALSE] at once, without the [failed:] exit: the message is its last
    call, and the window keeps its driver data with both X windows. *)
Theorem CreateWindow_refused
        (env : Env) (user : User) (cs : CREATESTRUCTA) (unicode : bool)
        (s : State) (pw : Window) :
  parent (st_win s) <> 0 ->
  X11DRV_get_client_window env (parent (st_win s)) = Some pw ->
  (owner (st_win s) <> 0 ->
   exists ow, X11DRV_get_whole_window env (owner (st_win s)) = Some ow) ->
  HOOK_IsHooked_CBT user && negb (HOOK_CallHooks_reply user =? 0) = false ->
  window_gone user after_WM_GETMINMAXINFO = false ->
  WM_NCCREATE_reply user = 0 ->
  forall w s1 t1 c s2 t2,
    create_whole_window env (creation_started (limit_size cs) s) =
      Some (w, s1, t1) ->
    w <> 0 ->
    create_client_window s1 = Some (c, s2, t2) ->
    c <> 0 ->
    exists cs1 s' between d',
      X11DRV_CreateWindow env user cs unicode s =
        Some ((false, cs1), s',
              t1 ++ t2 ++
              [XSync;
               SetPropA (hwndSelf (st_win s)) whole_window_atom w;
               SetPropA (hwndSelf (st_win s)) client_window_atom c] ++
              between ++
              [SendMessage unicode (hwndSelf (st_win s)) (WM_NCCREATE cs1)]) /\
      pDriverData (st_win s') = Some d' /\
      whole_window d' = w /\ client_window d' = c.
Proof.
  intros Hpar Hpw Hown Hhook Hgone Hnc w s1 t1 c s2 t2 Ew' Hw Ec' Hc.
  destruct (CreateWindow_structure env user cs unicode s pw Hpar Hpw Hown)
    as (d1 & r1 & t1' & d2 & t2' & Ew & Ec & Hd2w & Hd2c & E).
  cbv zeta in *.
  rewrite Ew in Ew'. injection Ew' as <- <- <-.
  rewrite Ec in Ec'. injection Ec' as <- <- <-.
  apply Z.eqb_neq in Hw. apply Z.eqb_neq in Hc. rewrite Hw, Hc in E.
  unfold creation_announced in E. rewrite Hhook in E.
  match type of E with
  | context [CreateWindow_fix_size env user ?c ?st] =>
      destruct (CreateWindow_fix_size_run env user c st d2 eq_refl)
        as (b & cs1 & s1' & tf & Ef & Hsame & _);
      pose proof (CreateWindow_fix_size_goes_on _ _ _ _ _ _ _ _ Hgone Ef) as Hb
  end.
  subst b. rewrite Ef in E.
  rewrite (CreateWindow_messages_refused env user cs1 unicode s1' Hnc) in E.
  destruct Hsame as (Hh & _ & d2' & d3 & E2 & E3 & Hw3 & Hc3 & _).
  cbn [with_data st_win set_pDriverData pDriverData] in E2. injection E2 as <-.
  cbn [with_data pop_reply with_data_replies st_win set_pDriverData hwndSelf
       whole_window_created set_dwExStyle creation_started set_rects] in Hh.
  rewrite Hh in E. cbn [after] in E.
  exists cs1, s1',
    ((if HOOK_IsHooked_CBT user
      then [HOOK_CallHooks unicode (hwndSelf (st_win s)) (limit_size cs)
              (if (cs_style cs .& (WS.CHILD .| WS.MAXIMIZE)) =? WS.CHILD
               then WS.HWND_BOTTOM else WS.HWND_TOP)]
      else []) ++ tf), d3.
  split.
  - rewrite E. rewrite <- !app_assoc. cbn [app]. reflexivity.
  - split; [exact E3 |]. split; [rewrite Hw3; exact Hd2w |].
    rewrite Hc3; exact Hd2c.
Qed.

Lemma CreateWindow_refused_witness :
  exists cs1 s' t1 t2 between d',
    X11DRV_CreateWindow managed_env
      (mkUser 33 false 0 (1024, 768) (100, 30) 0 (fun r => r) 0 false
              (mkRECT 0 0 0 0) 0 (fun _ => false))
      (mkCS 10 10 200 100 (WS.POPUP .| WS.DLGFRAME)) false dialog_window =
      Some ((false, cs1), s',
            t1 ++ t2 ++
            [XSync; SetPropA 203 whole_window_atom 601;
             SetPropA 203 client_window_atom 602] ++
            between ++
            [SendMessage false 203 (WM_NCCREATE cs1)]) /\
    pDriverData (st_win s') = Some d' /\
    whole_window d' = 601 /\ client_window d' = 602.
Proof.
  destruct (create_whole_window managed_env
              (creation_started
                 (limit_size (mkCS 10 10 200 100 (WS.POPUP .| WS.DLGFRAME)))
                 dialog_window)) as [[[w s1] t1] |] eqn:Ew;
    [| vm_compute in Ew; discriminate Ew].
  pose proof Ew as Ew'. vm_compute in Ew'.
  assert (Hw : w = 601) by (injection Ew'; intros; congruence).
  assert (Hs1 : s1 = mkState
              (mkWND 203 1 0 (WS.POPUP .| WS.DLGFRAME) 0 0
                 (mkRECT 10 10 210 110) (mkRECT 10 10 210 110)
                 (Some (mkData 601 0 0 (mkRECT 10 10 210 110)
                          (mkRECT 0 0 0 0) 0 0)))
              0 [602]).
  { injection Ew'; intros; subst; reflexivity. }
  subst w s1. clear Ew'.
  destruct (create_client_window
              (mkState
                 (mkWND 203 1 0 (WS.POPUP .| WS.DLGFRAME) 0 0
                    (mkRECT 10 10 210 110) (mkRECT 10 10 210 110)
                    (Some (mkData 601 0 0 (mkRECT 10 10 210 110)
                             (mkRECT 0 0 0 0) 0 0)))
                 0 [602])) as [[[c s2] t2] |] eqn:Ec;
    [| vm_compute in Ec; discriminate Ec].
  pose proof Ec as Ec'. vm_compute in Ec'.
  assert (Hc : c = 602) by (injection Ec'; intros; congruence).
  subst c. clear Ec'.
  destruct (CreateWindow_refused managed_env
              (mkUser 33 false 0 (1024, 768) (100, 30) 0 (fun r => r) 0 false
                      (mkRECT 0 0 0 0) 0 (fun _ => false))
              (mkCS 10 10 200 100 (WS.POPUP .| WS.DLGFRAME)) false
              dialog_window 1
              ltac:(discriminate) eq_refl
              ltac:(intros F; contradiction F; reflexivity)
              eq_refl eq_refl eq_refl
              _ _ _ _ _ _ Ew ltac:(discriminate) Ec ltac:(discriminate))
    as (cs1 & s' & between & d' & E & Hd' & Hw' & Hc').
  exists cs1, s', t1, t2, between, d'.
  split; [exact E |]. split; [exact Hd' |]. split; [exact Hw' | exact Hc'].
Defined.

(** X25: where the size is negotiated, [X11DRV_CreateWindow] asks for the
    limits first and then takes each dimension down to the maximal size, up
    to the minimal tracking size and up to 0, in this order: the minimal
    tracking size wins over the maximal size, and the result is never
    negative.  The position and the style are kept.  When the window is gone
    the function returns [FALSE] with the state as it was; otherwise the
    window and client rectangles become the rectangle of the negotiated size
    and the whole rectangle is synchronised with it. *)
Theorem CreateWindow_fix_size_bounds
        (env : Env) (user : User) (cs : CREATESTRUCTA)
        (s : State) (d : x11drv_win_data) :
  pDriverData (st_win s) = Some d ->
  size_not_negotiated (cs_style cs) = false ->
  let maxSize := GetMinMaxInfo_maxSize user in
  let minTrack := GetMinMaxInfo_minTrack user in
  exists b cs' s' calls,
    CreateWindow_fix_size env user cs s = Some ((b, cs'), s', calls) /\
    b = negb (window_gone user after_WM_GETMINMAXINFO) /\
    cs_x cs' = cs_x cs /\ cs_y cs' = cs_y cs /\ cs_style cs' = cs_style cs /\
    cs_cx cs' = Z.max 0 (Z.max (fst minTrack) (Z.min (cs_cx cs) (fst maxSize))) /\
    cs_cy cs' = Z.max 0 (Z.max (snd minTrack) (Z.min (cs_cy cs) (snd maxSize))) /\
    hd_error calls = Some (WINPOS_GetMinMaxInfo (hwndSelf (st_win s))) /\
    (b = false -> s' = s /\ calls = [WINPOS_GetMinMaxInfo (hwndSelf (st_win s))]) /\
    (b = true ->
     rectWindow (st_win s') = creation_rect cs' /\
     rectClient (st_win s') = creation_rect cs' /\
     exists d',
       pDriverData (st_win s') = Some d' /\
       whole_rect d' =
         X11DRV_window_to_X_rect env (st_win s') (creation_rect cs')).
Proof.
  intros Hd Hneg maxSize minTrack.
  unfold size_not_negotiated in Hneg. apply negb_false_iff in Hneg.
  unfold CreateWindow_fix_size. xrun. rewrite Hneg. xrun. cbv zeta.
  fold maxSize. fold minTrack.
  match goal with
  | |- context [mkCS (cs_x cs) (cs_y cs) ?a ?b (cs_style cs)] =>
      set (cx := a); set (cy := b)
  end.
  assert (Hcx : cx = Z.max 0 (Z.max (fst minTrack) (Z.min (cs_cx cs) (fst maxSize)))).
  { unfold cx.
    repeat match goal with
           | |- context [?a <? ?b] =>
               lazymatch a with
               | context [if _ then _ else _] => fail
               | _ => destruct (Z.ltb_spec a b)
               end
           end; lia. }
  assert (Hcy : cy = Z.max 0 (Z.max (snd minTrack) (Z.min (cs_cy cs) (snd maxSize)))).
  { unfold cy.
    repeat match goal with
           | |- context [?a <? ?b] =>
               lazymatch a with
               | context [if _ then _ else _] => fail
               | _ => destruct (Z.ltb_spec a b)
               end
           end; lia. }
  clearbody cx cy.
  destruct (window_gone user after_WM_GETMINMAXINFO).
  - do 4 eexists. split; [reflexivity |].
    split; [reflexivity |].
    repeat (split; [first [reflexivity | assumption] |]).
    split; [intros _; split; reflexivity | discriminate].
  - xrun.
    match goal with
    | |- context [bind (X11DRV_sync_whole_window_position env 0) _ ?st] =>
        destruct (sync_whole_run env st d Hd) as (h & _ & E)
    end.
    cbv zeta in E. rewrite (bind_Some _ _ _ _ _ _ E). xrun.
    do 4 eexists. split; [reflexivity |].
    split; [reflexivity |].
    repeat (split; [first [reflexivity | assumption] |]).
    split; [discriminate |].
    intros _. split; [reflexivity |]. split; [reflexivity |].
    eexists. split; reflexivity.
Qed.

Lemma CreateWindow_fix_size_bounds_witness :
  exists s' calls,
    CreateWindow_fix_size managed_env
      (mkUser 33 false 0 (150, 768) (180, 30) 1 (fun r => r) 0 false
              (mkRECT 0 0 0 0) 0 (fun _ => false))
      (mkCS 10 10 200 (-5) WS.CAPTION)
      (mkState (mkWND 203 1 0 WS.CAPTION 0 0
                  (mkRECT 10 10 210 5) (mkRECT 10 10 210 5)
                  (Some (mkData 601 602 0 (mkRECT 10 10 210 5)
                           (mkRECT 0 0 200 (-5)) 0 0)))
               0 []) =
      Some ((true, mkCS 10 10 180 30 WS.CAPTION), s', calls) /\
    rectWindow (st_win s') = mkRECT 10 10 190 40.
Proof.
  destruct (CreateWindow_fix_size_bounds managed_env
              (mkUser 33 false 0 (150, 768) (180, 30) 1 (fun r => r) 0 false
                      (mkRECT 0 0 0 0) 0 (fun _ => false))
              (mkCS 10 10 200 (-5) WS.CAPTION)
              (mkState (mkWND 203 1 0 WS.CAPTION 0 0
                          (mkRECT 10 10 210 5) (mkRECT 10 10 210 5)
                          (Some (mkData 601 602 0 (mkRECT 10 10 210 5)
                                   (mkRECT 0 0 200 (-5)) 0 0)))
                       0 [])
              _ eq_refl eq_refl)
    as (b & cs' & s' & calls & E & Hb & Hx & Hy & Hst & Hcx & Hcy & _ & _ & Hr).
  cbn in Hb, Hx, Hy, Hst, Hcx, Hcy.
  destruct cs' as [x y cx cy st]. cbn in Hx, Hy, Hst, Hcx, Hcy. subst.
  destruct (Hr eq_refl) as (Hrw & _).
  exists s', calls. split; [exact E | exact Hrw].
Defined.
